(** * A shallow embedding of the DTSX package parser and diagram generator

    The development follows [dtsx_parser/models.py], [dtsx_parser/parser.py]
    and [dtsx_parser/diagram_generator.py].  Python values are modelled as
    follows.

    - A [str] is a Rocq [string]; each [ascii] stands for one code point in
      the range U+0000..U+00FF, so that the character predicates of Python
      ([str.isalnum], [str.lower], whitespace) are the exact restriction of
      the Unicode ones to that range.
    - An [int] is a [Z].
    - [Optional[str]] is [option string]; a value whose Python type varies
      at run time is a [pyval].
    - A dataclass is a record, declared in a module that bears the name of
      the class so that fields keep the names of the source.
    - A Python exception is the [Raise] branch of [outcome]. *)

From Stdlib Require Import ZArith Ascii String List Bool Lia DecimalString Sorted.
From stdpp Require Import gmap strings list.

(** ** Exceptions *)

Inductive exn : Type :=
| ParseError       (* xml.etree.ElementTree.ParseError, or an I/O failure *)
| ValueError
| TypeError
| AttributeError.

Inductive outcome (A : Type) : Type :=
| Ok (a : A)
| Raise (e : exn).
Arguments Ok {A} a.
Arguments Raise {A} e.

#[global] Instance outcome_ret : MRet outcome := fun _ a => Ok a.
#[global] Instance outcome_bind : MBind outcome := fun _ _ f m =>
  match m with
  | Ok a => f a
  | Raise e => Raise e
  end.

#[global] Instance outcome_fmap : FMap outcome := fun _ _ f m =>
  match m with
  | Ok a => Ok (f a)
  | Raise e => Raise e
  end.

Definition returns {A} (m : outcome A) : bool :=
  match m with Ok _ => true | Raise _ => false end.

(** ** Python strings *)

Module Py.

Definition code (c : ascii) : nat := nat_of_ascii c.

Definition between (lo hi : nat) (c : ascii) : bool :=
  (lo <=? code c)%nat && (code c <=? hi)%nat.

Definition is_ascii (c : ascii) : bool := (code c <? 128)%nat.

Definition is_ascii_digit (c : ascii) : bool := between 48 57 c.
Definition is_ascii_upper (c : ascii) : bool := between 65 90 c.
Definition is_ascii_lower (c : ascii) : bool := between 97 122 c.

Definition is_ascii_alnum (c : ascii) : bool :=
  is_ascii_digit c || is_ascii_upper c || is_ascii_lower c.

(** [str.isalnum] on one character: [isalpha], [isdecimal], [isdigit] or
    [isnumeric].  Above U+007F this holds of the ordinal indicators, the
    micro sign, the superscript digits, the vulgar fractions and the
    letters U+00C0..U+00FF apart from the multiplication and the division
    sign. *)
Definition isalnum (c : ascii) : bool :=
  is_ascii_alnum c
  || (code c =? 170)%nat || (code c =? 178)%nat || (code c =? 179)%nat
  || (code c =? 181)%nat || (code c =? 185)%nat || (code c =? 186)%nat
  || between 188 190 c
  || between 192 214 c || between 216 246 c || between 248 255 c.

(** [str.isspace] on one character. *)
Definition isspace (c : ascii) : bool :=
  between 9 13 c || between 28 32 c || (code c =? 133)%nat || (code c =? 160)%nat.

(** [str.lower] on one character: the upper-case letters of the range are
    A..Z and U+00C0..U+00DE without U+00D7. *)
Definition lower_char (c : ascii) : ascii :=
  if is_ascii_upper c || (between 192 222 c && negb (code c =? 215)%nat)
  then ascii_of_nat (code c + 32)
  else c.

Fixpoint lower (s : string) : string :=
  match s with
  | EmptyString => EmptyString
  | String c s' => String (lower_char c) (lower s')
  end.

Definition len (s : string) : nat := String.length s.

Definition startswith (p s : string) : bool := String.prefix p s.

(** [sub in s] *)
Fixpoint contains (sub s : string) : bool :=
  String.prefix sub s
  || match s with
     | EmptyString => false
     | String _ s' => contains sub s'
     end.

Fixpoint drop (n : nat) (s : string) : string :=
  match n, s with
  | O, _ => s
  | S _, EmptyString => EmptyString
  | S k, String _ s' => drop k s'
  end.

(** [s[:n]] *)
Fixpoint take (n : nat) (s : string) : string :=
  match n, s with
  | O, _ => EmptyString
  | S _, EmptyString => EmptyString
  | S k, String c s' => String c (take k s')
  end.

Definition endswith (suf s : string) : bool :=
  (len suf <=? len s)%nat && String.eqb (drop (len s - len suf) s) suf.

Definition rev (s : string) : string :=
  string_of_list_ascii (List.rev (list_ascii_of_string s)).

Fixpoint filter (p : ascii -> bool) (s : string) : string :=
  match s with
  | EmptyString => EmptyString
  | String c s' => if p c then String c (filter p s') else filter p s'
  end.

Fixpoint forallb (p : ascii -> bool) (s : string) : bool :=
  match s with
  | EmptyString => true
  | String c s' => p c && forallb p s'
  end.

Fixpoint lstrip (p : ascii -> bool) (s : string) : string :=
  match s with
  | EmptyString => EmptyString
  | String c s' => if p c then lstrip p s' else s
  end.

Definition strip_with (p : ascii -> bool) (s : string) : string :=
  rev (lstrip p (rev (lstrip p s))).

(** [s.strip()] *)
Definition strip (s : string) : string := strip_with isspace s.

Fixpoint mem_char (c : ascii) (chars : string) : bool :=
  match chars with
  | EmptyString => false
  | String d chars' => Ascii.eqb c d || mem_char c chars'
  end.

(** [s.strip(chars)] *)
Definition strip_chars (chars s : string) : string :=
  strip_with (fun c => mem_char c chars) s.

(** [s.replace(old, new)]: the occurrences of [old] are found from left to
    right and do not overlap.  [skip] counts the characters of an
    occurrence that are still to be passed over. *)
Fixpoint replace_go (old new : string) (skip : nat) (s : string) : string :=
  match s with
  | EmptyString => EmptyString
  | String c s' =>
      match skip with
      | S k => replace_go old new k s'
      | O =>
          if String.prefix old s
          then new +:+ replace_go old new (len old - 1) s'
          else String c (replace_go old new 0 s')
      end
  end.

Fixpoint intersperse (new s : string) : string :=
  match s with
  | EmptyString => new
  | String c s' => new +:+ String c (intersperse new s')
  end.

Definition replace (old new s : string) : string :=
  match old with
  | EmptyString => intersperse new s
  | _ => replace_go old new 0 s
  end.

(** [s.split(sep)] for a separator that is not empty (an empty separator
    raises in Python; every separator of the source is a literal of one
    character).  The result is never the empty list. *)
Fixpoint split_go (sep : string) (skip : nat) (s : string) : list string :=
  match s with
  | EmptyString => [EmptyString]
  | String c s' =>
      match skip with
      | S k => split_go sep k s'
      | O =>
          if String.prefix sep s
          then EmptyString :: split_go sep (len sep - 1) s'
          else match split_go sep 0 s' with
               | h :: t => String c h :: t
               | [] => [String c EmptyString]
               end
      end
  end.

Definition split (sep s : string) : list string := split_go sep 0 s.

(** [parts[-1]] on a list that is known not to be empty. *)
Definition last_part (parts : list string) : string := List.last parts EmptyString.

(** [sep.join(lines)] *)
Fixpoint join (sep : string) (lines : list string) : string :=
  match lines with
  | [] => EmptyString
  | [l] => l
  | l :: ls => l +:+ sep +:+ join sep ls
  end.

(** [c * n] *)
Fixpoint repeat (c : string) (n : nat) : string :=
  match n with
  | O => EmptyString
  | S k => c +:+ repeat c k
  end.

(** [s.center(width)], with the rounding of CPython: when the margin is
    odd, the extra space goes to the left exactly when the width is odd. *)
Definition center (width : nat) (s : string) : string :=
  let marg := (width - len s)%nat in
  let left := (marg / 2 + (if Nat.odd marg && Nat.odd width then 1 else 0))%nat in
  repeat " " left +:+ s +:+ repeat " " (marg - left).

(** [str(n)] for an integer. *)
Definition str_of_Z (z : Z) : string := NilZero.string_of_int (Z.to_int z).
Definition str_of_nat (n : nat) : string := NilZero.string_of_uint (Nat.to_uint n).

(** [int(s)] for a string: surrounding whitespace is dropped, a sign may
    come first, and the digits may be separated by single underscores.
    Within the code points modelled the decimal digits are 0..9.  The
    interpreter's limit on the number of digits is not modelled. *)
Definition digit_val (c : ascii) : Z := Z.of_nat (code c - 48).

Fixpoint digits_go (acc : Z) (after_digit : bool) (s : string) : option Z :=
  match s with
  | EmptyString => if after_digit then Some acc else None
  | String c s' =>
      if is_ascii_digit c then digits_go (10 * acc + digit_val c) true s'
      else if Ascii.eqb c "_" && after_digit
           then match s' with
                | String d _ => if is_ascii_digit d then digits_go acc false s' else None
                | EmptyString => None
                end
           else None
  end.

Definition int_of_string (s : string) : option Z :=
  match strip s with
  | String "+" s' => digits_go 0 false s'
  | String "-" s' => Z.opp <$> digits_go 0 false s'
  | s' => digits_go 0 false s'
  end.

End Py.

(** ** Values of varying type *)

Inductive pyval : Type :=
| PNone
| PBool (b : bool)
| PInt (z : Z)
| PStr (s : string).

(** Truth value of an object in a condition. *)
Definition truthy (v : pyval) : bool :=
  match v with
  | PNone => false
  | PBool b => b
  | PInt z => negb (z =? 0)%Z
  | PStr s => negb (String.eqb s EmptyString)
  end.

Definition truthy_str (o : option string) : bool :=
  match o with
  | Some s => negb (String.eqb s EmptyString)
  | None => false
  end.

(** [int(v)] *)
Definition py_int (v : pyval) : outcome Z :=
  match v with
  | PNone => Raise TypeError
  | PBool b => Ok (if b then 1 else 0)%Z
  | PInt z => Ok z
  | PStr s => match Py.int_of_string s with
              | Some z => Ok z
              | None => Raise ValueError
              end
  end.

(** A value read back as [Optional[str]]: every attribute that is stored is
    a string. *)
Definition as_str (v : pyval) : option string :=
  match v with
  | PStr s => Some s
  | _ => None
  end.

Definition of_opt (o : option string) : pyval :=
  match o with
  | Some s => PStr s
  | None => PNone
  end.

(** ** The document tree ([xml.etree.ElementTree.Element])

    [attrib] is the attribute dictionary in its iteration order; a document
    that parses has no attribute twice on one element. *)

#[warnings="-register-all"]
Inductive Element : Type :=
| mkElement (tag : string) (attrib : list (string * string))
            (text : option string) (children : list Element).

Definition tag (e : Element) : string :=
  match e with mkElement t _ _ _ => t end.
Definition attrib (e : Element) : list (string * string) :=
  match e with mkElement _ a _ _ => a end.
Definition text (e : Element) : option string :=
  match e with mkElement _ _ t _ => t end.
Definition children (e : Element) : list Element :=
  match e with mkElement _ _ _ cs => cs end.

(** [elem.iter()]: the element, then its descendants in document order. *)
Fixpoint iter (e : Element) : list Element :=
  match e with
  | mkElement _ _ _ cs =>
      e :: (fix iter_all (l : list Element) : list Element :=
              match l with
              | [] => []
              | c :: l' => iter c ++ iter_all l'
              end) cs
  end.

(** [d.get(key)] on a dictionary kept in iteration order. *)
Fixpoint dict_get (d : list (string * string)) (key : string) : option string :=
  match d with
  | [] => None
  | (k, v) :: d' => if String.eqb k key then Some v else dict_get d' key
  end.

(** [elem.get(key)] and [elem.get(key, default)] *)
Definition get (e : Element) (key : string) : option string :=
  dict_get (attrib e) key.
Definition get_or (e : Element) (key dflt : string) : string :=
  default dflt (get e key).

(** Loops of the form [for x in xs: if test(x): ...] run over [where test xs]. *)
Definition where_ {A} (test : A -> bool) (xs : list A) : list A :=
  List.filter test xs.

Fixpoint foldlM {A B} (f : B -> A -> outcome B) (b : B) (l : list A) : outcome B :=
  match l with
  | [] => Ok b
  | a :: l' => b' ← f b a; foldlM f b' l'
  end.

(** ** The data model ([models.py]) *)

Module PackageMetadata.
Record t : Type := mk {
  name : string;
  dtsid : string;
  creation_date : option string;
  creator_name : option string;
  creator_computer : option string;
  version_build : option string;
  version_guid : option string;
  package_format_version : option string;
  last_modified_version : option string;
  description : option string;
  locale_id : option string }.
End PackageMetadata.

Module Annotation.
Record t : Type := mk {
  ref_id : string;
  description : option string;
  tag : option string;
  text : option string;
  creation_date : option string }.
End Annotation.

Module ConnectionManager.
Record t : Type := mk {
  name : string;
  ref_id : string;
  dtsid : string;
  connection_type : string;
  connection_string : option string;
  server : option string;
  database : option string;
  provider : option string;
  description : option string;
  properties : gmap string string }.
End ConnectionManager.

(** The classes [Variable] and [Parameter] of the source. *)
Module PkgVariable.
Record t : Type := mk {
  name : string;
  namespace : string;
  dtsid : string;
  data_type : Z;
  value : option string;
  expression : option string;
  description : option string;
  read_only : bool;
  raise_event_on_change : bool }.
End PkgVariable.

Module PkgParameter.
Record t : Type := mk {
  name : string;
  dtsid : string;
  data_type : Z;
  value : option string;
  description : option string;
  sensitive : bool;
  required : bool }.
End PkgParameter.

Module Column.
Record t : Type := mk {
  name : string;
  ref_id : option string;
  data_type : option string;
  length : option Z;
  precision : option Z;
  scale : option Z;
  is_nullable : bool }.
End Column.

Module OutputColumn.
Record t : Type := mk {
  name : string;
  ref_id : option string;
  data_type : option string;
  length : option Z;
  expression : option string;
  description : option string }.
End OutputColumn.

(** [is_default] is the value of [p.text and p.text.lower() == 'true'],
    which is [None], the empty string or a Boolean. *)
Module ConditionalOutput.
Record t : Type := mk {
  name : string;
  expression : option string;
  friendly_expression : option string;
  evaluation_order : option Z;
  is_default : pyval }.
End ConditionalOutput.

Module DataFlowComponent.
Record t : Type := mk {
  name : string;
  ref_id : string;
  component_type : string;
  component_class : string;
  description : option string;
  input_columns : list Column.t;
  output_columns : list OutputColumn.t;
  conditional_outputs : list ConditionalOutput.t;
  connection_manager : option string;
  sql_command : option string;
  table_name : option string;
  properties : gmap string (option string);
  has_error_output : bool }.
End DataFlowComponent.

Module DataFlowPath.
Record t : Type := mk {
  name : string;
  ref_id : string;
  source_ref_id : string;
  destination_ref_id : string;
  source_component : option string;
  destination_component : option string }.
End DataFlowPath.

Module DataFlowTask.
Record t : Type := mk {
  name : string;
  ref_id : string;
  dtsid : string;
  description : option string;
  components : list DataFlowComponent.t;
  paths : list DataFlowPath.t }.
End DataFlowTask.

Module PrecedenceConstraint.
Record t : Type := mk {
  name : string;
  ref_id : string;
  dtsid : string;
  from_ref : string;
  to_ref : string;
  value : Z;
  logical_and : bool;
  expression : option string;
  eval_op : option Z }.
End PrecedenceConstraint.

(** The task descriptor is a dictionary in the source.  Its keys are fixed:
    the five generic keys, the five keys that [_parse_sql_task_details]
    merges in and the five keys that [_parse_sendmail_task_details] merges
    in.  [task.get(k)] on a key of a group that was not merged is [None]. *)
Module SqlDetails.
Record t : Type := mk {
  sql_statement : option string;
  connection : option string;
  result_set_type : option string;
  parameter_bindings : list (option string * option string);
  result_bindings : list (option string * option string) }.
End SqlDetails.

Module MailDetails.
Record t : Type := mk {
  from_address : option string;
  to_address : option string;
  subject : option string;
  message_source : option string;
  smtp_connection : option string }.
End MailDetails.

Module TaskInfo.
Record t : Type := mk {
  name : string;
  ref_id : string;
  dtsid : string;
  type : string;
  description : option string;
  sql : option SqlDetails.t;
  mail : option MailDetails.t }.

Definition sql_statement (task : t) : option string :=
  d ← sql task; SqlDetails.sql_statement d.
Definition to_address (task : t) : option string :=
  d ← mail task; MailDetails.to_address d.
End TaskInfo.

Module ControlFlowStage.
Record t : Type := mk {
  order : Z;
  name : string;
  stage_type : string;
  description : option string;
  tasks : list TaskInfo.t;
  precedence_from : list string;
  precedence_to : list string;
  condition : option string }.

(** Assignments to a field of a stage object. *)
Definition append_precedence_to (ref : string) (s : t) : t :=
  mk (order s) (name s) (stage_type s) (description s) (tasks s)
     (precedence_from s) (precedence_to s ++ [ref]) (condition s).
Definition append_precedence_from (ref : string) (s : t) : t :=
  mk (order s) (name s) (stage_type s) (description s) (tasks s)
     (precedence_from s ++ [ref]) (precedence_to s) (condition s).
Definition set_condition (c : option string) (s : t) : t :=
  mk (order s) (name s) (stage_type s) (description s) (tasks s)
     (precedence_from s) (precedence_to s) c.
End ControlFlowStage.

Module EventHandler.
Record t : Type := mk {
  name : string;
  ref_id : string;
  dtsid : string;
  event_name : string;
  executables : list TaskInfo.t;
  precedence_constraints : list PrecedenceConstraint.t }.
End EventHandler.

Module ErrorHandlingStrategy.
Record t : Type := mk {
  event_handlers : list EventHandler.t;
  error_outputs : list (gmap string string);
  fail_package_on_failure : bool;
  max_error_count : Z;
  logging_mode : option string;
  logged_events : list (option string) }.
End ErrorHandlingStrategy.

Module DatabaseObject.
Record t : Type := mk {
  name : string;
  object_type : string;
  schema : string;
  database : option string;
  connection : option string;
  usage : string }.
End DatabaseObject.

Module Threshold.
Record t : Type := mk {
  name : string;
  value : option string;
  data_type : string;
  description : option string;
  category : string;
  action : option string }.
End Threshold.

Module Alert.
Record t : Type := mk {
  name : string;
  alert_type : string;
  condition : option string;
  recipients : option string;
  priority : string;
  category : string }.
End Alert.

Module DataFlowDiagram.
Record t : Type := mk {
  name : string;
  components : list string;
  paths : list (string * string * string);
  mermaid_code : option string;
  ascii_diagram : option string }.
End DataFlowDiagram.

Module DtsxPackage.
Record t : Type := mk {
  metadata : PackageMetadata.t;
  annotations : list Annotation.t;
  connection_managers : list ConnectionManager.t;
  variables : list PkgVariable.t;
  parameters : list PkgParameter.t;
  control_flow_stages : list ControlFlowStage.t;
  data_flow_tasks : list DataFlowTask.t;
  error_handling : option ErrorHandlingStrategy.t;
  database_objects : list DatabaseObject.t;
  thresholds : list Threshold.t;
  alerts : list Alert.t;
  data_flow_diagrams : list DataFlowDiagram.t;
  raw_precedence_constraints : list PrecedenceConstraint.t }.
End DtsxPackage.

(** ** The parser ([parser.py], class [DtsxParser]) *)

Module NAMESPACES.
Definition DTS : string := "www.microsoft.com/SqlServer/Dts".
Definition SQLTask : string := "www.microsoft.com/sqlserver/dts/tasks/sqltask".
Definition SendMailTask : string := "www.microsoft.com/sqlserver/dts/tasks/sendmailtask".
End NAMESPACES.

(** The key [{uri}name] under which the tree stores a qualified attribute. *)
Definition qualified (uri attr : string) : string := "{" +:+ uri +:+ "}" +:+ attr.

Definition _get_attr (elem : Element) (attr : string) (default : pyval) : pyval :=
  match get elem (qualified NAMESPACES.DTS attr) with
  | Some value => PStr value
  | None =>
      match get elem attr with
      | Some value => PStr value
      | None =>
          match get elem ("DTS:" +:+ attr) with
          | Some value => PStr value
          | None => default
          end
      end
  end.

(** [_get_attr] called with a string default, and with no default. *)
Definition get_attr_str (elem : Element) (attr dflt : string) : string :=
  match _get_attr elem attr (PStr dflt) with
  | PStr s => s
  | _ => dflt
  end.
Definition get_attr_opt (elem : Element) (attr : string) : option string :=
  as_str (_get_attr elem attr PNone).

(** [a or b] on strings. *)
Definition or_str (a b : string) : string :=
  if String.eqb a EmptyString then b else a.

Definition _find_property_value (root : Element) (prop_name : string) : option string :=
  match List.find (fun prop => Py.contains "Property" (tag prop)
                               && bool_decide (get_attr_opt prop "Name" = Some prop_name))
                  (iter root) with
  | Some prop => text prop
  | None => None
  end.

Definition _parse_metadata (root : Element) : PackageMetadata.t :=
  {| PackageMetadata.name := get_attr_str root "ObjectName" "Unknown";
     PackageMetadata.dtsid := get_attr_str root "DTSID" EmptyString;
     PackageMetadata.creation_date := get_attr_opt root "CreationDate";
     PackageMetadata.creator_name := get_attr_opt root "CreatorName";
     PackageMetadata.creator_computer := get_attr_opt root "CreatorComputerName";
     PackageMetadata.version_build := get_attr_opt root "VersionBuild";
     PackageMetadata.version_guid := get_attr_opt root "VersionGUID";
     PackageMetadata.package_format_version := _find_property_value root "PackageFormatVersion";
     PackageMetadata.last_modified_version := get_attr_opt root "LastModifiedProductVersion";
     PackageMetadata.description := None;
     PackageMetadata.locale_id := get_attr_opt root "LocaleID" |}.

Definition _parse_annotations (root : Element) : list Annotation.t :=
  elem ← where_ (fun elem => Py.contains "Annotations" (tag elem)) (iter root);
  ann ← where_ (fun ann => Py.contains "Annotation" (tag ann)) (children elem);
  let text_elem :=
    match List.find (fun child => Py.contains "AnnotationText" (tag child)) (children ann) with
    | Some child => text child
    | None => None
    end in
  [ {| Annotation.ref_id := get_attr_str ann "refId" EmptyString;
       Annotation.description := get_attr_opt ann "Description";
       Annotation.tag := get_attr_opt ann "Tag";
       Annotation.text := text_elem;
       Annotation.creation_date := get_attr_opt ann "CreationDate" |} ].

Section Regex.

(** The standard library's [re] module is taken as given:
    [re_search pattern s] is group 1 of [re.search(pattern, s, re.IGNORECASE)],
    if there is a match. *)
Variable re_search : string -> string -> option string.

Definition _parse_connection_string (conn_string : option string)
  : option string * option string * option string :=
  if negb (truthy_str conn_string) then (None, None, None)
  else
    let s := default EmptyString conn_string in
    let server := re_search "(?:Data Source|Server)=([^;]+)" s in
    let database := re_search "(?:Initial Catalog|Database)=([^;]+)" s in
    let provider := re_search "Provider=([^;]+)" s in
    (server, database, provider).

(** The body of the loop over [child.attrib]. *)
Definition clean_attr (attr : string) : string :=
  if Py.contains "}" attr then Py.last_part (Py.split "}" attr) else attr.

Definition _parse_connection_managers_object_data
  (st : option string * gmap string string) (child : Element)
  : option string * gmap string string :=
  let '(conn_string, props) := st in
  if Py.contains "ConnectionManager" (tag child) then
    (get_attr_opt child "ConnectionString",
     foldl (fun props '(attr, v) =>
              if String.eqb (clean_attr attr) "ConnectionString" then props
              else <[clean_attr attr := v]> props)
           props (attrib child))
  else if Py.contains "SmtpConnectionManager" (tag child) then
    (get_attr_opt child "ConnectionString", props)
  else st.

Definition _parse_connection_managers (root : Element) : list ConnectionManager.t :=
  elem ← where_ (fun elem => Py.endswith "ConnectionManagers" (tag elem)) (iter root);
  conn ← where_ (fun conn => Py.contains "ConnectionManager" (tag conn)) (children elem);
  let conn_type := get_attr_str conn "CreationName" "Unknown" in
  let '(conn_string, props) :=
    foldl _parse_connection_managers_object_data (None, ∅)
      (obj_data ← where_ (fun obj_data => Py.contains "ObjectData" (tag obj_data)) (iter conn);
       children obj_data) in
  let '(server, database, provider) := _parse_connection_string conn_string in
  [ {| ConnectionManager.name := get_attr_str conn "ObjectName" "Unknown";
       ConnectionManager.ref_id := get_attr_str conn "refId" EmptyString;
       ConnectionManager.dtsid := get_attr_str conn "DTSID" EmptyString;
       ConnectionManager.connection_type := conn_type;
       ConnectionManager.connection_string := conn_string;
       ConnectionManager.server := server;
       ConnectionManager.database := database;
       ConnectionManager.provider := provider;
       ConnectionManager.description := None;
       ConnectionManager.properties := props |} ].

End Regex.

(** The body of the loop of [_parse_variables] over the elements [var]. *)
Definition _parse_variables_body (var : Element) : outcome PkgVariable.t :=
  '(data_type, value) ←
    match List.find (fun child => Py.contains "VariableValue" (tag child)) (children var) with
    | Some child =>
        data_type ← py_int (_get_attr child "DataType" (PInt 8));
        Ok (data_type, text child)
    | None => Ok (8%Z, None)
    end;
  Ok {| PkgVariable.name := get_attr_str var "ObjectName" "Unknown";
        PkgVariable.namespace := get_attr_str var "Namespace" "User";
        PkgVariable.dtsid := get_attr_str var "DTSID" EmptyString;
        PkgVariable.data_type := data_type;
        PkgVariable.value := value;
        PkgVariable.expression := get_attr_opt var "Expression";
        PkgVariable.description := None;
        PkgVariable.read_only := String.eqb (get_attr_str var "ReadOnly" "False") "True";
        PkgVariable.raise_event_on_change := false |}.

Definition _parse_variables (root : Element) : outcome (list PkgVariable.t) :=
  mapM _parse_variables_body
    (elem ← where_ (fun elem => Py.endswith "Variables" (tag elem)
                                && negb (Py.endswith "PackageVariables" (tag elem)))
                   (iter root);
     where_ (fun var => Py.contains "Variable" (tag var)) (children elem)).

Definition _parse_parameters_body (param : Element) : outcome PkgParameter.t :=
  let value :=
    match List.find (fun child => Py.contains "Property" (tag child)
                                  && bool_decide (get_attr_opt child "Name" = Some "ParameterValue"))
                    (children param) with
    | Some child => text child
    | None => None
    end in
  data_type ← py_int (_get_attr param "DataType" (PInt 8));
  Ok {| PkgParameter.name := get_attr_str param "ObjectName" "Unknown";
        PkgParameter.dtsid := get_attr_str param "DTSID" EmptyString;
        PkgParameter.data_type := data_type;
        PkgParameter.value := value;
        PkgParameter.description := None;
        PkgParameter.sensitive := String.eqb (get_attr_str param "Sensitive" "0") "1";
        PkgParameter.required := String.eqb (get_attr_str param "Required" "0") "1" |}.

Definition _parse_parameters (root : Element) : outcome (list PkgParameter.t) :=
  mapM _parse_parameters_body
    (elem ← where_ (fun elem => Py.contains "PackageParameters" (tag elem)) (iter root);
     where_ (fun param => Py.contains "PackageParameter" (tag param)) (children elem)).

(** [elem.get(k1, elem.get(k2))] *)
Definition get2 (elem : Element) (k1 k2 : string) : option string :=
  match get elem k1 with
  | Some v => Some v
  | None => get elem k2
  end.

Definition sql_attr (elem : Element) (attr : string) : option string :=
  get2 elem (qualified NAMESPACES.SQLTask attr) ("SQLTask:" +:+ attr).

Definition _parse_sql_task_details_body (details : SqlDetails.t) (obj_data : Element)
  : SqlDetails.t :=
  let bindings := iter obj_data in
  {| SqlDetails.sql_statement := sql_attr obj_data "SqlStatementSource";
     SqlDetails.connection := sql_attr obj_data "Connection";
     SqlDetails.result_set_type := sql_attr obj_data "ResultSetType";
     SqlDetails.parameter_bindings :=
       SqlDetails.parameter_bindings details ++
       ((fun binding => (sql_attr binding "ParameterName", sql_attr binding "DtsVariableName"))
          <$> where_ (fun binding => Py.contains "ParameterBinding" (tag binding)) bindings);
     SqlDetails.result_bindings :=
       SqlDetails.result_bindings details ++
       ((fun binding => (sql_attr binding "ResultName", sql_attr binding "DtsVariableName"))
          <$> where_ (fun binding => negb (Py.contains "ParameterBinding" (tag binding))
                                     && Py.contains "ResultBinding" (tag binding)) bindings) |}.

Definition _parse_sql_task_details (elem : Element) : SqlDetails.t :=
  foldl _parse_sql_task_details_body
    {| SqlDetails.sql_statement := None; SqlDetails.connection := None;
       SqlDetails.result_set_type := None;
       SqlDetails.parameter_bindings := []; SqlDetails.result_bindings := [] |}
    (where_ (fun obj_data => Py.contains "SqlTaskData" (tag obj_data)) (iter elem)).

Definition mail_attr (elem : Element) (attr : string) : option string :=
  get2 elem (qualified NAMESPACES.SendMailTask attr) ("SendMailTask:" +:+ attr).

Definition _parse_sendmail_task_details_body (details : MailDetails.t) (obj_data : Element)
  : MailDetails.t :=
  {| MailDetails.from_address := mail_attr obj_data "From";
     MailDetails.to_address := mail_attr obj_data "To";
     MailDetails.subject := mail_attr obj_data "Subject";
     MailDetails.message_source :=
       foldl (fun src child => text child) (MailDetails.message_source details)
             (where_ (fun child => Py.contains "MessageSource" (tag child)) (children obj_data));
     MailDetails.smtp_connection := mail_attr obj_data "SMTPServer" |}.

Definition _parse_sendmail_task_details (elem : Element) : MailDetails.t :=
  foldl _parse_sendmail_task_details_body
    {| MailDetails.from_address := None; MailDetails.to_address := None;
       MailDetails.subject := None; MailDetails.message_source := None;
       MailDetails.smtp_connection := None |}
    (where_ (fun obj_data => Py.contains "SendMailTaskData" (tag obj_data)) (iter elem)).

Definition _parse_task (elem : Element) : TaskInfo.t :=
  let exec_type := get_attr_str elem "ExecutableType" EmptyString in
  let creation_name := get_attr_str elem "CreationName" EmptyString in
  {| TaskInfo.name := get_attr_str elem "ObjectName" "Unknown";
     TaskInfo.ref_id := get_attr_str elem "refId" EmptyString;
     TaskInfo.dtsid := get_attr_str elem "DTSID" EmptyString;
     TaskInfo.type := or_str exec_type creation_name;
     TaskInfo.description := get_attr_opt elem "Description";
     TaskInfo.sql :=
       if Py.contains "ExecuteSQLTask" (exec_type +:+ creation_name)
       then Some (_parse_sql_task_details elem) else None;
     TaskInfo.mail :=
       if Py.contains "SendMailTask" (exec_type +:+ creation_name)
       then Some (_parse_sendmail_task_details elem) else None |}.

Definition _parse_executable_as_stage (elem : Element) (order : Z) : ControlFlowStage.t :=
  let exec_type := get_attr_str elem "ExecutableType" EmptyString in
  let creation_name := get_attr_str elem "CreationName" EmptyString in
  let stage_type :=
    if Py.contains "SEQUENCE" exec_type || Py.contains "SEQUENCE" creation_name
    then "Sequence"
    else if Py.contains "Pipeline" exec_type || Py.contains "Pipeline" creation_name
    then "DataFlow"
    else if Py.contains "ExecuteSQLTask" exec_type || Py.contains "ExecuteSQLTask" creation_name
    then "SqlTask"
    else if Py.contains "SendMailTask" exec_type || Py.contains "SendMailTask" creation_name
    then "SendMailTask"
    else or_str exec_type (or_str creation_name "Unknown") in
  let tasks :=
    child ← where_ (fun child => Py.contains "Executables" (tag child)) (children elem);
    _parse_task <$> where_ (fun task_elem => Py.contains "Executable" (tag task_elem))
                           (children child) in
  {| ControlFlowStage.order := order;
     ControlFlowStage.name := get_attr_str elem "ObjectName" ("Stage_" +:+ Py.str_of_Z order);
     ControlFlowStage.stage_type := stage_type;
     ControlFlowStage.description := get_attr_opt elem "Description";
     ControlFlowStage.tasks := tasks;
     ControlFlowStage.precedence_from := [];
     ControlFlowStage.precedence_to := [];
     ControlFlowStage.condition := None |}.

Definition _parse_precedence_constraint (elem : Element) : outcome PrecedenceConstraint.t :=
  value ← py_int (_get_attr elem "Value" (PInt 0));
  eval_op ←
    (if truthy (_get_attr elem "EvalOp" PNone)
     then Some <$> py_int (_get_attr elem "EvalOp" (PInt 0))
     else Ok None);
  Ok {| PrecedenceConstraint.name := get_attr_str elem "ObjectName" EmptyString;
        PrecedenceConstraint.ref_id := get_attr_str elem "refId" EmptyString;
        PrecedenceConstraint.dtsid := get_attr_str elem "DTSID" EmptyString;
        PrecedenceConstraint.from_ref := get_attr_str elem "From" EmptyString;
        PrecedenceConstraint.to_ref := get_attr_str elem "To" EmptyString;
        PrecedenceConstraint.value := value;
        PrecedenceConstraint.logical_and :=
          String.eqb (get_attr_str elem "LogicalAnd" "True") "True";
        PrecedenceConstraint.expression := get_attr_opt elem "Expression";
        PrecedenceConstraint.eval_op := eval_op |}.

(** *** The graph linker

    [_link_stages_with_precedence] mutates the stage objects it is given.
    The list [stages] is the store: a stage object is identified by its
    position in the list (the caller builds every stage afresh, so no
    object occurs twice), the dictionary [stage_by_ref] maps a reference
    string to such a position, and an assignment to a field of a stage
    object is an update at its position.  The function returns the store
    it leaves behind. *)

Definition stage_by_ref_body (i : nat) (stage : ControlFlowStage.t)
  (stage_by_ref : gmap string nat) (constraint : PrecedenceConstraint.t)
  : gmap string nat :=
  let stage_by_ref :=
    if Py.contains (ControlFlowStage.name stage) (PrecedenceConstraint.from_ref constraint)
    then <[PrecedenceConstraint.from_ref constraint := i]> stage_by_ref
    else stage_by_ref in
  if Py.contains (ControlFlowStage.name stage) (PrecedenceConstraint.to_ref constraint)
  then <[PrecedenceConstraint.to_ref constraint := i]> stage_by_ref
  else stage_by_ref.

Definition build_stage_by_ref (stages : list ControlFlowStage.t)
  (constraints : list PrecedenceConstraint.t) : gmap string nat :=
  foldl (fun stage_by_ref '(i, stage) =>
           foldl (stage_by_ref_body i stage) stage_by_ref constraints)
        ∅ (imap pair stages).

(** [stage_by_ref.get(ref)], read in the current store: the position of the
    stage object and its present state. *)
Definition stage_of (stage_by_ref : gmap string nat) (stages : list ControlFlowStage.t)
  (ref : string) : option (nat * ControlFlowStage.t) :=
  i ← stage_by_ref !! ref; stage ← stages !! i; Some (i, stage).

(** The first conditional of the loop over the constraints. *)
Definition link_successor (stage_by_ref : gmap string nat)
  (stages : list ControlFlowStage.t) (constraint : PrecedenceConstraint.t)
  : outcome (list ControlFlowStage.t) :=
  let to_ref := PrecedenceConstraint.to_ref constraint in
  match stage_of stage_by_ref stages (PrecedenceConstraint.from_ref constraint) with
  | Some (i, from_stage) =>
      if bool_decide (to_ref ∉ ControlFlowStage.precedence_to from_stage) then
        let stages := alter (ControlFlowStage.append_precedence_to to_ref) i stages in
        if truthy_str (PrecedenceConstraint.expression constraint) then
          match stage_of stage_by_ref stages to_ref with
          | Some (j, _) =>
              Ok (alter (ControlFlowStage.set_condition
                           (PrecedenceConstraint.expression constraint)) j stages)
          | None => Raise AttributeError
          end
        else Ok stages
      else Ok stages
  | None => Ok stages
  end.

(** The second conditional of the loop over the constraints. *)
Definition link_predecessor (stage_by_ref : gmap string nat)
  (stages : list ControlFlowStage.t) (constraint : PrecedenceConstraint.t)
  : list ControlFlowStage.t :=
  let from_ref := PrecedenceConstraint.from_ref constraint in
  match stage_of stage_by_ref stages (PrecedenceConstraint.to_ref constraint) with
  | Some (j, to_stage) =>
      if bool_decide (from_ref ∉ ControlFlowStage.precedence_from to_stage)
      then alter (ControlFlowStage.append_precedence_from from_ref) j stages
      else stages
  | None => stages
  end.

Definition link_body (stage_by_ref : gmap string nat)
  (stages : list ControlFlowStage.t) (constraint : PrecedenceConstraint.t)
  : outcome (list ControlFlowStage.t) :=
  stages ← link_successor stage_by_ref stages constraint;
  Ok (link_predecessor stage_by_ref stages constraint).

Definition _link_stages_with_precedence (stages : list ControlFlowStage.t)
  (constraints : list PrecedenceConstraint.t) : outcome (list ControlFlowStage.t) :=
  let stage_by_ref := build_stage_by_ref stages constraints in
  foldlM (link_body stage_by_ref) stages constraints.

(** The elements over which the two loops of [_parse_control_flow] run. *)
Definition stage_elements (root : Element) : list Element :=
  elem ← where_ (fun elem => Py.contains "Executables" (tag elem)) (children root);
  where_ (fun executable => Py.contains "Executable" (tag executable)) (children elem).

Definition constraint_elements (root : Element) : list Element :=
  elem ← where_ (fun elem => Py.contains "PrecedenceConstraints" (tag elem)) (children root);
  where_ (fun constraint => Py.contains "PrecedenceConstraint" (tag constraint)) (children elem).

Definition _parse_control_flow_stages (executables : list Element)
  : Z * list ControlFlowStage.t :=
  foldl (fun '(stage_order, stages) executable =>
           let stage_order := (stage_order + 1)%Z in
           (stage_order, stages ++ [_parse_executable_as_stage executable stage_order]))
        (0%Z, []) executables.

Definition _parse_control_flow (root : Element)
  : outcome (list ControlFlowStage.t * list PrecedenceConstraint.t) :=
  let stages := (_parse_control_flow_stages (stage_elements root)).2 in
  all_constraints ← mapM _parse_precedence_constraint (constraint_elements root);
  stages ← _link_stages_with_precedence stages all_constraints;
  Ok (stages, all_constraints).

(** *** Data flow *)

Definition _parse_data_flow_path (elem : Element) : DataFlowPath.t :=
  {| DataFlowPath.name := get_or elem "name" EmptyString;
     DataFlowPath.ref_id := get_or elem "refId" EmptyString;
     DataFlowPath.source_ref_id := get_or elem "startId" EmptyString;
     DataFlowPath.destination_ref_id := get_or elem "endId" EmptyString;
     DataFlowPath.source_component := None;
     DataFlowPath.destination_component := None |}.

(** [int(elem.get(key, 0)) if elem.get(key) else None] *)
Definition optional_int (elem : Element) (key : string) : outcome (option Z) :=
  if truthy_str (get elem key)
  then Some <$> py_int (default (PInt 0) (PStr <$> get elem key))
  else Ok None.

(** The state of the loop over the properties of one output. *)
Record output_props : Type := mk_output_props {
  op_expr : option string;
  op_friendly_expr : option string;
  op_eval_order : option Z;
  op_is_default : pyval }.

Definition output_props_body (st : output_props) (p : Element) : outcome output_props :=
  let pname := get_or p "name" EmptyString in
  if String.eqb pname "Expression" then
    Ok (mk_output_props (text p) (op_friendly_expr st) (op_eval_order st) (op_is_default st))
  else if String.eqb pname "FriendlyExpression" then
    Ok (mk_output_props (op_expr st) (text p) (op_eval_order st) (op_is_default st))
  else if String.eqb pname "EvaluationOrder" then
    eval_order ← (if truthy_str (text p)
                  then Some <$> py_int (of_opt (text p))
                  else Ok None);
    Ok (mk_output_props (op_expr st) (op_friendly_expr st) eval_order (op_is_default st))
  else if String.eqb pname "IsDefaultOut" then
    let is_default :=
      match text p with
      | None => PNone
      | Some s => if String.eqb s EmptyString then PStr s
                  else PBool (String.eqb (Py.lower s) "true")
      end in
    Ok (mk_output_props (op_expr st) (op_friendly_expr st) (op_eval_order st) is_default)
  else Ok st.

(** One [properties] child of an output: the conditional output it yields,
    if any. *)
Definition conditional_output_of (output_name : string) (out_props : Element)
  : outcome (list ConditionalOutput.t) :=
  st ← foldlM output_props_body (mk_output_props None None None (PBool false))
        (where_ (fun p => String.eqb (tag p) "property") (children out_props));
  if truthy_str (op_expr st) || truthy (op_is_default st)
  then Ok [ {| ConditionalOutput.name := output_name;
               ConditionalOutput.expression := op_expr st;
               ConditionalOutput.friendly_expression := op_friendly_expr st;
               ConditionalOutput.evaluation_order := op_eval_order st;
               ConditionalOutput.is_default := op_is_default st |} ]
  else Ok [].

Definition output_column_of (col : Element) : outcome OutputColumn.t :=
  length ← optional_int col "length";
  Ok {| OutputColumn.name := get_or col "name" EmptyString;
        OutputColumn.ref_id := Some (get_or col "refId" EmptyString);
        OutputColumn.data_type := get col "dataType";
        OutputColumn.length := length;
        OutputColumn.expression := get col "expression";
        OutputColumn.description := None |}.

Definition input_column_of (col : Element) : outcome Column.t :=
  length ← optional_int col "cachedLength";
  Ok {| Column.name := get_or col "cachedName" EmptyString;
        Column.ref_id := Some (get_or col "refId" EmptyString);
        Column.data_type := get col "cachedDataType";
        Column.length := length;
        Column.precision := None;
        Column.scale := None;
        Column.is_nullable := true |}.

(** The body of the loop over the [output] elements: whether the output is
    an error output, its conditional outputs and its columns. *)
Definition output_body (output : Element)
  : outcome (bool * list ConditionalOutput.t * list OutputColumn.t) :=
  let is_error := String.eqb (Py.lower (get_or output "isErrorOut" "false")) "true" in
  let output_name := get_or output "name" EmptyString in
  conds ← mapM (conditional_output_of output_name)
             (where_ (fun out_props => String.eqb (tag out_props) "properties")
                     (children output));
  cols ← mapM output_column_of
            (out_cols ← where_ (fun out_cols => String.eqb (tag out_cols) "outputColumns")
                               (children output);
             where_ (fun col => String.eqb (tag col) "outputColumn") (children out_cols));
  Ok (is_error, concat conds, cols).

Definition children_tagged (t : string) (elem : Element) : list Element :=
  where_ (fun child => String.eqb (tag child) t) (children elem).

Definition _parse_data_flow_component (elem : Element) : outcome DataFlowComponent.t :=
  let comp_class := get_or elem "componentClassID" EmptyString in
  let comp_type :=
    if Py.contains "Source" comp_class then "Source"
    else if Py.contains "Destination" comp_class then "Destination"
    else "Transform" in
  let '(props, sql_command, table_name) :=
    foldl (fun '(props, sql_command, table_name) prop =>
             let name := get_or prop "name" EmptyString in
             let value := text prop in
             (<[name := value]> props,
              (if String.eqb name "SqlCommand" then value else sql_command),
              (if String.eqb name "SqlCommand" then table_name
               else if String.eqb name "OpenRowset" then value else table_name)))
          (∅, None, None)
          (prop_container ← children_tagged "properties" elem;
           children_tagged "property" prop_container) in
  outputs ← mapM output_body
               (outputs_container ← children_tagged "outputs" elem;
                children_tagged "output" outputs_container);
  let has_error_output := existsb (fun o => o.1.1) outputs in
  let conditional_outputs := concat ((fun o => o.1.2) <$> outputs) in
  let output_columns := concat ((fun o => o.2) <$> outputs) in
  input_columns ← mapM input_column_of
                     (inputs_container ← children_tagged "inputs" elem;
                      inp ← children_tagged "input" inputs_container;
                      inp_cols ← children_tagged "inputColumns" inp;
                      children_tagged "inputColumn" inp_cols);
  let conn_manager :=
    foldl (fun conn_manager conns =>
             match children_tagged "connection" conns with
             | conn :: _ => Some (get_or conn "connectionManagerRefId" EmptyString)
             | [] => conn_manager
             end)
          None (children_tagged "connections" elem) in
  Ok {| DataFlowComponent.name := get_or elem "name" "Unknown";
        DataFlowComponent.ref_id := get_or elem "refId" EmptyString;
        DataFlowComponent.component_type := comp_type;
        DataFlowComponent.component_class := comp_class;
        DataFlowComponent.description := get elem "description";
        DataFlowComponent.input_columns := input_columns;
        DataFlowComponent.output_columns := output_columns;
        DataFlowComponent.conditional_outputs := conditional_outputs;
        DataFlowComponent.connection_manager := conn_manager;
        DataFlowComponent.sql_command := sql_command;
        DataFlowComponent.table_name := table_name;
        DataFlowComponent.properties := props;
        DataFlowComponent.has_error_output := has_error_output |}.

(** The body of the loop over the children of one [pipeline] element. *)
Definition _parse_data_flow_task_body
  (st : list DataFlowComponent.t * list DataFlowPath.t) (comp_container : Element)
  : outcome (list DataFlowComponent.t * list DataFlowPath.t) :=
  let '(components, paths) := st in
  if String.eqb (tag comp_container) "components" then
    parsed ← mapM _parse_data_flow_component (children_tagged "component" comp_container);
    Ok (components ++ parsed, paths)
  else if String.eqb (tag comp_container) "paths" then
    Ok (components, paths ++ (_parse_data_flow_path <$> children_tagged "path" comp_container))
  else Ok st.

Definition _parse_data_flow_task (elem : Element) : outcome DataFlowTask.t :=
  '(components, paths) ←
    foldlM _parse_data_flow_task_body ([], [])
      (obj_data ← where_ (fun obj_data => String.eqb (tag obj_data) "pipeline"
                                          || Py.contains "ObjectData" (tag obj_data))
                         (iter elem);
       pipeline ← where_ (fun pipeline => String.eqb (tag pipeline) "pipeline") (iter obj_data);
       children pipeline);
  Ok {| DataFlowTask.name := get_attr_str elem "ObjectName" "Unknown";
        DataFlowTask.ref_id := get_attr_str elem "refId" EmptyString;
        DataFlowTask.dtsid := get_attr_str elem "DTSID" EmptyString;
        DataFlowTask.description := get_attr_opt elem "Description";
        DataFlowTask.components := components;
        DataFlowTask.paths := paths |}.

Definition _parse_data_flow_tasks (root : Element) : outcome (list DataFlowTask.t) :=
  mapM _parse_data_flow_task
    (where_ (fun elem =>
               Py.contains "Executable" (tag elem)
               && (Py.contains "Pipeline" (get_attr_str elem "ExecutableType" EmptyString)
                   || Py.contains "Pipeline" (get_attr_str elem "CreationName" EmptyString)))
            (iter root)).

(** *** Error handling *)

Definition _parse_event_handler_body
  (st : list TaskInfo.t * list PrecedenceConstraint.t) (child : Element)
  : outcome (list TaskInfo.t * list PrecedenceConstraint.t) :=
  let '(executables, constraints) := st in
  if Py.contains "Executables" (tag child) then
    Ok (executables ++
          (_parse_task <$> where_ (fun exec_elem => Py.contains "Executable" (tag exec_elem))
                                  (children child)),
        constraints)
  else if Py.contains "PrecedenceConstraints" (tag child) then
    parsed ← mapM _parse_precedence_constraint
               (where_ (fun pc_elem => Py.contains "PrecedenceConstraint" (tag pc_elem))
                       (children child));
    Ok (executables, constraints ++ parsed)
  else Ok st.

Definition _parse_event_handler (elem : Element) : outcome EventHandler.t :=
  '(executables, constraints) ← foldlM _parse_event_handler_body ([], []) (children elem);
  Ok {| EventHandler.name := get_attr_str elem "ObjectName" EmptyString;
        EventHandler.ref_id := get_attr_str elem "refId" EmptyString;
        EventHandler.dtsid := get_attr_str elem "DTSID" EmptyString;
        EventHandler.event_name := get_attr_str elem "EventName" EmptyString;
        EventHandler.executables := executables;
        EventHandler.precedence_constraints := constraints |}.

Definition logging_body (st : option string * list (option string)) (child : Element)
  : option string * list (option string) :=
  let '(logging_mode, logged_events) := st in
  if Py.contains "LoggingMode" (tag child) then (text child, logged_events)
  else if Py.contains "EventFilter" (tag child) then
    (logging_mode,
     logged_events ++
       (text <$> where_ (fun event => Py.contains "EventToLog" (tag event)) (children child)))
  else st.

Definition _parse_error_handling (root : Element) : outcome ErrorHandlingStrategy.t :=
  event_handlers ←
    mapM _parse_event_handler
      (elem ← where_ (fun elem => Py.contains "EventHandlers" (tag elem)) (iter root);
       where_ (fun handler => Py.contains "EventHandler" (tag handler)) (children elem));
  let '(logging_mode, logged_events) :=
    foldl logging_body (None, [])
      (elem ← where_ (fun elem => Py.contains "LoggingOptions" (tag elem)) (iter root);
       children elem) in
  Ok {| ErrorHandlingStrategy.event_handlers := event_handlers;
        ErrorHandlingStrategy.error_outputs := [];
        ErrorHandlingStrategy.fail_package_on_failure := true;
        ErrorHandlingStrategy.max_error_count := 1;
        ErrorHandlingStrategy.logging_mode := logging_mode;
        ErrorHandlingStrategy.logged_events := logged_events |}.

(** *** Mining passes *)

(** Schema and object name of a possibly bracketed, possibly qualified
    name. *)
Definition schema_and_name (raw : string) : string * string :=
  let name := Py.strip_chars "[]" raw in
  if Py.contains "." name then
    let parts := Py.split "." name in
    (Py.strip_chars "[]" (nth 0 parts EmptyString),
     Py.strip_chars "[]" (nth 1 parts EmptyString))
  else ("dbo", name).

(** [if key not in seen: seen.add(key); objects.append(...)] *)
Definition add_object (key_prefix object_type usage : string)
  (st : gset string * list DatabaseObject.t) (raw : string)
  : gset string * list DatabaseObject.t :=
  let '(seen, objects) := st in
  let '(schema, name) := schema_and_name raw in
  let key := key_prefix +:+ schema +:+ "." +:+ name in
  if bool_decide (key ∈ seen) then st
  else ({[key]} ∪ seen,
        objects ++ [ {| DatabaseObject.name := name;
                        DatabaseObject.object_type := object_type;
                        DatabaseObject.schema := schema;
                        DatabaseObject.database := None;
                        DatabaseObject.connection := None;
                        DatabaseObject.usage := usage |} ]).

Definition table_patterns : list string :=
  [ "FROM\s+(\[?[\w\.]+\]?\.\[?[\w]+\]?)";
    "INTO\s+(\[?[\w\.]+\]?\.\[?[\w]+\]?)";
    "UPDATE\s+(\[?[\w\.]+\]?\.\[?[\w]+\]?)";
    "JOIN\s+(\[?[\w\.]+\]?\.\[?[\w]+\]?)";
    "INSERT\s+INTO\s+(\[?[\w\.]+\]?\.\[?[\w]+\]?)" ].
Definition procedure_patterns : list string :=
  [ "EXEC(?:UTE)?\s+(\[?[\w\.]+\]?\.\[?[\w]+\]?)" ].
Definition function_patterns : list string :=
  [ "(\[?[\w\.]+\]?\.\[?fn_\w+\]?)\s*\(" ].

Definition _extract_thresholds_category (name : string) : option string :=
  snd <$> List.find (fun '(pattern, _) => Py.contains (Py.lower pattern) (Py.lower name))
    [ ("Threshold", "General"); ("Limit", "General"); ("Max", "Performance");
      ("Min", "Performance"); ("Score", "Fraud"); ("Window", "Time");
      ("Batch", "Performance"); ("Fraud", "Fraud"); ("Compliance", "Compliance") ].

Definition _extract_thresholds (variables : list PkgVariable.t) : list Threshold.t :=
  var ← variables;
  match _extract_thresholds_category (PkgVariable.name var) with
  | Some category =>
      [ {| Threshold.name := PkgVariable.name var;
           Threshold.value := PkgVariable.value var;
           Threshold.data_type := Py.str_of_Z (PkgVariable.data_type var);
           Threshold.description :=
             Some ("Variable from namespace " +:+ PkgVariable.namespace var);
           Threshold.category := category;
           Threshold.action := None |} ]
  | None => []
  end.

(** [self.package.control_flow_stages if self.package else []] *)
Definition stages_of (package : option DtsxPackage.t) : list ControlFlowStage.t :=
  match package with
  | Some p => DtsxPackage.control_flow_stages p
  | None => []
  end.

Definition _extract_alerts (package : option DtsxPackage.t) : list Alert.t :=
  let from_handlers :=
    match package ≫= DtsxPackage.error_handling with
    | Some error_handling =>
        handler ← ErrorHandlingStrategy.event_handlers error_handling;
        task ← where_ (fun task => Py.contains "SendMailTask" (TaskInfo.type task))
                      (EventHandler.executables handler);
        let is_error := Py.contains "Error" (EventHandler.event_name handler) in
        [ {| Alert.name := TaskInfo.name task;
             Alert.alert_type := EventHandler.event_name handler;
             Alert.condition := None;
             Alert.recipients := TaskInfo.to_address task;
             Alert.priority := if is_error then "High" else "Normal";
             Alert.category := if is_error then "Error" else "Warning" |} ]
    | None => []
    end in
  let from_stages :=
    stage ← stages_of package;
    task ← where_ (fun task => Py.contains "SendMailTask" (TaskInfo.type task))
                  (ControlFlowStage.tasks stage);
    [ {| Alert.name := TaskInfo.name task;
         Alert.alert_type := "Completion";
         Alert.condition := None;
         Alert.recipients := TaskInfo.to_address task;
         Alert.priority := "Normal";
         Alert.category := "Notification" |} ] in
  from_handlers ++ from_stages.

(** The parser object. *)
Module DtsxParser.
Record t : Type := mk {
  file_path : string;
  tree : option Element;
  root : option Element;
  package : option DtsxPackage.t }.
End DtsxParser.

Definition __init__ (file_path : string) : DtsxParser.t :=
  DtsxParser.mk file_path None None None.

Section Parse.

(** What the parser takes from its environment: [ET_parse path] is the root
    of the tree that [ET.parse(path)] reads, or the exception it raises;
    [re_search] is as in section [Regex], and [re_findall pattern s] is
    [re.findall(pattern, s, re.IGNORECASE)] for a pattern with one group. *)
Variable ET_parse : string -> outcome Element.
Variable re_search : string -> string -> option string.
Variable re_findall : string -> string -> list string.

(** The loop of [_extract_database_objects] over one data-flow component:
    the statements collected and the table named directly. *)
Definition _extract_database_objects_component
  (st : list (string * string * string) * (gset string * list DatabaseObject.t))
  (comp : DataFlowComponent.t)
  : list (string * string * string) * (gset string * list DatabaseObject.t) :=
  let '(sql_statements, found) := st in
  let sql_statements :=
    if truthy_str (DataFlowComponent.sql_command comp)
    then sql_statements ++
           [ (default EmptyString (DataFlowComponent.sql_command comp),
              DataFlowComponent.name comp, DataFlowComponent.component_type comp) ]
    else sql_statements in
  let found :=
    if truthy_str (DataFlowComponent.table_name comp)
    then add_object EmptyString "Table" (DataFlowComponent.component_type comp) found
           (default EmptyString (DataFlowComponent.table_name comp))
    else found in
  (sql_statements, found).

(** The loop over the statements collected. *)
Definition _extract_database_objects_statement
  (found : gset string * list DatabaseObject.t) (stmt : string * string * string)
  : gset string * list DatabaseObject.t :=
  let '(sql, source_name, usage) := stmt in
  if String.eqb sql EmptyString then found
  else
    let found :=
      foldl (fun found pattern => foldl (add_object EmptyString "Table" usage) found
                                        (re_findall pattern sql))
            found table_patterns in
    let found :=
      foldl (fun found pattern => foldl (add_object "proc:" "StoredProcedure" "Execute") found
                                        (re_findall pattern sql))
            found procedure_patterns in
    foldl (fun found pattern => foldl (add_object "func:" "Function" "Reference") found
                                      (re_findall pattern sql))
          found function_patterns.

Definition _extract_database_objects (package : option DtsxPackage.t)
  : list DatabaseObject.t :=
  let from_tasks :=
    stage ← stages_of package;
    task ← where_ (fun task => truthy_str (TaskInfo.sql_statement task))
                  (ControlFlowStage.tasks stage);
    [ (default EmptyString (TaskInfo.sql_statement task), TaskInfo.name task, "Task") ] in
  let '(sql_statements, found) :=
    foldl _extract_database_objects_component (from_tasks, (∅, []))
      (dft ← match package with
             | Some p => DtsxPackage.data_flow_tasks p
             | None => []
             end;
       DataFlowTask.components dft) in
  (foldl _extract_database_objects_statement found sql_statements).2.

(** The statements of [parse] after the tree is read.  [package] is the
    value of [self.package] while they run. *)
Definition parse_root (package : option DtsxPackage.t) (root : Element)
  : outcome DtsxPackage.t :=
  let metadata := _parse_metadata root in
  let annotations := _parse_annotations root in
  let connection_managers := _parse_connection_managers re_search root in
  variables ← _parse_variables root;
  parameters ← _parse_parameters root;
  '(control_flow_stages, precedence_constraints) ← _parse_control_flow root;
  data_flow_tasks ← _parse_data_flow_tasks root;
  error_handling ← _parse_error_handling root;
  let database_objects := _extract_database_objects package in
  let thresholds := _extract_thresholds variables in
  let alerts := _extract_alerts package in
  Ok {| DtsxPackage.metadata := metadata;
        DtsxPackage.annotations := annotations;
        DtsxPackage.connection_managers := connection_managers;
        DtsxPackage.variables := variables;
        DtsxPackage.parameters := parameters;
        DtsxPackage.control_flow_stages := control_flow_stages;
        DtsxPackage.data_flow_tasks := data_flow_tasks;
        DtsxPackage.error_handling := Some error_handling;
        DtsxPackage.database_objects := database_objects;
        DtsxPackage.thresholds := thresholds;
        DtsxPackage.alerts := alerts;
        DtsxPackage.data_flow_diagrams := [];
        DtsxPackage.raw_precedence_constraints := precedence_constraints |}.

(** [parse]: the value returned or the exception raised, and the parser
    object as the call leaves it.  (The registration of the namespace
    prefixes changes only how a tree would be written out.) *)
Definition parse (self : DtsxParser.t) : outcome DtsxPackage.t * DtsxParser.t :=
  match ET_parse (DtsxParser.file_path self) with
  | Raise e => (Raise e, self)
  | Ok root =>
      let self := DtsxParser.mk (DtsxParser.file_path self) (Some root) (Some root)
                                (DtsxParser.package self) in
      match parse_root (DtsxParser.package self) root with
      | Raise e => (Raise e, self)
      | Ok package =>
          (Ok package,
           DtsxParser.mk (DtsxParser.file_path self) (DtsxParser.tree self)
                         (DtsxParser.root self) (Some package))
      end
  end.

End Parse.

(** ** The diagram generator ([diagram_generator.py], class [DiagramGenerator]) *)

(** The double quote, the line feed and the path delimiter. *)
Definition dq : string := String (ascii_of_nat 34) EmptyString.
Definition nl : string := String (ascii_of_nat 10) EmptyString.
Definition backslash : string := String (ascii_of_nat 92) EmptyString.

(** [parts[-1] if parts else ref_id]; the list of parts is never empty. *)
Definition _extract_stage_name (ref_id : string) : string :=
  Py.last_part (Py.split backslash ref_id).

Definition _extract_component_name (ref_id : string) (components : list DataFlowComponent.t)
  : option string :=
  match List.find (fun comp => Py.contains (DataFlowComponent.ref_id comp) ref_id
                               || Py.contains (DataFlowComponent.name comp) ref_id)
                  components with
  | Some comp => Some (DataFlowComponent.name comp)
  | None =>
      let parts := Py.split backslash ref_id in
      if (1 <? length parts)%nat then
        let last := Py.last_part parts in
        let comp_part :=
          if Py.contains "." last then nth 0 (Py.split "." last) EmptyString else last in
        DataFlowComponent.name <$>
          List.find (fun comp => String.eqb comp_part (DataFlowComponent.name comp)
                                 || Py.contains comp_part (DataFlowComponent.ref_id comp))
                    components
      else None
  end.

Definition _get_component_types (dft : DataFlowTask.t) : gmap string string :=
  foldl (fun types comp =>
           <[DataFlowComponent.name comp := DataFlowComponent.component_type comp]> types)
        ∅ (DataFlowTask.components dft).

Definition _sanitize_id (name : string) : string :=
  let result := Py.replace "." "_" (Py.replace "-" "_" (Py.replace " " "_" name)) in
  Py.filter (fun c => Py.isalnum c || Ascii.eqb c "_") result.

Definition mermaid_node (component_types : gmap string string) (comp : string) : string :=
  let comp_id := _sanitize_id comp in
  let comp_type := default "default" (component_types !! comp) in
  if String.eqb comp_type "Source" then
    "        " +:+ comp_id +:+ "[(" +:+ dq +:+ comp +:+ dq +:+ ")]"
  else if String.eqb comp_type "Destination" then
    "        " +:+ comp_id +:+ "[[" +:+ dq +:+ comp +:+ dq +:+ "]]"
  else if Py.contains "Transform" comp_type then
    "        " +:+ comp_id +:+ "{" +:+ dq +:+ comp +:+ dq +:+ "}"
  else
    "        " +:+ comp_id +:+ "[" +:+ dq +:+ comp +:+ dq +:+ "]".

Definition mermaid_edge (path : string * string * string) : string :=
  let '(source, dest, label) := path in
  let source_id := _sanitize_id source in
  let dest_id := _sanitize_id dest in
  if negb (String.eqb label EmptyString)
  then "    " +:+ source_id +:+ " -->|" +:+ label +:+ "| " +:+ dest_id
  else "    " +:+ source_id +:+ " --> " +:+ dest_id.

Definition mermaid_class (component_types : gmap string string) (comp : string)
  : list string :=
  let comp_id := _sanitize_id comp in
  let comp_type := default "default" (component_types !! comp) in
  if String.eqb comp_type "Source" then [ "    class " +:+ comp_id +:+ " source" ]
  else if String.eqb comp_type "Destination" then [ "    class " +:+ comp_id +:+ " destination" ]
  else if Py.contains "Transform" comp_type then [ "    class " +:+ comp_id +:+ " transform" ]
  else [].

Definition _generate_mermaid_flowchart (title : string) (components : list string)
  (paths : list (string * string * string)) (direction : string)
  (component_types : option (gmap string string)) : string :=
  let component_types := default ∅ component_types in
  Py.join nl
    ([ "---"; "title: " +:+ title; "---"; "flowchart " +:+ direction;
       "    subgraph " +:+ _sanitize_id title +:+ "[" +:+ dq +:+ title +:+ dq +:+ "]" ]
     ++ (mermaid_node component_types <$> components)
     ++ [ "    end"; EmptyString ]
     ++ (mermaid_edge <$> paths)
     ++ [ EmptyString; "    %% Styling";
          "    classDef source fill:#e1f5fe,stroke:#01579b";
          "    classDef destination fill:#e8f5e9,stroke:#1b5e20";
          "    classDef transform fill:#fff3e0,stroke:#e65100" ]
     ++ (comp ← components; mermaid_class component_types comp)).

(** The decoration of variable references that the renderers strip. *)
Definition strip_user (s : string) : string :=
  Py.replace "]" EmptyString (Py.replace "@[User::" EmptyString s).

(** The body of the loop of [_generate_ascii_control_flow]; [rest] holds the
    stages after the current one. *)
Fixpoint ascii_control_flow_boxes (box_width : nat) (stages : list ControlFlowStage.t)
  : list string :=
  match stages with
  | [] => []
  | stage :: rest =>
      [ "    " +:+ "+" +:+ Py.repeat "-" box_width +:+ "+";
        "    " +:+ "|" +:+ Py.center box_width (ControlFlowStage.name stage) +:+ "|";
        "    " +:+ "|"
          +:+ Py.center box_width ("(" +:+ ControlFlowStage.stage_type stage +:+ ")") +:+ "|";
        "    " +:+ "+" +:+ Py.repeat "-" box_width +:+ "+" ]
      ++ match rest with
         | next_stage :: _ =>
             [ "    " +:+ Py.repeat " " (box_width / 2 + 1) +:+ "|" ]
             ++ (if truthy_str (ControlFlowStage.condition next_stage)
                 then [ "    " +:+ Py.repeat " " 4 +:+ "["
                          +:+ Py.replace "==" "="
                                (strip_user (default EmptyString
                                               (ControlFlowStage.condition next_stage)))
                          +:+ "]" ]
                 else [])
             ++ [ "    " +:+ Py.repeat " " (box_width / 2 + 1) +:+ "V"; EmptyString ]
         | [] => []
         end
      ++ ascii_control_flow_boxes box_width rest
  end.

Definition _generate_ascii_control_flow (package : DtsxPackage.t) : string :=
  let stages := DtsxPackage.control_flow_stages package in
  let max_width :=
    match stages with
    | [] => 20
    | _ => foldr Nat.max 0 ((fun stage => Py.len (ControlFlowStage.name stage)) <$> stages)
    end in
  let box_width := max_width + 4 in
  Py.join nl
    ([ Py.repeat "=" 60; " CONTROL FLOW DIAGRAM"; Py.repeat "=" 60; EmptyString ]
     ++ ascii_control_flow_boxes box_width stages).

Definition ascii_source (source : DataFlowComponent.t) : list string :=
  [ "    [(" +:+ DataFlowComponent.name source +:+ ")]" ]
  ++ (if truthy_str (DataFlowComponent.sql_command source)
      then [ "        SQL: "
               +:+ Py.replace nl " "
                     (Py.take 50 (Py.strip (default EmptyString
                                              (DataFlowComponent.sql_command source))))
               +:+ "..." ]
      else []).

Definition transform_symbol (component_class : string) : string :=
  if Py.contains "DerivedColumn" component_class then "{DER}"
  else if Py.contains "ConditionalSplit" component_class then "{SPLIT}"
  else if Py.contains "Lookup" component_class then "{LKP}"
  else if Py.contains "Multicast" component_class then "{MCT}"
  else if Py.contains "RowCount" component_class then "{RC}"
  else if Py.contains "DataConvert" component_class then "{DCV}"
  else "{TRF}".

Definition ascii_transform (transform : DataFlowComponent.t) : list string :=
  [ "    " +:+ transform_symbol (DataFlowComponent.component_class transform)
      +:+ " " +:+ DataFlowComponent.name transform ]
  ++ (col ← List.firstn 3 (DataFlowComponent.output_columns transform);
      if truthy_str (OutputColumn.expression col)
      then [ "          -> " +:+ OutputColumn.name col +:+ ": "
               +:+ Py.take 40 (default EmptyString (OutputColumn.expression col)) +:+ "..." ]
      else [])
  ++ (cond ← DataFlowComponent.conditional_outputs transform;
      if truthy_str (ConditionalOutput.expression cond)
      then [ "          |-> [" +:+ ConditionalOutput.name cond +:+ "]: "
               +:+ default EmptyString (ConditionalOutput.expression cond) ]
      else if truthy (ConditionalOutput.is_default cond)
      then [ "          |-> [" +:+ ConditionalOutput.name cond +:+ "]: (Default)" ]
      else []).

Fixpoint ascii_transforms (transforms : list DataFlowComponent.t) : list string :=
  match transforms with
  | [] => []
  | transform :: rest =>
      ascii_transform transform
      ++ match rest with
         | _ :: _ => [ "        |"; "        V" ]
         | [] => []
         end
      ++ ascii_transforms rest
  end.

(** [x or "?"] *)
Definition or_question (o : option string) : string :=
  if truthy_str o then default EmptyString o else "?".

Definition _generate_ascii_data_flow (dft : DataFlowTask.t) : string :=
  let of_type t :=
    where_ (fun c => String.eqb (DataFlowComponent.component_type c) t)
           (DataFlowTask.components dft) in
  let sources := of_type "Source" in
  let transforms := of_type "Transform" in
  let destinations := of_type "Destination" in
  Py.join nl
    ([ Py.repeat "=" 70; " DATA FLOW: " +:+ DataFlowTask.name dft; Py.repeat "=" 70;
       EmptyString ]
     ++ match sources with
        | [] => []
        | _ => [ "SOURCES:" ] ++ (source ← sources; ascii_source source)
               ++ [ "        |"; "        V"; EmptyString ]
        end
     ++ match transforms with
        | [] => []
        | _ => [ "TRANSFORMATIONS:" ] ++ ascii_transforms transforms
               ++ [ "        |"; "        V"; EmptyString ]
        end
     ++ match destinations with
        | [] => []
        | _ => [ "DESTINATIONS:" ]
               ++ (dest ← destinations;
                   [ "    [[" +:+ DataFlowComponent.name dest +:+ "]]";
                     "        -> "
                       +:+ (if truthy_str (DataFlowComponent.table_name dest)
                            then default EmptyString (DataFlowComponent.table_name dest)
                            else "Unknown Table") ])
               ++ [ EmptyString ]
        end
     ++ [ Py.repeat "-" 70; "DATA PATHS:" ]
     ++ ((fun path =>
            "    "
            +:+ or_question (_extract_component_name (DataFlowPath.source_ref_id path)
                               (DataFlowTask.components dft))
            +:+ " --> "
            +:+ or_question (_extract_component_name (DataFlowPath.destination_ref_id path)
                               (DataFlowTask.components dft)))
           <$> DataFlowTask.paths dft)).

(** The rendering of the control flow, as a function of the model. *)
Definition control_flow_diagram_of (package : DtsxPackage.t) : DataFlowDiagram.t :=
  let components := ControlFlowStage.name <$> DtsxPackage.control_flow_stages package in
  let paths :=
    (fun constraint =>
       (_extract_stage_name (PrecedenceConstraint.from_ref constraint),
        _extract_stage_name (PrecedenceConstraint.to_ref constraint),
        if truthy_str (PrecedenceConstraint.expression constraint)
        then Py.replace "==" "="
               (strip_user (default EmptyString (PrecedenceConstraint.expression constraint)))
        else EmptyString))
      <$> DtsxPackage.raw_precedence_constraints package in
  {| DataFlowDiagram.name := "Control Flow";
     DataFlowDiagram.components := components;
     DataFlowDiagram.paths := paths;
     DataFlowDiagram.mermaid_code :=
       Some (_generate_mermaid_flowchart "Control Flow" components paths "TB" None);
     DataFlowDiagram.ascii_diagram := Some (_generate_ascii_control_flow package) |}.

(** The rendering of one data-flow task. *)
Definition data_flow_diagram_of (dft : DataFlowTask.t) : DataFlowDiagram.t :=
  let components := DataFlowComponent.name <$> DataFlowTask.components dft in
  let paths :=
    path ← DataFlowTask.paths dft;
    let source_name :=
      _extract_component_name (DataFlowPath.source_ref_id path) (DataFlowTask.components dft) in
    let dest_name :=
      _extract_component_name (DataFlowPath.destination_ref_id path)
        (DataFlowTask.components dft) in
    if truthy_str source_name && truthy_str dest_name
    then [ (default EmptyString source_name, default EmptyString dest_name,
            DataFlowPath.name path) ]
    else [] in
  {| DataFlowDiagram.name := DataFlowTask.name dft;
     DataFlowDiagram.components := components;
     DataFlowDiagram.paths := paths;
     DataFlowDiagram.mermaid_code :=
       Some (_generate_mermaid_flowchart (DataFlowTask.name dft) components paths "TB"
               (Some (_get_component_types dft)));
     DataFlowDiagram.ascii_diagram := Some (_generate_ascii_data_flow dft) |}.

(** The body of the loop of [generate_execution_order_diagram]. *)
Definition execution_order_step (current_order : nat) (stage : ControlFlowStage.t)
  : list string :=
  [ "Step " +:+ Py.str_of_nat current_order +:+ ": " +:+ ControlFlowStage.name stage;
    "         Type: " +:+ ControlFlowStage.stage_type stage ]
  ++ (if truthy_str (ControlFlowStage.description stage)
      then [ "         Description: "
               +:+ default EmptyString (ControlFlowStage.description stage) ]
      else [])
  ++ (if truthy_str (ControlFlowStage.condition stage)
      then [ "         Condition: "
               +:+ strip_user (default EmptyString (ControlFlowStage.condition stage)) ]
      else [])
  ++ match ControlFlowStage.tasks stage with
     | [] => []
     | tasks => [ "         Tasks:" ]
                ++ ((fun task => "           - " +:+ TaskInfo.name task) <$> tasks)
     end
  ++ [ EmptyString ].

Definition execution_order_of (package : DtsxPackage.t) : string :=
  Py.join nl
    ([ Py.repeat "=" 60; " EXECUTION ORDER"; Py.repeat "=" 60; EmptyString ]
     ++ concat (imap (fun i stage => execution_order_step (1 + i) stage)
                     (DtsxPackage.control_flow_stages package))).

(** The lines [Destination: ...] of one route. *)
Definition route_destinations (cond : ConditionalOutput.t) (dft : DataFlowTask.t)
  : list string :=
  path ← where_ (fun path => Py.contains (ConditionalOutput.name cond)
                               (DataFlowPath.source_ref_id path))
                (DataFlowTask.paths dft);
  let dest := _extract_component_name (DataFlowPath.destination_ref_id path)
                (DataFlowTask.components dft) in
  if truthy_str dest then [ "      Destination: " +:+ default EmptyString dest ] else [].

(** The body of the loop over the conditional outputs of a component;
    [i] counts from 1. *)
Definition route_lines (dft : DataFlowTask.t) (i : nat) (cond : ConditionalOutput.t)
  : list string :=
  (if truthy (ConditionalOutput.is_default cond) then
     [ "    Route " +:+ Py.str_of_nat i +:+ ": " +:+ ConditionalOutput.name cond;
       "      Condition: DEFAULT (all unmatched rows)" ]
   else
     [ "    Route " +:+ Py.str_of_nat i +:+ ": " +:+ ConditionalOutput.name cond ]
     ++ (if truthy_str (ConditionalOutput.friendly_expression cond)
         then [ "      Condition: "
                  +:+ default EmptyString (ConditionalOutput.friendly_expression cond) ]
         else if truthy_str (ConditionalOutput.expression cond)
         then [ "      Condition: "
                  +:+ default EmptyString (ConditionalOutput.expression cond) ]
         else []))
  ++ route_destinations cond dft
  ++ [ EmptyString ].

Definition routing_conditional (dft : DataFlowTask.t) (comp : DataFlowComponent.t)
  : list string :=
  match DataFlowComponent.conditional_outputs comp with
  | [] => []
  | conds =>
      [ "  Routing Component: " +:+ DataFlowComponent.name comp;
        "  Type: " +:+ Py.last_part (Py.split "." (DataFlowComponent.component_class comp));
        EmptyString ]
      ++ concat (imap (fun i cond => route_lines dft (1 + i) cond) conds)
  end.

(** The line that the lookup block adds for one path. *)
Definition lookup_route (dft : DataFlowTask.t) (comp : DataFlowComponent.t)
  (path : DataFlowPath.t) : list string :=
  if Py.contains (DataFlowComponent.name comp) (DataFlowPath.source_ref_id path) then
    let dest := _extract_component_name (DataFlowPath.destination_ref_id path)
                  (DataFlowTask.components dft) in
    if truthy_str dest then
      if Py.contains "Match" (DataFlowPath.name path) then
        [ "      -> Match goes to: " +:+ default EmptyString dest ]
      else if Py.contains "NoMatch" (DataFlowPath.name path)
              || Py.contains "No Match" (DataFlowPath.name path) then
        [ "      -> No Match goes to: " +:+ default EmptyString dest ]
      else []
    else []
  else [].

Definition routing_lookup (dft : DataFlowTask.t) (comp : DataFlowComponent.t)
  : list string :=
  if Py.contains "Lookup" (DataFlowComponent.component_class comp) then
    [ "  Lookup: " +:+ DataFlowComponent.name comp;
      "    Match Output: Rows with matching reference data";
      "    No Match Output: Rows without matching reference data" ]
    ++ (path ← DataFlowTask.paths dft; lookup_route dft comp path)
    ++ [ EmptyString ]
  else [].

Definition routing_multicast (dft : DataFlowTask.t) (comp : DataFlowComponent.t)
  : list string :=
  if Py.contains "Multicast" (DataFlowComponent.component_class comp) then
    [ "  Multicast: " +:+ DataFlowComponent.name comp;
      "    Sends all rows to multiple destinations:" ]
    ++ (path ← where_ (fun path => Py.contains (DataFlowComponent.name comp)
                                     (DataFlowPath.source_ref_id path))
                      (DataFlowTask.paths dft);
        let dest := _extract_component_name (DataFlowPath.destination_ref_id path)
                      (DataFlowTask.components dft) in
        if truthy_str dest then [ "      -> " +:+ default EmptyString dest ] else [])
    ++ [ EmptyString ]
  else [].

(** The lines of the routing listing for one component and for one task. *)
Definition routing_component (dft : DataFlowTask.t) (comp : DataFlowComponent.t)
  : list string :=
  routing_conditional dft comp ++ routing_lookup dft comp ++ routing_multicast dft comp.

Definition routing_task (dft : DataFlowTask.t) : list string :=
  [ "Data Flow: " +:+ DataFlowTask.name dft; Py.repeat "-" 50; EmptyString ]
  ++ (comp ← DataFlowTask.components dft; routing_component dft comp)
  ++ [ EmptyString ].

Definition routing_lines (package : DtsxPackage.t) : list string :=
  [ Py.repeat "=" 70; " DATA ROUTING LOGIC"; Py.repeat "=" 70; EmptyString ]
  ++ (dft ← DtsxPackage.data_flow_tasks package; routing_task dft).

Definition routing_logic_of (package : DtsxPackage.t) : string :=
  Py.join nl (routing_lines package).

(** *** The operations of the generator object

    A method takes the generator object and returns its result together
    with the object as the call leaves it. *)
Module DiagramGenerator.
Record t : Type := mk { package : DtsxPackage.t }.
End DiagramGenerator.

Definition method (A : Type) : Type := DiagramGenerator.t -> A * DiagramGenerator.t.

Definition generate_control_flow_diagram : method DataFlowDiagram.t :=
  fun self => (control_flow_diagram_of (DiagramGenerator.package self), self).

Definition generate_data_flow_diagram (dft : DataFlowTask.t) : method DataFlowDiagram.t :=
  fun self => (data_flow_diagram_of dft, self).

Definition generate_execution_order_diagram : method string :=
  fun self => (execution_order_of (DiagramGenerator.package self), self).

Definition generate_routing_logic_diagram : method string :=
  fun self => (routing_logic_of (DiagramGenerator.package self), self).

(** [for dft in self.package.data_flow_tasks: diagrams.append(...)]: the
    list is read once, when the loop starts. *)
Fixpoint generate_all_diagrams_loop (dfts : list DataFlowTask.t)
  : method (list DataFlowDiagram.t) :=
  fun self =>
    match dfts with
    | [] => ([], self)
    | dft :: rest =>
        let '(df_diagram, self) := generate_data_flow_diagram dft self in
        let '(diagrams, self) := generate_all_diagrams_loop rest self in
        (df_diagram :: diagrams, self)
    end.

Definition generate_all_diagrams : method (list DataFlowDiagram.t) :=
  fun self =>
    let '(cf_diagram, self) := generate_control_flow_diagram self in
    let '(diagrams, self) :=
      generate_all_diagrams_loop (DtsxPackage.data_flow_tasks (DiagramGenerator.package self))
                                 self in
    (cf_diagram :: diagrams, self).

(** ** Definitions used to state the properties *)

(** *** The attribute resolver as the specification words it

    The first of the three forms of the attribute that is present, else the
    default. *)
Definition resolve (node : Element) (logicalName : string) (default : pyval) : pyval :=
  match head (omap (get node)
                [ qualified NAMESPACES.DTS logicalName; logicalName;
                  "DTS:" +:+ logicalName ]) with
  | Some value => PStr value
  | None => default
  end.

(** *** Numeric fields

    The value of a numeric field read from a raw attribute: the default
    when the attribute is absent, the integer it denotes when it denotes
    one, and [ValueError] otherwise.  An optional field is absent when its
    attribute is missing or empty. *)
Definition numeric_field (raw : option string) (dflt : Z) : outcome Z :=
  match raw with
  | None => Ok dflt
  | Some s => match Py.int_of_string s with
              | Some z => Ok z
              | None => Raise ValueError
              end
  end.

Definition optional_numeric_field (raw : option string) : outcome (option Z) :=
  match raw with
  | None => Ok None
  | Some s => if String.eqb s EmptyString then Ok None
              else match Py.int_of_string s with
                   | Some z => Ok (Some z)
                   | None => Raise ValueError
                   end
  end.

(** The element that carries the value of a variable. *)
Definition variable_value (var : Element) : option Element :=
  List.find (fun child => Py.contains "VariableValue" (tag child)) (children var).

(** *** The graph linker, stage by stage *)

(** Whether [constraint], met in the store [stages], assigns a condition:
    it carries a guard and appends a new successor entry. *)
Definition assigns (stage_by_ref : gmap string nat) (stages : list ControlFlowStage.t)
  (constraint : PrecedenceConstraint.t) : bool :=
  truthy_str (PrecedenceConstraint.expression constraint)
  && match stage_of stage_by_ref stages (PrecedenceConstraint.from_ref constraint) with
     | Some (_, from_stage) =>
         bool_decide (PrecedenceConstraint.to_ref constraint
                        ∉ ControlFlowStage.precedence_to from_stage)
     | None => false
     end.

(** What one iteration of the loop does to the stage at position [k]. *)
Definition step_successor (stage_by_ref : gmap string nat)
  (constraint : PrecedenceConstraint.t) (k : nat) (s : ControlFlowStage.t)
  : ControlFlowStage.t :=
  if bool_decide (stage_by_ref !! PrecedenceConstraint.from_ref constraint = Some k
                  /\ PrecedenceConstraint.to_ref constraint ∉ ControlFlowStage.precedence_to s)
  then ControlFlowStage.append_precedence_to (PrecedenceConstraint.to_ref constraint) s
  else s.

Definition step_condition (stage_by_ref : gmap string nat) (stages : list ControlFlowStage.t)
  (constraint : PrecedenceConstraint.t) (k : nat) (s : ControlFlowStage.t)
  : ControlFlowStage.t :=
  if bool_decide (stage_by_ref !! PrecedenceConstraint.to_ref constraint = Some k)
     && assigns stage_by_ref stages constraint
  then ControlFlowStage.set_condition (PrecedenceConstraint.expression constraint) s
  else s.

Definition step_predecessor (stage_by_ref : gmap string nat)
  (constraint : PrecedenceConstraint.t) (k : nat) (s : ControlFlowStage.t)
  : ControlFlowStage.t :=
  if bool_decide (stage_by_ref !! PrecedenceConstraint.to_ref constraint = Some k
                  /\ PrecedenceConstraint.from_ref constraint
                       ∉ ControlFlowStage.precedence_from s)
  then ControlFlowStage.append_precedence_from (PrecedenceConstraint.from_ref constraint) s
  else s.

Definition step_stage (stage_by_ref : gmap string nat) (stages : list ControlFlowStage.t)
  (constraint : PrecedenceConstraint.t) (k : nat) (s : ControlFlowStage.t)
  : ControlFlowStage.t :=
  step_predecessor stage_by_ref constraint k
    (step_condition stage_by_ref stages constraint k
       (step_successor stage_by_ref constraint k s)).

(** The references that a loop collects in a list: those of the elements
    that [hit], each appended unless it is already there. *)
Definition collect {A} (hit : A -> bool) (proj : A -> string)
  (l : list string) (cs : list A) : list string :=
  foldl (fun l c => if hit c && bool_decide (proj c ∉ l) then l ++ [proj c] else l) l cs.

Definition from_hits (stage_by_ref : gmap string nat) (k : nat)
  (c : PrecedenceConstraint.t) : bool :=
  bool_decide (stage_by_ref !! PrecedenceConstraint.from_ref c = Some k).
Definition to_hits (stage_by_ref : gmap string nat) (k : nat)
  (c : PrecedenceConstraint.t) : bool :=
  bool_decide (stage_by_ref !! PrecedenceConstraint.to_ref c = Some k).

(** The part of a stage that the linker leaves alone. *)
Definition same_entity (s s' : ControlFlowStage.t) : Prop :=
  ControlFlowStage.order s' = ControlFlowStage.order s
  /\ ControlFlowStage.name s' = ControlFlowStage.name s
  /\ ControlFlowStage.stage_type s' = ControlFlowStage.stage_type s
  /\ ControlFlowStage.description s' = ControlFlowStage.description s
  /\ ControlFlowStage.tasks s' = ControlFlowStage.tasks s.

(** Whether [ref] is the source or the target reference of a constraint. *)
Definition is_endpoint (constraints : list PrecedenceConstraint.t) (ref : string) : bool :=
  existsb (fun c => String.eqb (PrecedenceConstraint.from_ref c) ref
                    || String.eqb (PrecedenceConstraint.to_ref c) ref) constraints.

(** Two statements about a run of the linker from [stages] to [stages']:
    the guard of the last guarded constraint with a given target is the
    condition of that target; and every entry of a predecessor or successor
    list that was not there before comes from a constraint both of whose
    endpoints resolve. *)
Definition guard_last_wins (stages : list ControlFlowStage.t)
  (constraints : list PrecedenceConstraint.t) (stages' : list ControlFlowStage.t) : Prop :=
  let resolves ref k := build_stage_by_ref stages constraints !! ref = Some k in
  let guarded c := truthy_str (PrecedenceConstraint.expression c) = true in
  forall pre c post i j,
    constraints = pre ++ c :: post ->
    guarded c ->
    resolves (PrecedenceConstraint.from_ref c) i ->
    resolves (PrecedenceConstraint.to_ref c) j ->
    (forall c'', c'' ∈ post -> guarded c'' -> ~ resolves (PrecedenceConstraint.to_ref c'') j) ->
    exists s', stages' !! j = Some s'
      /\ ControlFlowStage.condition s' = PrecedenceConstraint.expression c.

Definition unresolved_contribute_nothing (stages : list ControlFlowStage.t)
  (constraints : list PrecedenceConstraint.t) (stages' : list ControlFlowStage.t) : Prop :=
  let resolves ref k := build_stage_by_ref stages constraints !! ref = Some k in
  let resolved c :=
    (exists i, resolves (PrecedenceConstraint.from_ref c) i)
    /\ (exists j, resolves (PrecedenceConstraint.to_ref c) j) in
  forall k s s' r,
    stages !! k = Some s -> stages' !! k = Some s' ->
    (r ∈ ControlFlowStage.precedence_to s' ->
       r ∈ ControlFlowStage.precedence_to s
       \/ exists c, c ∈ constraints /\ resolved c /\ PrecedenceConstraint.to_ref c = r)
    /\ (r ∈ ControlFlowStage.precedence_from s' ->
         r ∈ ControlFlowStage.precedence_from s
         \/ exists c, c ∈ constraints /\ resolved c /\ PrecedenceConstraint.from_ref c = r).

(** *** Listings *)

(** The lines of a listing, and how many of them start with [prefix]. *)
Definition lines_of (listing : string) : list string := Py.split nl listing.

Definition count_lines (prefix : string) (listing : string) : nat :=
  length (List.filter (Py.startswith prefix) (lines_of listing)).

(** [block] occurs in [l] as a run of consecutive lines. *)
Definition occurs_in (block l : list string) : Prop :=
  exists before after, l = before ++ block ++ after.

(** A conditional output, a component, a task and a package in which the
    outputs flagged default carry the given expressions. *)
Definition with_default_expressions (expression friendly_expression : option string)
  (cond : ConditionalOutput.t) : ConditionalOutput.t :=
  if truthy (ConditionalOutput.is_default cond)
  then ConditionalOutput.mk (ConditionalOutput.name cond) expression friendly_expression
         (ConditionalOutput.evaluation_order cond) (ConditionalOutput.is_default cond)
  else cond.

Definition component_with_default_expressions (e fe : option string)
  (comp : DataFlowComponent.t) : DataFlowComponent.t :=
  DataFlowComponent.mk (DataFlowComponent.name comp) (DataFlowComponent.ref_id comp)
    (DataFlowComponent.component_type comp) (DataFlowComponent.component_class comp)
    (DataFlowComponent.description comp) (DataFlowComponent.input_columns comp)
    (DataFlowComponent.output_columns comp)
    (with_default_expressions e fe <$> DataFlowComponent.conditional_outputs comp)
    (DataFlowComponent.connection_manager comp) (DataFlowComponent.sql_command comp)
    (DataFlowComponent.table_name comp) (DataFlowComponent.properties comp)
    (DataFlowComponent.has_error_output comp).

Definition task_with_default_expressions (e fe : option string) (dft : DataFlowTask.t)
  : DataFlowTask.t :=
  DataFlowTask.mk (DataFlowTask.name dft) (DataFlowTask.ref_id dft) (DataFlowTask.dtsid dft)
    (DataFlowTask.description dft)
    (component_with_default_expressions e fe <$> DataFlowTask.components dft)
    (DataFlowTask.paths dft).

Definition package_with_default_expressions (e fe : option string) (p : DtsxPackage.t)
  : DtsxPackage.t :=
  DtsxPackage.mk (DtsxPackage.metadata p) (DtsxPackage.annotations p)
    (DtsxPackage.connection_managers p) (DtsxPackage.variables p) (DtsxPackage.parameters p)
    (DtsxPackage.control_flow_stages p)
    (task_with_default_expressions e fe <$> DtsxPackage.data_flow_tasks p)
    (DtsxPackage.error_handling p) (DtsxPackage.database_objects p)
    (DtsxPackage.thresholds p) (DtsxPackage.alerts p) (DtsxPackage.data_flow_diagrams p)
    (DtsxPackage.raw_precedence_constraints p).

(** ** Concrete inputs *)

Definition dts (local : string) : string := qualified NAMESPACES.DTS local.
Definition node (t : string) (attrs : list (string * string)) (cs : list Element) : Element :=
  mkElement t attrs None cs.
Definition ref (parts : list string) : string := Py.join backslash parts.

Definition sql_stage (name : string) : Element :=
  node (dts "Executable")
    [ (dts "refId", ref ["Package"; name]);
      (dts "ExecutableType", "Microsoft.ExecuteSQLTask");
      (dts "ObjectName", name) ] [].

Definition constraint_elem (name from to : string) (extra : list (string * string)) : Element :=
  node (dts "PrecedenceConstraint")
    ([ (dts "ObjectName", name); (dts "From", from); (dts "To", to) ] ++ extra) [].

Definition package_doc (executables constraints others : list Element) : Element :=
  node (dts "Executable") [ (dts "ObjectName", "Package") ]
    (others ++ [ node (dts "Executables") [] executables;
                 node (dts "PrecedenceConstraints") [] constraints ]).

(** Three stages in sequence. *)
Definition sequential_doc : Element :=
  package_doc
    [ sql_stage "Extract"; sql_stage "Transform"; sql_stage "Load" ]
    [ constraint_elem "Constraint" (ref ["Package"; "Extract"]) (ref ["Package"; "Transform"]) [];
      constraint_elem "Constraint 1" (ref ["Package"; "Transform"]) (ref ["Package"; "Load"]) [] ]
    [].

(** A guarded constraint whose target is an executable of an event handler. *)
Definition dangling_doc : Element :=
  package_doc
    [ sql_stage "Extract" ]
    [ constraint_elem "Constraint" (ref ["Package"; "Extract"])
        (ref ["Package"; "OnError"; "Notify"])
        [ (dts "Expression", "@[User::Failed] == 1") ] ]
    [].

(** A sequence container that holds a mail task. *)
Definition mail_doc : Element :=
  package_doc
    [ node (dts "Executable")
        [ (dts "ObjectName", "Notify"); (dts "ExecutableType", "STOCK:SEQUENCE") ]
        [ node (dts "Executables") []
            [ node (dts "Executable")
                [ (dts "ObjectName", "Send Report");
                  (dts "ExecutableType", "Microsoft.SendMailTask") ] [] ] ] ]
    [] [].

(** Stand-ins for the two functions of [re], for documents on which they
    are applied to nothing that matters. *)
Definition no_search (pattern s : string) : option string := None.
Definition no_findall (pattern s : string) : list string := [].

(** A document with a variable whose type code is not a number, and
    elements with a malformed outcome value, operator code and length. *)
Definition malformed_variable_doc : Element :=
  node (dts "Executable") [ (dts "ObjectName", "Package") ]
    [ node (dts "Variables") []
        [ node (dts "Variable") [ (dts "ObjectName", "BatchSize") ]
            [ mkElement (dts "VariableValue") [ (dts "DataType", "int") ] (Some "500") [] ] ] ].

Definition malformed_value_constraint : Element :=
  node (dts "PrecedenceConstraint")
    [ (dts "From", ref ["Package"; "Extract"]); (dts "To", ref ["Package"; "Load"]);
      (dts "Value", "Success") ] [].

Definition malformed_eval_op_constraint : Element :=
  node (dts "PrecedenceConstraint")
    [ (dts "From", ref ["Package"; "Extract"]); (dts "To", ref ["Package"; "Load"]);
      (dts "EvalOp", "Expression") ] [].

Definition malformed_length_column : Element :=
  node "outputColumn" [ ("name", "CustomerName"); ("length", "max") ] [].

(** Stages and constraints for the linker: two guarded constraints from
    the first stage to the second, and a constraint from the first stage to
    an executable that is not a stage; and the stages as the linker leaves
    them. *)
Definition stage (order : Z) (name : string) : ControlFlowStage.t :=
  ControlFlowStage.mk order name "SqlTask" None [] [] [] None.

Definition constraint (from to : string) (expression : option string)
  : PrecedenceConstraint.t :=
  PrecedenceConstraint.mk "Constraint" EmptyString EmptyString
    (ref ["Package"; from]) (ref ["Package"; to]) 0 true expression None.

Definition linked_stages : list ControlFlowStage.t := [ stage 1 "Extract"; stage 2 "Load" ].
Definition linked_constraints : list PrecedenceConstraint.t :=
  [ constraint "Extract" "Load" (Some "@[User::Rows] > 0");
    constraint "Extract" "Load" (Some "@[User::Force] == 1");
    constraint "Extract" "Archive" None ].

Definition linked_result : list ControlFlowStage.t :=
  [ ControlFlowStage.mk 1 "Extract" "SqlTask" None [] []
      [ ref ["Package"; "Load"]; ref ["Package"; "Archive"] ] None;
    ControlFlowStage.mk 2 "Load" "SqlTask" None [] [ ref ["Package"; "Extract"] ] []
      (Some "@[User::Rows] > 0") ].

(** Data-flow tasks. *)
Definition component (name ref_id component_class component_type : string)
  : DataFlowComponent.t :=
  DataFlowComponent.mk name ref_id component_type component_class None [] [] [] None None None
    ∅ false.

Definition edge (task name source_ref_id destination_ref_id : string) : DataFlowPath.t :=
  DataFlowPath.mk name (ref ["Package"; task] +:+ ".Paths[" +:+ name +:+ "]")
    source_ref_id destination_ref_id None None.

Definition package_of_tasks (dfts : list DataFlowTask.t) : DtsxPackage.t :=
  DtsxPackage.mk
    (PackageMetadata.mk "Package" EmptyString None None None None None None None None None)
    [] [] [] [] [] dfts None [] [] [] [] [].

(** A lookup with a match edge and a no-match edge. *)
Definition lookup_task : DataFlowTask.t :=
  DataFlowTask.mk "Load" (ref ["Package"; "Load"]) EmptyString None
    [ component "Find Customer" (ref ["Package"; "Load"; "Find Customer"])
        "Microsoft.Lookup" "Transform";
      component "Known Customers" (ref ["Package"; "Load"; "Known Customers"])
        "Microsoft.OLEDBDestination" "Destination";
      component "New Customers" (ref ["Package"; "Load"; "New Customers"])
        "Microsoft.OLEDBDestination" "Destination" ]
    [ edge "Load" "Lookup Match Output"
        (ref ["Package"; "Load"; "Find Customer.Outputs[Lookup Match Output]"])
        (ref ["Package"; "Load"; "Known Customers.Inputs[OLE DB Destination Input]"]);
      edge "Load" "Lookup No Match Output"
        (ref ["Package"; "Load"; "Find Customer.Outputs[Lookup No Match Output]"])
        (ref ["Package"; "Load"; "New Customers.Inputs[OLE DB Destination Input]"]) ].

(** A conditional split with a route that carries an expression and a
    default route that carries one as well. *)
Definition high_risk_output : ConditionalOutput.t :=
  ConditionalOutput.mk "HighRisk" (Some "[Score] > 80") (Some "Score > 80") (Some 0%Z)
    (PBool false).
Definition default_output : ConditionalOutput.t :=
  ConditionalOutput.mk "Default" (Some "[Score] <= 80") None None (PBool true).

Definition split_component : DataFlowComponent.t :=
  DataFlowComponent.mk "Split By Risk" (ref ["Package"; "Score"; "Split By Risk"])
    "Transform" "Microsoft.ConditionalSplit" None [] []
    [ high_risk_output; default_output ] None None None ∅ false.

Definition split_task : DataFlowTask.t :=
  DataFlowTask.mk "Score" (ref ["Package"; "Score"]) EmptyString None
    [ component "Read Scores" (ref ["Package"; "Score"; "Read Scores"])
        "Microsoft.OLEDBSource" "Source";
      split_component;
      component "Review Queue" (ref ["Package"; "Score"; "Review Queue"])
        "Microsoft.OLEDBDestination" "Destination";
      component "Normal Rows" (ref ["Package"; "Score"; "Normal Rows"])
        "Microsoft.OLEDBDestination" "Destination" ]
    [ edge "Score" "HighRisk"
        (ref ["Package"; "Score"; "Split By Risk.Outputs[HighRisk]"])
        (ref ["Package"; "Score"; "Review Queue.Inputs[OLE DB Destination Input]"]);
      edge "Score" "Default"
        (ref ["Package"; "Score"; "Split By Risk.Outputs[Default]"])
        (ref ["Package"; "Score"; "Normal Rows.Inputs[OLE DB Destination Input]"]) ].

(** A display name with a letter outside ASCII (U+00E9). *)
Definition sanitize_example : string := "Caf" +:+ String (ascii_of_nat 233) EmptyString.

(** ** Further definitions used to state properties *)

(** The position of the last stage whose name occurs in [ref]. *)
Definition last_containing (stages : list ControlFlowStage.t) (ref : string) : option nat :=
  fst <$> last (List.filter (fun '(_, stage) => Py.contains (ControlFlowStage.name stage) ref)
                            (imap pair stages)).

(** Whether a constraint carries a guard, and whether the linker, run on
    [stages] and [constraints], resolves a reference. *)
Definition guarded (constraint : PrecedenceConstraint.t) : bool :=
  truthy_str (PrecedenceConstraint.expression constraint).

Definition resolved (stages : list ControlFlowStage.t)
  (constraints : list PrecedenceConstraint.t) (ref : string) : bool :=
  bool_decide (is_Some (build_stage_by_ref stages constraints !! ref)).

(** A store in which a constraint is already recorded: its target is among
    the successors of the stage its source resolves to, and its source among
    the predecessors of the stage its target resolves to. *)
Definition recorded (stage_by_ref : gmap string nat) (stages : list ControlFlowStage.t)
  (c : PrecedenceConstraint.t) : Prop :=
  (forall i s, stage_by_ref !! PrecedenceConstraint.from_ref c = Some i ->
               stages !! i = Some s ->
               PrecedenceConstraint.to_ref c ∈ ControlFlowStage.precedence_to s)
  /\ (forall j s, stage_by_ref !! PrecedenceConstraint.to_ref c = Some j ->
                  stages !! j = Some s ->
                  PrecedenceConstraint.from_ref c ∈ ControlFlowStage.precedence_from s).

(** The last component of a task that bears a given name. *)
Definition last_named (name : string) (components : list DataFlowComponent.t)
  : option DataFlowComponent.t :=
  last (List.filter (fun comp => String.eqb (DataFlowComponent.name comp) name) components).

(** The key under which [_extract_database_objects] remembers an object
    that it has listed. *)
Definition object_key (object : DatabaseObject.t) : string :=
  (if String.eqb (DatabaseObject.object_type object) "StoredProcedure" then "proc:"
   else if String.eqb (DatabaseObject.object_type object) "Function" then "func:"
   else EmptyString)
  +:+ DatabaseObject.schema object +:+ "." +:+ DatabaseObject.name object.

(** What the loops of [_extract_database_objects] keep true of the set
    [seen] and the list [objects]. *)
Definition seen_objects (found : gset string * list DatabaseObject.t) : Prop :=
  NoDup (object_key <$> found.2)
  /\ forall key, key ∈ found.1 <-> key ∈ object_key <$> found.2.

(** A data-flow task whose pipeline lies in an [ObjectData] element, as the
    designer writes it: one source, one destination and the path between
    them. *)
Definition pipeline_elem : Element :=
  node "pipeline" []
    [ node "components" []
        [ node "component"
            [ ("refId", ref ["Package"; "Load"; "Read Orders"]);
              ("componentClassID", "Microsoft.OLEDBSource"); ("name", "Read Orders") ] [];
          node "component"
            [ ("refId", ref ["Package"; "Load"; "Write Orders"]);
              ("componentClassID", "Microsoft.OLEDBDestination"); ("name", "Write Orders") ]
            [] ];
      node "paths" []
        [ node "path"
            [ ("refId", ref ["Package"; "Load.Paths[Output]"]); ("name", "Output");
              ("startId", ref ["Package"; "Load"; "Read Orders.Outputs[Output]"]);
              ("endId", ref ["Package"; "Load"; "Write Orders.Inputs[Input]"]) ] [] ] ].

Definition data_flow_elem : Element :=
  node (dts "Executable")
    [ (dts "refId", ref ["Package"; "Load"]); (dts "ExecutableType", "Microsoft.Pipeline");
      (dts "ObjectName", "Load") ]
    [ node (dts "ObjectData") [] [ pipeline_elem ] ].

(** A conditional split as the document holds it: a route with an
    expression, the default route, and an output that is neither. *)
Definition property_elem (name value : string) : Element :=
  mkElement "property" [ ("name", name) ] (Some value) [].

Definition split_elem : Element :=
  node "component"
    [ ("refId", ref ["Package"; "Score"; "Split By Risk"]);
      ("componentClassID", "Microsoft.ConditionalSplit"); ("name", "Split By Risk") ]
    [ node "outputs" []
        [ node "output" [ ("name", "HighRisk") ]
            [ node "properties" []
                [ property_elem "Expression" "[Score] > 80";
                  property_elem "FriendlyExpression" "Score > 80";
                  property_elem "EvaluationOrder" "0" ] ];
          node "output" [ ("name", "Default") ]
            [ node "properties" [] [ property_elem "IsDefaultOut" "true" ] ];
          node "output" [ ("name", "Errors"); ("isErrorOut", "true") ]
            [ node "properties" [] [ property_elem "IsDefaultOut" "false" ] ] ] ].

(** The width of the boxes in the drawing of the control flow. *)
Definition box_width (stages : list ControlFlowStage.t) : nat :=
  match stages with
  | [] => 20
  | _ => foldr Nat.max 0 ((fun stage => Py.len (ControlFlowStage.name stage)) <$> stages)
  end + 4.

(** What the loops of [_parse_connection_managers] keep true of the
    properties they collect: a key is an attribute name without its
    namespace, and never [ConnectionString]. *)
Definition bare_keys (props : gmap string string) : Prop :=
  forall key, is_Some (props !! key) ->
    Py.contains "}" key = false /\ key <> "ConnectionString".

(** A document with one connection manager. *)
Definition connections_doc : Element :=
  node (dts "Executable") [ (dts "ObjectName", "Package") ]
    [ node (dts "ConnectionManagers") []
        [ node (dts "ConnectionManager")
            [ (dts "ObjectName", "Warehouse"); (dts "CreationName", "OLEDB") ]
            [ node (dts "ObjectData") []
                [ node (dts "ConnectionManager")
                    [ (dts "ConnectionString", "Data Source=dw;Initial Catalog=Sales;");
                      (dts "Retain", "True") ] [] ] ] ] ].

(** ** Properties

    *** The attribute resolver and the sanitizer *)

(** Claim C5.  For every node, attribute name and default, the attribute
    resolver returns the value stored under the namespace-qualified key if
    there is one, else the value under the bare name, else the value under
    the literal [DTS:]-prefixed key, else the default; it is a total
    function, so no absence makes it raise. *)
Theorem get_attr_resolves_in_priority_order (elem : Element) (attr : string) (default : pyval) :
  _get_attr elem attr default = resolve elem attr default.
Proof.
  unfold _get_attr, resolve. simpl.
  destruct (get elem (qualified NAMESPACES.DTS attr)); simpl; [reflexivity|].
  destruct (get elem attr); simpl; [reflexivity|].
  destruct (get elem ("DTS:" +:+ attr)); reflexivity.
Qed.

Lemma forallb_filter_weaken (p q : ascii -> bool) (s : string) :
  (forall c, p c = true -> q c = true) -> Py.forallb q (Py.filter p s) = true.
Proof.
  intros Hpq. induction s as [|c s IH]; simpl; [reflexivity|].
  destruct (p c) eqn:Hc; simpl; [|exact IH].
  rewrite (Hpq c Hc). exact IH.
Qed.

Lemma isalnum_ascii (c : ascii) :
  Py.isalnum c = true -> Py.is_ascii c = true -> Py.is_ascii_alnum c = true.
Proof.
  unfold Py.isalnum, Py.is_ascii. intros H Ha.
  destruct (Py.is_ascii_alnum c); [reflexivity|]. simpl in H.
  apply Nat.ltb_lt in Ha. unfold Py.between in H.
  repeat match goal with
    | H : _ || _ = true |- _ => apply orb_true_iff in H; destruct H
    | H : _ && _ = true |- _ => apply andb_true_iff in H; destruct H
    | H : (_ <=? _)%nat = true |- _ => apply Nat.leb_le in H
    | H : (_ =? _)%nat = true |- _ => apply Nat.eqb_eq in H
    end; lia.
Qed.

(** Claim C7, as amended.  The sanitizer is a function of the display name
    alone, and every character of its result is an underscore or a
    character that [str.isalnum] accepts; a character of the result that is
    ASCII is an ASCII letter, an ASCII digit or an underscore.  Letters and
    digits outside ASCII are kept. *)
Theorem sanitize_id_alphabet (name : string) :
  Py.forallb (fun c => Py.isalnum c || Ascii.eqb c "_") (_sanitize_id name) = true
  /\ Py.forallb (fun c => Py.is_ascii_alnum c || Ascii.eqb c "_" || negb (Py.is_ascii c))
       (_sanitize_id name) = true.
Proof.
  unfold _sanitize_id. split; apply forallb_filter_weaken; intros c Hc.
  - exact Hc.
  - apply orb_true_iff in Hc. destruct Hc as [Hc|Hc].
    + destruct (Py.is_ascii c) eqn:Ha.
      * rewrite (isalnum_ascii c Hc Ha). reflexivity.
      * simpl. apply orb_true_r.
    + rewrite Hc. rewrite orb_true_r. reflexivity.
Qed.

(** Claim C7 fails as stated: the sanitizer returns a display name with
    the letter U+00E9 unchanged, so its result is not made of ASCII letters,
    ASCII digits and underscores only. *)
Lemma sanitize_id_keeps_non_ascii :
  _sanitize_id sanitize_example = sanitize_example
  /\ Py.forallb (fun c => Py.is_ascii_alnum c || Ascii.eqb c "_") (_sanitize_id sanitize_example) = false.
Proof. split; vm_compute; reflexivity. Qed.

(** *** Numeric fields, and the routes of a lookup *)

Lemma get_attr_default (elem : Element) (attr : string) (default : pyval) :
  _get_attr elem attr default
  = match get_attr_opt elem attr with Some s => PStr s | None => default end.
Proof.
  unfold get_attr_opt, _get_attr.
  destruct (get elem (qualified NAMESPACES.DTS attr)); [reflexivity|].
  destruct (get elem attr); [reflexivity|].
  destruct (get elem ("DTS:" +:+ attr)); reflexivity.
Qed.

Lemma py_int_get_attr (elem : Element) (attr : string) (dflt : Z) :
  py_int (_get_attr elem attr (PInt dflt)) = numeric_field (get_attr_opt elem attr) dflt.
Proof. rewrite get_attr_default. destruct (get_attr_opt elem attr); reflexivity. Qed.

Lemma optional_int_spec (elem : Element) (key : string) :
  optional_int elem key = optional_numeric_field (get elem key).
Proof.
  unfold optional_int, optional_numeric_field, truthy_str.
  destruct (get elem key) as [s|]; [|reflexivity]. simpl.
  destruct (String.eqb s EmptyString); simpl; [reflexivity|].
  destruct (Py.int_of_string s); reflexivity.
Qed.



(** Claim C4 does not hold of the code.  For a lookup with one edge named
    [Lookup Match Output] and one named [Lookup No Match Output], both to
    known components, the routing listing has two lines [Match goes to] and
    no line [No Match goes to]: the no-match destination is reported as a
    match destination. *)
Theorem lookup_no_match_edge_reported_as_match :
  let listing :=
    (generate_routing_logic_diagram (DiagramGenerator.mk (package_of_tasks [lookup_task]))).1 in
  count_lines "      -> Match goes to: " listing = 2
  /\ count_lines "      -> No Match goes to: " listing = 0
  /\ In "      -> Match goes to: New Customers" (lines_of listing).
Proof.
  vm_compute. repeat split. repeat (first [left; reflexivity | right]).
Qed.

(** *** One iteration of the linker *)

Lemma bind_Ok {A B} (m : outcome A) (f : A -> outcome B) (b : B) :
  m ≫= f = Ok b -> exists a, m = Ok a /\ f a = Ok b.
Proof. destruct m as [a|e]; simpl; [eauto|discriminate]. Qed.

#[local] Set Warnings "-clear-no-such-hyp".

Ltac inv_bind H :=
  let a := fresh "a" in let Ha := fresh "Ha" in
  apply bind_Ok in H; destruct H as (a & Ha & H).

Ltac split_decide :=
  match goal with
  | |- context [bool_decide ?P] => destruct (bool_decide_reflect P) as [?|?]
  | H : context [bool_decide ?P] |- _ => destruct (bool_decide_reflect P) as [?|?]
  end.

Ltac solve_step :=
  repeat split_decide; simpl in *; simplify_eq; try reflexivity; try naive_solver.

Section Linker.

Variable m : gmap string nat.

Lemma stage_of_Some (stages : list ControlFlowStage.t) (r : string) i s :
  stage_of m stages r = Some (i, s) <-> m !! r = Some i /\ stages !! i = Some s.
Proof.
  unfold stage_of. destruct (m !! r) as [i'|]; simpl.
  - destruct (stages !! i') as [s'|] eqn:E; simpl; split.
    + intros [= <- <-]. auto.
    + intros [[= <-] H]. rewrite E in H. injection H as <-. reflexivity.
    + discriminate.
    + intros [[= <-] H]. rewrite E in H. discriminate.
  - split; [discriminate | intros [? _]; discriminate].
Qed.

Lemma stage_of_None (stages : list ControlFlowStage.t) (r : string) :
  stage_of m stages r = None ->
  forall k s, stages !! k = Some s -> m !! r <> Some k.
Proof.
  intros H k s Hk Hm. unfold stage_of in H. rewrite Hm in H. simpl in H.
  rewrite Hk in H. discriminate.
Qed.

Lemma link_predecessor_lookup stages c k :
  link_predecessor m stages c !! k = step_predecessor m c k <$> stages !! k.
Proof.
  unfold link_predecessor, step_predecessor.
  destruct (stage_of m stages (PrecedenceConstraint.to_ref c)) as [[j sj]|] eqn:E.
  - apply stage_of_Some in E as [Hm Hj]. rewrite Hm.
    split_decide.
    + rewrite list_lookup_alter. destruct (decide (j = k)) as [->|Hne].
      * rewrite Hj. simpl. f_equal. solve_step.
      * destruct (stages !! k) as [s|]; [|reflexivity]. simpl. f_equal. solve_step.
    + destruct (stages !! k) as [s|] eqn:Hk; [|reflexivity]. simpl. f_equal. solve_step.
  - destruct (stages !! k) as [s|] eqn:Hk; [|reflexivity]. simpl. f_equal.
    pose proof (stage_of_None _ _ E _ _ Hk). solve_step.
Qed.

Lemma link_successor_lookup stages c stages1 k :
  link_successor m stages c = Ok stages1 ->
  stages1 !! k = (fun s => step_condition m stages c k (step_successor m c k s)) <$> stages !! k.
Proof.
  unfold link_successor, step_condition, step_successor, assigns.
  destruct (stage_of m stages (PrecedenceConstraint.from_ref c)) as [[i si]|] eqn:E.
  - pose proof E as E'. apply stage_of_Some in E' as [Hm Hi]. rewrite Hm.
    split_decide.
    + destruct (truthy_str (PrecedenceConstraint.expression c)) eqn:Hg.
      * destruct (stage_of m _ (PrecedenceConstraint.to_ref c)) as [[j sj]|] eqn:Et;
          [|discriminate].
        apply stage_of_Some in Et as [Hmt Hj]. intros [= <-]. rewrite Hmt.
        rewrite !list_lookup_alter.
        destruct (decide (j = k)) as [->|Hjk], (decide (i = k)) as [->|Hik];
          rewrite ?list_lookup_alter_eq, ?list_lookup_alter_ne by auto;
          destruct (stages !! k) as [s|] eqn:Hk; simpl; try reflexivity;
          f_equal; solve_step.
      * intros [= <-]. rewrite andb_false_r.
        rewrite list_lookup_alter. destruct (decide (i = k)) as [->|Hik].
        -- rewrite Hi. simpl. f_equal. solve_step.
        -- destruct (stages !! k) as [s|]; [|reflexivity]. simpl. f_equal. solve_step.
    + intros [= <-]. rewrite andb_false_r, andb_false_r.
      destruct (stages !! k) as [s|] eqn:Hk; [|reflexivity]. simpl. f_equal. solve_step.
  - intros [= <-]. rewrite andb_false_r, andb_false_r.
    destruct (stages !! k) as [s|] eqn:Hk; [|reflexivity]. simpl. f_equal.
    pose proof (stage_of_None _ _ E _ _ Hk). solve_step.
Qed.

Lemma link_body_lookup stages c stages1 k :
  link_body m stages c = Ok stages1 ->
  stages1 !! k = step_stage m stages c k <$> stages !! k.
Proof.
  unfold link_body. intros H. inv_bind H. injection H as <-.
  rewrite link_predecessor_lookup, (link_successor_lookup _ _ _ k Ha).
  destruct (stages !! k); reflexivity.
Qed.

End Linker.

(** *** A run of the linker *)

Lemma collect_cons {A} (hit : A -> bool) (proj : A -> string) l c cs :
  collect hit proj l (c :: cs)
  = collect hit proj (if hit c && bool_decide (proj c ∉ l) then l ++ [proj c] else l) cs.
Proof. reflexivity. Qed.

Lemma collect_spec {A} (hit : A -> bool) (proj : A -> string) (cs : list A) (l : list string) :
  exists added,
    collect hit proj l cs = l ++ added
    /\ NoDup added
    /\ forall r, r ∈ added <-> (r ∉ l) /\ exists c, c ∈ cs /\ hit c = true /\ proj c = r.
Proof.
  revert l. induction cs as [|c cs IH]; intros l; [simpl|rewrite collect_cons].
  - exists []. rewrite app_nil_r. split; [reflexivity|]. split; [constructor|].
    intros r. split; [intros H; inversion H|].
    intros (_ & c & Hc & _). inversion Hc.
  - destruct (hit c && bool_decide (proj c ∉ l)) eqn:E.
    + apply andb_true_iff in E as [Hhit Hfresh]. apply bool_decide_eq_true in Hfresh.
      destruct (IH (l ++ [proj c])) as (added & Heq & Hnd & Hin).
      exists (proj c :: added). split; [|split].
      * rewrite Heq, <- app_assoc. reflexivity.
      * constructor; [|exact Hnd]. intros Hc. apply Hin in Hc as [Hc _].
        apply Hc. apply elem_of_app. right. constructor.
      * intros r. rewrite elem_of_cons, Hin. split.
        -- intros [->|(Hr & c' & Hc' & Hh & Hp)].
           ++ split; [exact Hfresh|]. exists c. split; [constructor|]. auto.
           ++ split.
              ** intros Hl. apply Hr. apply elem_of_app. auto.
              ** exists c'. split; [constructor; exact Hc'|]. auto.
        -- intros (Hr & c' & Hc' & Hh & Hp).
           destruct (decide (r = proj c)) as [->|Hne]; [left; reflexivity|].
           right. split.
           ++ rewrite elem_of_app, list_elem_of_singleton. intros [?|?]; auto.
           ++ apply elem_of_cons in Hc' as [->|Hc']; [congruence|]. eauto.
    + destruct (IH l) as (added & Heq & Hnd & Hin).
      exists added. split; [exact Heq|]. split; [exact Hnd|].
      intros r. rewrite Hin. split.
      * intros (Hr & c' & Hc' & Hh & Hp). split; [exact Hr|].
        exists c'. split; [constructor; exact Hc'|]. auto.
      * intros (Hr & c' & Hc' & Hh & Hp). split; [exact Hr|].
        apply elem_of_cons in Hc' as [->|Hc']; [|eauto].
        rewrite Hh in E. simpl in E. apply bool_decide_eq_false in E.
        rewrite Hp in E. contradiction.
Qed.

Section LinkerRun.

Variable m : gmap string nat.

Lemma step_stage_fields stages c k s :
  let s' := step_stage m stages c k s in
  same_entity s s'
  /\ ControlFlowStage.precedence_to s'
     = collect (from_hits m k) PrecedenceConstraint.to_ref (ControlFlowStage.precedence_to s) [c]
  /\ ControlFlowStage.precedence_from s'
     = collect (to_hits m k) PrecedenceConstraint.from_ref
         (ControlFlowStage.precedence_from s) [c]
  /\ ControlFlowStage.condition s'
     = if to_hits m k c && assigns m stages c
       then PrecedenceConstraint.expression c
       else ControlFlowStage.condition s.
Proof.
  unfold step_stage, step_predecessor, step_condition, step_successor, same_entity,
    collect, from_hits, to_hits. simpl.
  destruct (bool_decide (m !! PrecedenceConstraint.to_ref c = Some k)) eqn:Eto;
    destruct (assigns m stages c); simpl;
    repeat split_decide; simpl; try (exfalso; naive_solver); repeat split; reflexivity.
Qed.

Lemma foldlM_link_lookup cs : forall stages stages' k s,
  foldlM (link_body m) stages cs = Ok stages' ->
  stages !! k = Some s ->
  exists s', stages' !! k = Some s'
    /\ same_entity s s'
    /\ ControlFlowStage.precedence_to s'
       = collect (from_hits m k) PrecedenceConstraint.to_ref (ControlFlowStage.precedence_to s) cs
    /\ ControlFlowStage.precedence_from s'
       = collect (to_hits m k) PrecedenceConstraint.from_ref
           (ControlFlowStage.precedence_from s) cs.
Proof.
  induction cs as [|c cs IH]; intros stages stages' k s H Hk; simpl in H.
  - injection H as <-. exists s. unfold same_entity. auto 10.
  - inv_bind H.
    pose proof (link_body_lookup m _ _ _ k Ha) as Hstep. rewrite Hk in Hstep. simpl in Hstep.
    destruct (IH _ _ _ _ H Hstep) as (s' & Hs' & Hsame & Hto & Hfrom).
    destruct (step_stage_fields stages c k s) as (Hsame1 & Hto1 & Hfrom1 & _).
    exists s'. split; [exact Hs'|]. split; [|split].
    + unfold same_entity in *. intuition congruence.
    + rewrite Hto, Hto1. reflexivity.
    + rewrite Hfrom, Hfrom1. reflexivity.
Qed.

Lemma foldlM_link_length cs : forall stages stages',
  foldlM (link_body m) stages cs = Ok stages' -> length stages' = length stages.
Proof.
  induction cs as [|c cs IH]; intros stages stages' H; simpl in H.
  - injection H as <-. reflexivity.
  - inv_bind H. rewrite (IH _ _ H).
    unfold link_body in Ha. inv_bind Ha. injection Ha as <-.
    assert (length a0 = length stages) as <-.
    { unfold link_successor in Ha0.
      repeat match type of Ha0 with
        | context [match ?x with _ => _ end] => destruct x
        end; simplify_eq; rewrite ?length_alter; reflexivity. }
    unfold link_predecessor.
    repeat match goal with
      | |- context [match ?x with _ => _ end] => destruct x
      end; rewrite ?length_alter; reflexivity.
Qed.

Lemma foldlM_app {A B} (f : B -> A -> outcome B) (l1 l2 : list A) (b b' : B) :
  foldlM f b (l1 ++ l2) = Ok b' <->
  exists b1, foldlM f b l1 = Ok b1 /\ foldlM f b1 l2 = Ok b'.
Proof.
  revert b. induction l1 as [|a l1 IH]; intros b; simpl.
  - split; [eauto|]. intros (b1 & [= <-] & H). exact H.
  - destruct (f b a) as [b0|e]; simpl.
    + apply IH.
    + split; [discriminate|]. intros (b1 & H & _). discriminate.
Qed.

(** The condition of a stage after a run: unchanged, or the guard of a
    constraint that targets the stage and whose source resolves. *)
Lemma foldlM_link_condition cs : forall stages stages' k s s',
  foldlM (link_body m) stages cs = Ok stages' ->
  stages !! k = Some s -> stages' !! k = Some s' ->
  ControlFlowStage.condition s' = ControlFlowStage.condition s
  \/ exists c, c ∈ cs
       /\ truthy_str (PrecedenceConstraint.expression c) = true
       /\ m !! PrecedenceConstraint.to_ref c = Some k
       /\ (exists i, m !! PrecedenceConstraint.from_ref c = Some i)
       /\ ControlFlowStage.condition s' = PrecedenceConstraint.expression c.
Proof.
  induction cs as [|c cs IH]; intros stages stages' k s s' H Hk Hk'; simpl in H.
  - injection H as <-. rewrite Hk in Hk'. injection Hk' as <-. left. reflexivity.
  - inv_bind H.
    pose proof (link_body_lookup m _ _ _ k Ha) as Hstep. rewrite Hk in Hstep. simpl in Hstep.
    destruct (IH _ _ _ _ _ H Hstep Hk') as [Heq|(c' & Hc' & Hg & Hto & Hfrom & Heq)].
    + destruct (step_stage_fields stages c k s) as (_ & _ & _ & Hcond).
      rewrite Hcond in Heq.
      destruct (to_hits m k c && assigns m stages c) eqn:E; [|left; exact Heq].
      right. exists c. apply andb_true_iff in E as [Hto Has].
      apply bool_decide_eq_true in Hto.
      unfold assigns in Has. apply andb_true_iff in Has as [Hg Hfresh].
      split; [constructor|]. split; [exact Hg|]. split; [exact Hto|]. split; [|exact Heq].
      destruct (stage_of m stages (PrecedenceConstraint.from_ref c)) as [[i si]|] eqn:Es;
        [|discriminate].
      apply stage_of_Some in Es as [Hm _]. eauto.
    + right. exists c'. split; [constructor; exact Hc'|]. auto.
Qed.

(** A run in which no guarded constraint targets stage [k] leaves its
    condition alone. *)
Lemma foldlM_link_condition_kept cs : forall stages stages' k s s',
  foldlM (link_body m) stages cs = Ok stages' ->
  stages !! k = Some s -> stages' !! k = Some s' ->
  (forall c, c ∈ cs -> truthy_str (PrecedenceConstraint.expression c) = true ->
             m !! PrecedenceConstraint.to_ref c <> Some k) ->
  ControlFlowStage.condition s' = ControlFlowStage.condition s.
Proof.
  intros stages stages' k s s' H Hk Hk' Hnone.
  destruct (foldlM_link_condition _ _ _ _ _ _ H Hk Hk')
    as [Heq|(c & Hc & Hg & Hto & _)]; [exact Heq|].
  exfalso. exact (Hnone c Hc Hg Hto).
Qed.

(** The guard of a constraint that appends a new successor entry is the
    condition of its target when no later guarded constraint has the same
    target. *)
Lemma foldlM_link_last_guard pre c post : forall stages stages' i j si,
  foldlM (link_body m) stages (pre ++ c :: post) = Ok stages' ->
  truthy_str (PrecedenceConstraint.expression c) = true ->
  m !! PrecedenceConstraint.from_ref c = Some i ->
  m !! PrecedenceConstraint.to_ref c = Some j ->
  stages !! i = Some si ->
  PrecedenceConstraint.to_ref c ∉ ControlFlowStage.precedence_to si ->
  (forall c', c' ∈ pre -> m !! PrecedenceConstraint.from_ref c' = Some i ->
              PrecedenceConstraint.to_ref c' <> PrecedenceConstraint.to_ref c) ->
  (forall c'', c'' ∈ post -> truthy_str (PrecedenceConstraint.expression c'') = true ->
               m !! PrecedenceConstraint.to_ref c'' <> Some j) ->
  exists s', stages' !! j = Some s'
    /\ ControlFlowStage.condition s' = PrecedenceConstraint.expression c.
Proof.
  intros stages stages' i j si H Hg Hfrom Hto Hi Hfresh0 Hfresh Hlast.
  apply foldlM_app in H as (st1 & Hpre & H). simpl in H. inv_bind H. rename a into st2.
  destruct (foldlM_link_lookup _ _ _ _ _ Hpre Hi) as (si1 & Hi1 & _ & Hsucc & _).
  assert (Has : assigns m st1 c = true).
  { unfold assigns. rewrite Hg. simpl.
    assert (Hs : stage_of m st1 (PrecedenceConstraint.from_ref c) = Some (i, si1))
      by (apply stage_of_Some; auto).
    rewrite Hs. apply bool_decide_eq_true. rewrite Hsucc.
    destruct (collect_spec (from_hits m i) PrecedenceConstraint.to_ref pre
                (ControlFlowStage.precedence_to si)) as (added & -> & _ & Hin).
    rewrite elem_of_app. intros [Hc|Hc]; [contradiction|].
    apply Hin in Hc as (_ & c' & Hc' & Hh & Hp).
    apply bool_decide_eq_true in Hh. exact (Hfresh c' Hc' Hh Hp). }
  assert (Hj1 : exists sj1, st1 !! j = Some sj1).
  { unfold link_body in Ha. inv_bind Ha.
    unfold link_successor in Ha0. unfold assigns in Has. rewrite Hg in Has. simpl in Has.
    destruct (stage_of m st1 (PrecedenceConstraint.from_ref c)) as [[i' si']|];
      [|discriminate].
    rewrite Has, Hg in Ha0.
    destruct (stage_of m _ (PrecedenceConstraint.to_ref c)) as [[j' sj']|] eqn:Et;
      [|discriminate].
    apply stage_of_Some in Et as [Hm Hl]. rewrite Hto in Hm. injection Hm as <-.
    apply lookup_lt_Some in Hl. rewrite length_alter in Hl.
    apply lookup_lt_is_Some_2 in Hl. destruct Hl as [x Hx]. eauto. }
  destruct Hj1 as (sj1 & Hj1).
  pose proof (link_body_lookup m _ _ _ j Ha) as Hstep. rewrite Hj1 in Hstep. simpl in Hstep.
  destruct (step_stage_fields st1 c j sj1) as (_ & _ & _ & Hcond).
  unfold to_hits in Hcond. rewrite bool_decide_true in Hcond by exact Hto.
  rewrite Has in Hcond. simpl in Hcond.
  destruct (foldlM_link_lookup _ _ _ _ _ H Hstep) as (s' & Hs' & _).
  exists s'. split; [exact Hs'|].
  rewrite (foldlM_link_condition_kept _ _ _ _ _ _ H Hstep Hs' Hlast). exact Hcond.
Qed.

End LinkerRun.

(** *** Reference resolution and the order of the stages *)

Lemma stage_by_ref_body_lookup i stage m c ref :
  stage_by_ref_body i stage m c !! ref
  = if (String.eqb (PrecedenceConstraint.from_ref c) ref
        || String.eqb (PrecedenceConstraint.to_ref c) ref)
       && Py.contains (ControlFlowStage.name stage) ref
    then Some i else m !! ref.
Proof.
  unfold stage_by_ref_body.
  destruct (String.eqb_spec (PrecedenceConstraint.from_ref c) ref) as [Hf|Hf],
           (String.eqb_spec (PrecedenceConstraint.to_ref c) ref) as [Ht|Ht]; simpl.
  - rewrite Hf, Ht. destruct (Py.contains _ ref); [|reflexivity].
    apply lookup_insert_eq.
  - rewrite Hf. destruct (Py.contains _ ref).
    + destruct (Py.contains _ (PrecedenceConstraint.to_ref c)).
      * rewrite lookup_insert_ne by exact Ht. apply lookup_insert_eq.
      * apply lookup_insert_eq.
    + destruct (Py.contains _ (PrecedenceConstraint.to_ref c)); [|reflexivity].
      apply lookup_insert_ne. exact Ht.
  - rewrite Ht. destruct (Py.contains _ ref).
    + apply lookup_insert_eq.
    + destruct (Py.contains _ (PrecedenceConstraint.from_ref c)); [|reflexivity].
      apply lookup_insert_ne. exact Hf.
  - destruct (Py.contains _ (PrecedenceConstraint.to_ref c)),
             (Py.contains _ (PrecedenceConstraint.from_ref c));
      rewrite ?lookup_insert_ne by assumption; reflexivity.
Qed.

Lemma stage_by_ref_inner_lookup i stage cs : forall m ref,
  foldl (stage_by_ref_body i stage) m cs !! ref
  = if is_endpoint cs ref && Py.contains (ControlFlowStage.name stage) ref
    then Some i else m !! ref.
Proof.
  induction cs as [|c cs IH]; intros m ref; simpl; [reflexivity|].
  rewrite IH, stage_by_ref_body_lookup.
  destruct (is_endpoint cs ref), (Py.contains (ControlFlowStage.name stage) ref),
    (String.eqb (PrecedenceConstraint.from_ref c) ref),
    (String.eqb (PrecedenceConstraint.to_ref c) ref); reflexivity.
Qed.

Lemma build_stage_by_ref_snoc stages stage cs :
  build_stage_by_ref (stages ++ [stage]) cs
  = foldl (stage_by_ref_body (length stages) stage) (build_stage_by_ref stages cs) cs.
Proof.
  unfold build_stage_by_ref. rewrite imap_app, foldl_app. simpl.
  rewrite Nat.add_0_r. reflexivity.
Qed.

(** A reference resolves to the last stage whose name it contains, provided
    that it is an endpoint of some constraint. *)
Lemma resolves_by_name_containment stages cs ref i :
  build_stage_by_ref stages cs !! ref = Some i <->
  is_endpoint cs ref = true
  /\ (exists s, stages !! i = Some s /\ Py.contains (ControlFlowStage.name s) ref = true)
  /\ (forall i' s', i < i' -> stages !! i' = Some s' ->
                    Py.contains (ControlFlowStage.name s') ref = false).
Proof.
  revert i. induction stages as [|stage stages IH] using rev_ind; intros i.
  - unfold build_stage_by_ref. simpl. rewrite lookup_empty. split; [discriminate|].
    intros (_ & (s & Hs & _) & _). discriminate.
  - rewrite build_stage_by_ref_snoc, stage_by_ref_inner_lookup.
    destruct (is_endpoint cs ref && Py.contains (ControlFlowStage.name stage) ref) eqn:E.
    + apply andb_true_iff in E as [He Hc]. split.
      * intros [= <-]. split; [exact He|]. split.
        -- exists stage. split; [|exact Hc]. apply list_lookup_middle. reflexivity.
        -- intros i' s' Hlt Hs'. apply lookup_lt_Some in Hs'.
           rewrite length_app in Hs'. simpl in Hs'. lia.
      * intros (_ & (s & Hs & Hcs) & Hlast). f_equal.
        assert (Hi : i < length (stages ++ [stage])) by (eapply lookup_lt_Some; eauto).
        rewrite length_app in Hi. simpl in Hi.
        destruct (decide (i = length stages)) as [->|Hne]; [reflexivity|].
        assert (Hf : Py.contains (ControlFlowStage.name stage) ref = false).
        { apply (Hlast (length stages)); [lia|]. apply list_lookup_middle. reflexivity. }
        congruence.
    + rewrite IH. split.
      * intros (He & (s & Hs & Hcs) & Hlast). split; [exact He|]. split.
        -- exists s. split; [|exact Hcs]. apply lookup_app_l_Some. exact Hs.
        -- intros i' s' Hlt Hs'. apply lookup_app_Some in Hs' as [Hs'|[Hge Hs']].
           ++ eauto.
           ++ apply list_lookup_singleton_Some in Hs' as [_ <-].
              rewrite He in E. simpl in E. exact E.
      * intros (He & (s & Hs & Hcs) & Hlast). split; [exact He|].
        rewrite He in E. simpl in E.
        apply lookup_app_Some in Hs as [Hs|[Hge Hs]].
        -- split; [eauto|]. intros i' s' Hlt Hs'. apply (Hlast i' s' Hlt).
           apply lookup_app_l_Some. exact Hs'.
        -- apply list_lookup_singleton_Some in Hs as [_ <-]. congruence.
Qed.

Lemma resolves_in_range stages cs ref i :
  build_stage_by_ref stages cs !! ref = Some i -> i < length stages.
Proof.
  intros H. apply resolves_by_name_containment in H as (_ & (s & Hs & _) & _).
  eapply lookup_lt_Some. exact Hs.
Qed.

(** The counter of [_parse_control_flow]. *)
Lemma parse_control_flow_stages_from executables : forall stage_order stages,
  foldl (fun '(stage_order, stages) executable =>
           let stage_order := (stage_order + 1)%Z in
           (stage_order, stages ++ [_parse_executable_as_stage executable stage_order]))
        (stage_order, stages) executables
  = ((stage_order + Z.of_nat (length executables))%Z,
     stages ++ imap (fun i executable =>
                       _parse_executable_as_stage executable
                         (stage_order + Z.of_nat (S i))%Z) executables).
Proof.
  induction executables as [|e executables IH]; intros stage_order stages; simpl.
  - rewrite Z.add_0_r, app_nil_r. reflexivity.
  - rewrite IH. f_equal; [lia|]. rewrite <- app_assoc. simpl. do 2 f_equal.
    apply imap_ext. intros i x _. simpl. f_equal. lia.
Qed.

Lemma parse_control_flow_stages_spec executables :
  (_parse_control_flow_stages executables).2
  = imap (fun i executable => _parse_executable_as_stage executable (Z.of_nat (S i)))
         executables.
Proof.
  unfold _parse_control_flow_stages. rewrite parse_control_flow_stages_from. simpl.
  apply imap_ext. intros i x _. simpl. f_equal.
Qed.

Lemma link_preserves_entities stages cs stages' :
  _link_stages_with_precedence stages cs = Ok stages' ->
  Forall2 (same_entity) stages stages'.
Proof.
  unfold _link_stages_with_precedence. intros H.
  apply Forall2_same_length_lookup. split.
  - symmetry. exact (foldlM_link_length _ _ _ _ H).
  - intros k s s' Hs Hs'.
    destruct (foldlM_link_lookup _ _ _ _ _ _ H Hs) as (s1 & Hs1 & Hsame & _).
    rewrite Hs' in Hs1. injection Hs1 as <-. exact Hsame.
Qed.

Lemma seq_succ_sorted n : forall start,
  StronglySorted Z.lt ((fun i => Z.of_nat (S i)) <$> seq start n).
Proof.
  induction n as [|n IH]; intros start; simpl; constructor.
  - apply IH.
  - apply Forall_forall. intros z Hz.
    apply list_elem_of_fmap in Hz as (i & -> & Hi).
    apply elem_of_seq in Hi. lia.
Qed.

(** Claim C6.  When the control flow of a document is parsed, the [order]
    values of the stages are 1, 2, 3, ... in the sequence in which the stage
    elements are met in the document, whatever the precedence constraints
    are: the i-th stage is the one built from the i-th element, and the
    values are strictly increasing and pairwise distinct. *)
Theorem stage_order_is_encounter_order (root : Element)
  (stages : list ControlFlowStage.t) (constraints : list PrecedenceConstraint.t)
  (Hparsed : _parse_control_flow root = Ok (stages, constraints)) :
  ControlFlowStage.order <$> stages
    = (fun i => Z.of_nat (S i)) <$> seq 0 (length (stage_elements root))
  /\ ControlFlowStage.name <$> stages
     = imap (fun i executable =>
               ControlFlowStage.name (_parse_executable_as_stage executable (Z.of_nat (S i))))
            (stage_elements root)
  /\ StronglySorted Z.lt (ControlFlowStage.order <$> stages)
  /\ NoDup (ControlFlowStage.order <$> stages).
Proof.
  unfold _parse_control_flow in Hparsed.
  inv_bind Hparsed. rename a into cs. inv_bind Hparsed. injection Hparsed as <- <-.
  rename a into stages.
  apply link_preserves_entities in Ha0. rewrite parse_control_flow_stages_spec in Ha0.
  assert (Horder : ControlFlowStage.order <$> stages
                   = (fun i => Z.of_nat (S i)) <$> seq 0 (length (stage_elements root))).
  { apply list_eq. intros k. rewrite !list_lookup_fmap.
    destruct (stages !! k) as [s'|] eqn:Hs'; simpl.
    - destruct (Forall2_lookup_r _ _ _ _ _ Ha0 Hs') as (s & Hs & Hsame).
      rewrite list_lookup_imap in Hs.
      destruct (stage_elements root !! k) as [e|] eqn:He; [|discriminate].
      simpl in Hs. injection Hs as <-.
      rewrite lookup_seq_lt by (eapply lookup_lt_Some; eauto). simpl.
      destruct Hsame as (-> & _). reflexivity.
    - apply lookup_ge_None in Hs'.
      rewrite <- (Forall2_length _ _ _ Ha0), length_imap in Hs'.
      rewrite lookup_seq_ge by exact Hs'. reflexivity. }
  split; [exact Horder|]. split; [|split].
  - apply list_eq. intros k. rewrite list_lookup_fmap, list_lookup_imap.
    destruct (stages !! k) as [s'|] eqn:Hs'; simpl.
    + destruct (Forall2_lookup_r _ _ _ _ _ Ha0 Hs') as (s & Hs & Hsame).
      rewrite list_lookup_imap in Hs.
      destruct (stage_elements root !! k) as [e|] eqn:He; [|discriminate].
      simpl in Hs. injection Hs as <-. simpl.
      destruct Hsame as (_ & -> & _). reflexivity.
    + apply lookup_ge_None in Hs'.
      rewrite <- (Forall2_length _ _ _ Ha0), length_imap in Hs'.
      apply lookup_ge_None in Hs'. rewrite Hs'. reflexivity.
  - rewrite Horder. apply seq_succ_sorted.
  - rewrite Horder. apply NoDup_fmap_2_strong; [|apply NoDup_seq].
    intros x y _ _ Heq. lia.
Qed.

(** *** The linker on every input *)




(** *** The first parse, a linker failure, and the generator *)

Lemma parse_root_first_call re_search re_findall root package :
  parse_root re_search re_findall None root = Ok package ->
  DtsxPackage.database_objects package = [] /\ DtsxPackage.alerts package = [].
Proof.
  unfold parse_root. intros H.
  repeat inv_bind H.
  destruct a1. repeat inv_bind H.
  injection H as <-. split; reflexivity.
Qed.

Lemma parse_unassigned_mines_nothing
  (ET_parse : string -> outcome Element)
  (re_search : string -> string -> option string)
  (re_findall : string -> string -> list string)
  (self : DtsxParser.t) (package : DtsxPackage.t) :
  DtsxParser.package self = None ->
  (parse ET_parse re_search re_findall self).1 = Ok package ->
  DtsxPackage.database_objects package = [] /\ DtsxPackage.alerts package = [].
Proof.
  intros Hunassigned Hparsed. unfold parse in Hparsed.
  destruct (ET_parse (DtsxParser.file_path self)) as [root|e]; [|discriminate].
  simpl in Hparsed. rewrite Hunassigned in Hparsed.
  destruct (parse_root re_search re_findall None root) as [p|e] eqn:Hroot; [|discriminate].
  simpl in Hparsed. injection Hparsed as <-.
  exact (parse_root_first_call _ _ _ _ Hroot).
Qed.

(** Claim C10.  For every document that parses, the package that [parse]
    returns on the parser built for it has no database object and no alert:
    both mining passes read the package attribute of the parser, which
    [__init__] leaves unassigned and [parse] assigns only when they are
    over. *)
Theorem first_parse_mines_nothing
  (ET_parse : string -> outcome Element)
  (re_search : string -> string -> option string)
  (re_findall : string -> string -> list string)
  (file_path : string) (package : DtsxPackage.t)
  (Hparsed : (parse ET_parse re_search re_findall (__init__ file_path)).1 = Ok package) :
  DtsxPackage.database_objects package = [] /\ DtsxPackage.alerts package = [].
Proof.
  exact (parse_unassigned_mines_nothing ET_parse re_search re_findall (__init__ file_path)
           package eq_refl Hparsed).
Qed.

(** The hypothesis of the theorem for claim C10 holds of the document with
    three stages in sequence. *)
Lemma first_parse_mines_nothing_witness :
  exists package,
    (parse (fun _ => Ok sequential_doc) no_search no_findall (__init__ "package.dtsx")).1
      = Ok package
    /\ DtsxPackage.database_objects package = []
    /\ DtsxPackage.alerts package = [].
Proof.
  assert (H : exists package,
            (parse (fun _ => Ok sequential_doc) no_search no_findall
               (__init__ "package.dtsx")).1 = Ok package)
    by (eexists; vm_compute; reflexivity).
  destruct H as (package & H). exists package. split; [exact H|].
  exact (first_parse_mines_nothing (fun _ => Ok sequential_doc) no_search no_findall
           "package.dtsx" package H).
Defined.

(** When [parse] is called again on the same parser object, the mining
    passes read the package of the first call: a mail task in a container
    then yields an alert. *)
Remark second_parse_mines_first_package :
  let parse_doc := parse (fun _ => Ok mail_doc) no_search no_findall in
  let first := parse_doc (__init__ "package.dtsx") in
  (DtsxPackage.alerts <$> first.1) = Ok []
  /\ (fun package => Alert.name <$> DtsxPackage.alerts package) <$> (parse_doc first.2).1
     = Ok [ "Send Report" ].
Proof. split; vm_compute; reflexivity. Qed.

(** Claim C2 does not hold of the code.  For a document with one stage and
    one guarded constraint from that stage to a reference that resolves to
    no stage, the linker raises [AttributeError], and so does [parse]. *)
Theorem guarded_constraint_to_unknown_target_raises :
  _parse_control_flow dangling_doc = Raise AttributeError
  /\ (parse (fun _ => Ok dangling_doc) no_search no_findall (__init__ "package.dtsx")).1
     = Raise AttributeError.
Proof. split; vm_compute; reflexivity. Qed.


(** *** Default routes *)

Lemma bind_elem_split {A B} (f : A -> list B) (l : list A) (x : A) :
  x ∈ l -> exists before after, l ≫= f = before ++ f x ++ after.
Proof.
  intros Hx. apply list_elem_of_split in Hx as (l1 & l2 & ->).
  exists (l1 ≫= f), (l2 ≫= f). rewrite bind_app, bind_cons. reflexivity.
Qed.

Lemma concat_imap_lookup_split {A B} (f : nat -> A -> list B) (l : list A) i x :
  l !! i = Some x -> exists before after, concat (imap f l) = before ++ f i x ++ after.
Proof.
  revert f i. induction l as [|y l IH]; intros f i Hi; [discriminate|].
  destruct i as [|i]; simpl in *.
  - injection Hi as <-. exists [], (concat (imap (f ∘ S) l)). reflexivity.
  - destruct (IH (f ∘ S) i Hi) as (b & a & ->).
    exists (f 0 y ++ b), a. simpl. rewrite <- app_assoc. reflexivity.
Qed.

Lemma find_fmap {A B} (p : B -> bool) (g : A -> B) (l : list A) :
  List.find p (g <$> l) = g <$> List.find (fun x => p (g x)) l.
Proof.
  induction l as [|x l IH]; simpl; [reflexivity|].
  destruct (p (g x)); [reflexivity|exact IH].
Qed.

Lemma bind_fmap_list {A B C} (g : A -> B) (f : B -> list C) (l : list A) :
  (g <$> l) ≫= f = l ≫= (fun x => f (g x)).
Proof.
  induction l as [|x l IH]; [reflexivity|].
  rewrite fmap_cons, !bind_cons, IH. reflexivity.
Qed.

Lemma bind_ext_list {A B} (f g : A -> list B) (l : list A) :
  (forall x, f x = g x) -> l ≫= f = l ≫= g.
Proof.
  intros H. induction l as [|x l IH]; [reflexivity|].
  rewrite !bind_cons, H, IH. reflexivity.
Qed.

Section DefaultExpressions.

Variables e fe : option string.

Lemma extract_component_name_with_default_expressions ref_id components :
  _extract_component_name ref_id (component_with_default_expressions e fe <$> components)
  = _extract_component_name ref_id components.
Proof.
  unfold _extract_component_name. rewrite !find_fmap. simpl.
  destruct (List.find _ components); simpl; [reflexivity|].
  destruct (1 <? length (Py.split backslash ref_id))%nat; [|reflexivity].
  destruct (List.find _ components); reflexivity.
Qed.

Lemma with_default_expressions_name cond :
  ConditionalOutput.name (with_default_expressions e fe cond) = ConditionalOutput.name cond.
Proof.
  unfold with_default_expressions.
  destruct (truthy (ConditionalOutput.is_default cond)); reflexivity.
Qed.

Lemma route_lines_with_default_expressions dft i cond :
  route_lines (task_with_default_expressions e fe dft) i (with_default_expressions e fe cond)
  = route_lines dft i cond.
Proof.
  unfold route_lines, route_destinations. simpl.
  rewrite with_default_expressions_name.
  assert (Hdest : forall path,
    _extract_component_name (DataFlowPath.destination_ref_id path)
      (component_with_default_expressions e fe <$> DataFlowTask.components dft)
    = _extract_component_name (DataFlowPath.destination_ref_id path)
        (DataFlowTask.components dft))
    by (intros; apply extract_component_name_with_default_expressions).
  rewrite (bind_ext_list _ _ _ (fun path => f_equal
             (fun dest => if truthy_str dest
                          then [ "      Destination: " +:+ default EmptyString dest ]
                          else []) (Hdest path))).
  unfold with_default_expressions.
  destruct (truthy (ConditionalOutput.is_default cond)) eqn:Hd; simpl;
    rewrite ?Hd; reflexivity.
Qed.

Lemma routing_component_with_default_expressions dft comp :
  routing_component (task_with_default_expressions e fe dft)
    (component_with_default_expressions e fe comp)
  = routing_component dft comp.
Proof.
  unfold routing_component. f_equal; [|f_equal].
  - unfold routing_conditional.
    lazy beta iota delta [component_with_default_expressions DataFlowComponent.name
      DataFlowComponent.component_class DataFlowComponent.conditional_outputs].
    destruct comp as [n r ty cl d ic oc conds cm sq tn pr he].
    destruct conds as [|c0 cs0]; [reflexivity|].
    rewrite fmap_cons. cbv beta iota. rewrite <- fmap_cons, imap_fmap.
    f_equal. f_equal. apply imap_ext.
    intros i x _. simpl. apply route_lines_with_default_expressions.
  - unfold routing_lookup. simpl.
    destruct (Py.contains "Lookup" (DataFlowComponent.component_class comp)); [|reflexivity].
    rewrite (bind_ext_list
               (fun path => lookup_route (task_with_default_expressions e fe dft)
                              (component_with_default_expressions e fe comp) path)
               (fun path => lookup_route dft comp path)); [reflexivity|].
    intros path. unfold lookup_route. simpl.
    rewrite extract_component_name_with_default_expressions. reflexivity.
  - unfold routing_multicast. simpl.
    destruct (Py.contains "Multicast" (DataFlowComponent.component_class comp));
      [|reflexivity].
    erewrite bind_ext_list; [reflexivity|].
    intros path. simpl.
    rewrite extract_component_name_with_default_expressions. reflexivity.
Qed.

Lemma routing_task_with_default_expressions dft :
  routing_task (task_with_default_expressions e fe dft) = routing_task dft.
Proof.
  unfold routing_task. simpl. rewrite bind_fmap_list.
  rewrite (bind_ext_list
             (fun x => routing_component (task_with_default_expressions e fe dft)
                         (component_with_default_expressions e fe x))
             (fun comp => routing_component dft comp)); [reflexivity|].
  intros comp. apply routing_component_with_default_expressions.
Qed.

Lemma routing_lines_with_default_expressions package :
  routing_lines (package_with_default_expressions e fe package) = routing_lines package.
Proof.
  unfold routing_lines. simpl. rewrite bind_fmap_list.
  rewrite (bind_ext_list
             (fun x => routing_task (task_with_default_expressions e fe x))
             (fun dft => routing_task dft)); [reflexivity|].
  exact routing_task_with_default_expressions.
Qed.

End DefaultExpressions.

Lemma occurs_in_trans (block mid l : list string) :
  occurs_in block mid -> occurs_in mid l -> occurs_in block l.
Proof.
  intros (b1 & a1 & ->) (b2 & a2 & ->). exists (b2 ++ b1), (a1 ++ a2).
  repeat rewrite <- app_assoc. reflexivity.
Qed.

Lemma occurs_in_bind {A} (f : A -> list string) (l : list A) (x : A) :
  x ∈ l -> occurs_in (f x) (l ≫= f).
Proof. intros Hx. exact (bind_elem_split f l x Hx). Qed.

Lemma occurs_in_app_r (block pre l : list string) :
  occurs_in block l -> occurs_in block (pre ++ l).
Proof.
  intros (b & a & ->). exists (pre ++ b), a. rewrite <- app_assoc. reflexivity.
Qed.

Lemma occurs_in_app_l (block l post : list string) :
  occurs_in block l -> occurs_in block (l ++ post).
Proof.
  intros (b & a & ->). exists b, (a ++ post). repeat rewrite <- app_assoc. reflexivity.
Qed.

Lemma occurs_in_refl (l : list string) : occurs_in l l.
Proof. exists [], []. rewrite app_nil_r. reflexivity. Qed.

(** Claim C8.  For a conditional output flagged default, the routing
    listing has the line of the route followed at once by the line
    [Condition: DEFAULT (all unmatched rows)], the destinations of the route
    and a blank line; and the listing is the same whatever expressions the
    outputs flagged default carry. *)
Theorem default_route_shows_no_expression
  (package : DtsxPackage.t) (dft : DataFlowTask.t) (comp : DataFlowComponent.t)
  (i : nat) (cond : ConditionalOutput.t) (expression friendly_expression : option string)
  (Htask : dft ∈ DtsxPackage.data_flow_tasks package)
  (Hcomp : comp ∈ DataFlowTask.components dft)
  (Hcond : DataFlowComponent.conditional_outputs comp !! i = Some cond)
  (Hdefault : truthy (ConditionalOutput.is_default cond) = true) :
  occurs_in
    ([ "    Route " +:+ Py.str_of_nat (1 + i) +:+ ": " +:+ ConditionalOutput.name cond;
       "      Condition: DEFAULT (all unmatched rows)" ]
     ++ route_destinations cond dft ++ [ EmptyString ])
    (routing_lines package)
  /\ (generate_routing_logic_diagram
        (DiagramGenerator.mk
           (package_with_default_expressions expression friendly_expression package))).1
     = (generate_routing_logic_diagram (DiagramGenerator.mk package)).1.
Proof.
  split.
  - apply occurs_in_trans with (mid := route_lines dft (1 + i) cond).
    { unfold route_lines. rewrite Hdefault. apply occurs_in_refl. }
    apply occurs_in_trans with (mid := routing_component dft comp).
    { unfold routing_component, routing_conditional. apply occurs_in_app_l.
      destruct (DataFlowComponent.conditional_outputs comp) as [|c0 cs0] eqn:Hcs;
        [discriminate|].
      rewrite <- Hcs in *. apply occurs_in_app_r.
      exact (concat_imap_lookup_split (fun i cond => route_lines dft (1 + i) cond) _ _ _ Hcond). }
    apply occurs_in_trans with (mid := routing_task dft).
    { unfold routing_task. apply occurs_in_app_r. apply occurs_in_app_l.
      exact (occurs_in_bind (fun comp => routing_component dft comp) _ _ Hcomp). }
    unfold routing_lines. apply occurs_in_app_r.
    exact (occurs_in_bind (fun dft => routing_task dft) _ _ Htask).
  - unfold generate_routing_logic_diagram, routing_logic_of.
    cbv beta iota delta [fst DiagramGenerator.package].
    rewrite routing_lines_with_default_expressions. reflexivity.
Qed.

(** *** The lookup branch that is never taken, and two instances *)

Lemma contains_prefix (p s : string) : String.prefix p s = true -> Py.contains p s = true.
Proof. intros H. destruct s; cbn [Py.contains]; rewrite H; reflexivity. Qed.

Lemma contains_cons (sub : string) (c : ascii) (s : string) :
  Py.contains sub s = true -> Py.contains sub (String c s) = true.
Proof. intros H. cbn [Py.contains]. rewrite H. apply orb_true_r. Qed.

Lemma prefix_app_contains (a b : string) : forall s,
  String.prefix (a +:+ b) s = true -> Py.contains b s = true.
Proof.
  induction a as [|c a IH]; intros s H; simpl in H.
  - apply contains_prefix. exact H.
  - destruct s as [|d s]; simpl in H; [discriminate|].
    destruct (ascii_dec c d); [|discriminate].
    apply contains_cons. apply IH. exact H.
Qed.

Lemma contains_suffix_of_needle (a b s : string) :
  Py.contains (a +:+ b) s = true -> Py.contains b s = true.
Proof.
  induction s as [|c s IH]; simpl; intros H.
  - rewrite orb_false_r in H. apply (prefix_app_contains a b EmptyString) in H.
    simpl in H. exact H.
  - apply orb_true_iff in H as [H|H].
    + apply (prefix_app_contains a b (String c s)) in H. simpl in H. exact H.
    + fold (Py.contains b (String c s)). apply contains_cons. apply IH. exact H.
Qed.

Lemma startswith_app (p s : string) : Py.startswith p (p +:+ s) = true.
Proof.
  unfold Py.startswith. induction p as [|c p IH]; simpl.
  - destruct s; reflexivity.
  - destruct (ascii_dec c c); [exact IH|congruence].
Qed.

(** The branch that reports a no-match destination is never taken. *)
Lemma lookup_route_only_match (dft : DataFlowTask.t) (comp : DataFlowComponent.t)
  (path : DataFlowPath.t) (line : string) :
  line ∈ lookup_route dft comp path ->
  Py.startswith "      -> Match goes to: " line = true.
Proof.
  unfold lookup_route.
  destruct (Py.contains (DataFlowComponent.name comp) (DataFlowPath.source_ref_id path));
    [|intros H; inversion H].
  destruct (truthy_str _); [|intros H; inversion H].
  destruct (Py.contains "Match" (DataFlowPath.name path)) eqn:Hm.
  - intros H. apply list_elem_of_singleton in H as ->. apply startswith_app.
  - assert (Hn1 : Py.contains "NoMatch" (DataFlowPath.name path) = false).
    { destruct (Py.contains "NoMatch" (DataFlowPath.name path)) eqn:E; [|reflexivity].
      apply (contains_suffix_of_needle "No" "Match") in E. congruence. }
    assert (Hn2 : Py.contains "No Match" (DataFlowPath.name path) = false).
    { destruct (Py.contains "No Match" (DataFlowPath.name path)) eqn:E; [|reflexivity].
      apply (contains_suffix_of_needle "No " "Match") in E. congruence. }
    rewrite Hn1, Hn2. intros H. inversion H.
Qed.

(** The hypotheses of the theorem for claim C8 hold of a conditional split
    whose default route carries an expression. *)
Lemma default_route_shows_no_expression_witness :
  truthy (ConditionalOutput.is_default default_output) = true
  /\ occurs_in
       [ "    Route 2: Default";
         "      Condition: DEFAULT (all unmatched rows)";
         "      Destination: Normal Rows";
         EmptyString ]
       (routing_lines (package_of_tasks [split_task])).
Proof.
  split; [reflexivity|].
  apply (default_route_shows_no_expression (package_of_tasks [split_task]) split_task
           split_component 1 default_output None None).
  - apply list_elem_of_In. left. reflexivity.
  - apply list_elem_of_In. right. left. reflexivity.
  - reflexivity.
  - reflexivity.
Defined.

(** The hypothesis of the theorem for claim C6 holds of the document with
    three stages in sequence. *)
Lemma stage_order_is_encounter_order_witness :
  exists stages constraints,
    _parse_control_flow sequential_doc = Ok (stages, constraints)
    /\ ControlFlowStage.order <$> stages = [1; 2; 3]%Z
    /\ ControlFlowStage.name <$> stages = ["Extract"; "Transform"; "Load"].
Proof.
  assert (H : exists sc, _parse_control_flow sequential_doc = Ok sc)
    by (eexists; vm_compute; reflexivity).
  destruct H as ([stages constraints] & H). exists stages, constraints.
  split; [exact H|].
  destruct (stage_order_is_encounter_order _ _ _ H) as (Horder & Hname & _).
  rewrite Horder, Hname. split; vm_compute; reflexivity.
Defined.

(** *** The graph linker: failure, repetition, resolution *)

Lemma last_containing_snoc stages stage ref :
  last_containing (stages ++ [stage]) ref
  = if Py.contains (ControlFlowStage.name stage) ref
    then Some (length stages) else last_containing stages ref.
Proof.
  unfold last_containing. rewrite imap_app, List.filter_app. simpl.
  destruct (Py.contains (ControlFlowStage.name stage) ref).
  - rewrite last_snoc. simpl. f_equal. lia.
  - rewrite app_nil_r. reflexivity.
Qed.

(** Property X1.  The dictionary of the linker maps a reference to the
    position of the last stage whose name occurs in it, provided the
    reference is the source or the target of some constraint; it holds no
    other key. *)
Theorem reference_resolves_to_last_containing_stage
  (stages : list ControlFlowStage.t) (constraints : list PrecedenceConstraint.t)
  (ref : string) :
  build_stage_by_ref stages constraints !! ref
  = if is_endpoint constraints ref then last_containing stages ref else None.
Proof.
  induction stages as [|stage stages IH] using rev_ind.
  - unfold build_stage_by_ref, last_containing. simpl. rewrite lookup_empty.
    destruct (is_endpoint constraints ref); reflexivity.
  - rewrite build_stage_by_ref_snoc, stage_by_ref_inner_lookup, IH, last_containing_snoc.
    destruct (is_endpoint constraints ref),
      (Py.contains (ControlFlowStage.name stage) ref); reflexivity.
Qed.

Section LinkerTotal.

Variable m : gmap string nat.

Lemma link_body_length stages c stages1 :
  link_body m stages c = Ok stages1 -> length stages1 = length stages.
Proof.
  intros H. apply (foldlM_link_length m [c]). simpl. rewrite H. reflexivity.
Qed.

(** One iteration returns, or fails on a guarded constraint whose source
    resolves and whose target does not. *)
Lemma link_body_returns_or_fails stages c :
  (forall r i, m !! r = Some i -> i < length stages) ->
  (exists stages1, link_body m stages c = Ok stages1)
  \/ (link_body m stages c = Raise AttributeError
      /\ guarded c = true
      /\ is_Some (m !! PrecedenceConstraint.from_ref c)
      /\ m !! PrecedenceConstraint.to_ref c = None).
Proof.
  intros Hrange. unfold link_body, link_successor, guarded.
  destruct (stage_of m stages (PrecedenceConstraint.from_ref c)) as [[i si]|] eqn:Ef;
    [|left; eexists; reflexivity].
  apply stage_of_Some in Ef as [Hi Hsi].
  destruct (bool_decide _); [|left; eexists; reflexivity].
  destruct (truthy_str (PrecedenceConstraint.expression c)); [|left; eexists; reflexivity].
  destruct (stage_of m _ (PrecedenceConstraint.to_ref c)) as [[j sj]|] eqn:Et;
    [left; eexists; reflexivity|].
  right. split; [reflexivity|]. split; [reflexivity|]. split; [eauto|].
  destruct (m !! PrecedenceConstraint.to_ref c) as [j|] eqn:Hj; [|reflexivity].
  exfalso. unfold stage_of in Et. rewrite Hj in Et. simpl in Et.
  pose proof (Hrange _ _ Hj) as Hlt.
  rewrite <- (length_alter (ControlFlowStage.append_precedence_to
                              (PrecedenceConstraint.to_ref c)) stages i) in Hlt.
  apply lookup_lt_is_Some_2 in Hlt. destruct Hlt as [s Hs].
  rewrite Hs in Et. discriminate.
Qed.

Lemma foldlM_link_returns_or_fails cs : forall stages,
  (forall r i, m !! r = Some i -> i < length stages) ->
  (exists stages', foldlM (link_body m) stages cs = Ok stages')
  \/ (foldlM (link_body m) stages cs = Raise AttributeError
      /\ exists c, c ∈ cs /\ guarded c = true
           /\ is_Some (m !! PrecedenceConstraint.from_ref c)
           /\ m !! PrecedenceConstraint.to_ref c = None).
Proof.
  induction cs as [|c cs IH]; intros stages Hrange; simpl.
  - left. eexists. reflexivity.
  - destruct (link_body_returns_or_fails stages c Hrange) as [[stages1 H1]|(H1 & Hg & Hf & Ht)].
    + rewrite H1. simpl.
      destruct (IH stages1) as [H|(H & c' & Hc' & Hrest)].
      * intros r i Hr. rewrite (link_body_length _ _ _ H1). eauto.
      * left. exact H.
      * right. split; [exact H|]. exists c'. split; [|exact Hrest].
        apply elem_of_cons. right. exact Hc'.
    + right. rewrite H1. split; [reflexivity|]. exists c.
      split; [apply elem_of_cons; left; reflexivity|]. auto.
Qed.

Lemma link_body_recorded stages c :
  recorded m stages c -> link_body m stages c = Ok stages.
Proof.
  intros [Hto Hfrom]. unfold link_body, link_successor, link_predecessor.
  destruct (stage_of m stages (PrecedenceConstraint.from_ref c)) as [[i si]|] eqn:Ef.
  - apply stage_of_Some in Ef as [Hi Hsi].
    rewrite bool_decide_eq_false_2 by (intros Hn; apply Hn; eauto). simpl.
    destruct (stage_of m stages (PrecedenceConstraint.to_ref c)) as [[j sj]|] eqn:Et;
      [|reflexivity].
    apply stage_of_Some in Et as [Hj Hsj].
    rewrite bool_decide_eq_false_2 by (intros Hn; apply Hn; eauto). reflexivity.
  - simpl.
    destruct (stage_of m stages (PrecedenceConstraint.to_ref c)) as [[j sj]|] eqn:Et;
      [|reflexivity].
    apply stage_of_Some in Et as [Hj Hsj].
    rewrite bool_decide_eq_false_2 by (intros Hn; apply Hn; eauto). reflexivity.
Qed.

Lemma foldlM_link_recorded cs stages :
  (forall c, c ∈ cs -> recorded m stages c) -> foldlM (link_body m) stages cs = Ok stages.
Proof.
  induction cs as [|c cs IH]; intros H; simpl; [reflexivity|].
  rewrite link_body_recorded by (apply H; apply elem_of_cons; left; reflexivity). simpl.
  apply IH. intros c' Hc'. apply H. apply elem_of_cons. right. exact Hc'.
Qed.

Lemma foldlM_link_records cs stages stages' :
  foldlM (link_body m) stages cs = Ok stages' ->
  forall c, c ∈ cs -> recorded m stages' c.
Proof.
  intros H c Hc.
  pose proof (foldlM_link_length m _ _ _ H) as Hlen.
  split.
  - intros i s' Hi Hs'.
    assert (Hlt : i < length stages) by (rewrite <- Hlen; eapply lookup_lt_Some; eauto).
    apply lookup_lt_is_Some_2 in Hlt. destruct Hlt as [s Hs].
    destruct (foldlM_link_lookup m _ _ _ _ _ H Hs) as (s1 & Hs1 & _ & Hto & _).
    rewrite Hs' in Hs1. injection Hs1 as <-.
    destruct (collect_spec (from_hits m i) PrecedenceConstraint.to_ref cs
                (ControlFlowStage.precedence_to s)) as (added & Hadd & _ & Hin).
    rewrite Hto, Hadd, elem_of_app.
    destruct (decide (PrecedenceConstraint.to_ref c ∈ ControlFlowStage.precedence_to s));
      [left; assumption|].
    right. apply Hin. split; [assumption|]. exists c. split; [exact Hc|].
    split; [|reflexivity]. unfold from_hits. apply bool_decide_eq_true. exact Hi.
  - intros j s' Hj Hs'.
    assert (Hlt : j < length stages) by (rewrite <- Hlen; eapply lookup_lt_Some; eauto).
    apply lookup_lt_is_Some_2 in Hlt. destruct Hlt as [s Hs].
    destruct (foldlM_link_lookup m _ _ _ _ _ H Hs) as (s1 & Hs1 & _ & _ & Hfrom).
    rewrite Hs' in Hs1. injection Hs1 as <-.
    destruct (collect_spec (to_hits m j) PrecedenceConstraint.from_ref cs
                (ControlFlowStage.precedence_from s)) as (added & Hadd & _ & Hin).
    rewrite Hfrom, Hadd, elem_of_app.
    destruct (decide (PrecedenceConstraint.from_ref c ∈ ControlFlowStage.precedence_from s));
      [left; assumption|].
    right. apply Hin. split; [assumption|]. exists c. split; [exact Hc|].
    split; [|reflexivity]. unfold to_hits. apply bool_decide_eq_true. exact Hj.
Qed.

End LinkerTotal.

(** The dictionary of the linker depends on the stages through their names
    only. *)
Lemma build_stage_by_ref_same_entities stages stages' cs :
  Forall2 same_entity stages stages' ->
  build_stage_by_ref stages' cs = build_stage_by_ref stages cs.
Proof.
  intros Hsame. apply map_eq. intros ref. apply option_eq. intros i.
  rewrite !resolves_by_name_containment.
  pose proof (Forall2_length _ _ _ Hsame) as Hlen.
  split; intros (He & (s & Hs & Hc) & Hlast); (split; [exact He|]); split.
  - destruct (Forall2_lookup_r _ _ _ _ _ Hsame Hs) as (s0 & Hs0 & _ & Hname & _).
    exists s0. split; [exact Hs0|]. rewrite <- Hname. exact Hc.
  - intros i' s0 Hlt Hs0.
    destruct (Forall2_lookup_l _ _ _ _ _ Hsame Hs0) as (s1 & Hs1 & _ & Hname & _).
    rewrite <- Hname. eauto.
  - destruct (Forall2_lookup_l _ _ _ _ _ Hsame Hs) as (s1 & Hs1 & _ & Hname & _).
    exists s1. split; [exact Hs1|]. rewrite Hname. exact Hc.
  - intros i' s1 Hlt Hs1.
    destruct (Forall2_lookup_r _ _ _ _ _ Hsame Hs1) as (s0 & Hs0 & _ & Hname & _).
    rewrite Hname. eauto.
Qed.

(** Property X2.  The linker returns, or it raises [AttributeError]; and it
    raises only if some guarded constraint has a source that resolves and a
    target that does not. *)
Theorem linker_returns_or_raises_attribute_error
  (stages : list ControlFlowStage.t) (constraints : list PrecedenceConstraint.t) :
  (exists stages', _link_stages_with_precedence stages constraints = Ok stages')
  \/ (_link_stages_with_precedence stages constraints = Raise AttributeError
      /\ exists c, c ∈ constraints
           /\ guarded c = true
           /\ resolved stages constraints (PrecedenceConstraint.from_ref c) = true
           /\ resolved stages constraints (PrecedenceConstraint.to_ref c) = false).
Proof.
  unfold _link_stages_with_precedence, resolved.
  destruct (foldlM_link_returns_or_fails (build_stage_by_ref stages constraints)
              constraints stages) as [H|(H & c & Hc & Hg & Hf & Ht)].
  - intros r i. apply resolves_in_range.
  - left. exact H.
  - right. split; [exact H|]. exists c. split; [exact Hc|]. split; [exact Hg|]. split.
    + apply bool_decide_eq_true. exact Hf.
    + apply bool_decide_eq_false. rewrite Ht. intros [x Hx]. discriminate.
Qed.

(** Property X3.  Linking again the stages that the linker returned, with
    the same constraints, changes nothing: no reference is recorded twice
    and no condition is assigned again. *)
Theorem linker_is_idempotent
  (stages : list ControlFlowStage.t) (constraints : list PrecedenceConstraint.t)
  (stages' : list ControlFlowStage.t)
  (Hlinked : _link_stages_with_precedence stages constraints = Ok stages') :
  _link_stages_with_precedence stages' constraints = Ok stages'.
Proof.
  pose proof (link_preserves_entities _ _ _ Hlinked) as Hsame.
  unfold _link_stages_with_precedence in *.
  rewrite (build_stage_by_ref_same_entities _ _ _ Hsame).
  apply foldlM_link_recorded.
  exact (foldlM_link_records _ _ _ _ Hlinked).
Qed.

(** The hypothesis of property X3 holds of the two stages and three constraints
    linked above. *)
Lemma linker_is_idempotent_witness :
  _link_stages_with_precedence linked_stages linked_constraints = Ok linked_result
  /\ _link_stages_with_precedence linked_result linked_constraints = Ok linked_result.
Proof.
  split; [vm_compute; reflexivity|].
  apply (linker_is_idempotent linked_stages linked_constraints linked_result).
  vm_compute. reflexivity.
Defined.

(** *** Strings: a separator of one character *)

Lemma str_app_cons (x : ascii) (a b : string) : String x a +:+ b = String x (a +:+ b).
Proof. reflexivity. Qed.

Lemma str_app_nil (b : string) : EmptyString +:+ b = b.
Proof. reflexivity. Qed.

Lemma str_app_assoc (a b c : string) : (a +:+ b) +:+ c = a +:+ (b +:+ c).
Proof.
  induction a as [|x a IH]; [reflexivity|]. rewrite !str_app_cons, IH. reflexivity.
Qed.

Lemma str_app_len (a b : string) : Py.len (a +:+ b) = Py.len a + Py.len b.
Proof.
  unfold Py.len. induction a as [|x a IH]; [reflexivity|].
  rewrite str_app_cons. simpl. rewrite IH. reflexivity.
Qed.

Lemma prefix_single (c d : ascii) (s : string) :
  String.prefix (String c EmptyString) (String d s) = Ascii.eqb c d.
Proof.
  simpl. destruct (ascii_dec c d) as [->|Hne].
  - rewrite Ascii.eqb_refl. destruct s; reflexivity.
  - symmetry. apply Ascii.eqb_neq. exact Hne.
Qed.

Lemma split_single_cons (c d : ascii) (s : string) :
  Py.split (String c EmptyString) (String d s)
  = if Ascii.eqb c d then EmptyString :: Py.split (String c EmptyString) s
    else match Py.split (String c EmptyString) s with
         | h :: t => String d h :: t
         | [] => [String d EmptyString]
         end.
Proof.
  unfold Py.split. cbn [Py.split_go]. rewrite prefix_single. reflexivity.
Qed.

Lemma split_single_nonempty (c : ascii) (s : string) :
  Py.split (String c EmptyString) s <> [].
Proof.
  destruct s as [|d s]; [discriminate|]. rewrite split_single_cons.
  destruct (Ascii.eqb c d); [discriminate|].
  destruct (Py.split (String c EmptyString) s); discriminate.
Qed.

Lemma join_cons_char (sep : string) (d : ascii) (h : string) (t : list string) :
  Py.join sep (String d h :: t) = String d (Py.join sep (h :: t)).
Proof. destruct t; reflexivity. Qed.

(** Splitting at a character and joining with it gives the string back. *)
Lemma join_split_single (c : ascii) (s : string) :
  Py.join (String c EmptyString) (Py.split (String c EmptyString) s) = s.
Proof.
  induction s as [|d s IH]; [reflexivity|]. rewrite split_single_cons.
  destruct (Ascii.eqb_spec c d) as [->|Hne].
  - pose proof (split_single_nonempty d s) as Hne.
    destruct (Py.split (String d EmptyString) s) as [|h t] eqn:E; [congruence|].
    change (Py.join (String d EmptyString) (EmptyString :: h :: t))
      with (String d (Py.join (String d EmptyString) (h :: t))).
    rewrite IH. reflexivity.
  - pose proof (split_single_nonempty c s) as Hn.
    destruct (Py.split (String c EmptyString) s) as [|h t] eqn:E; [congruence|].
    rewrite join_cons_char, IH. reflexivity.
Qed.

Lemma contains_single_cons (c d : ascii) (s : string) :
  Py.contains (String c EmptyString) (String d s)
  = Ascii.eqb c d || Py.contains (String c EmptyString) s.
Proof. cbn [Py.contains]. rewrite prefix_single. reflexivity. Qed.

Lemma contains_single_empty (c : ascii) :
  Py.contains (String c EmptyString) EmptyString = false.
Proof. reflexivity. Qed.

(** No part of a split holds the separator. *)
Lemma split_single_parts (c : ascii) (s : string) :
  Forall (fun part => Py.contains (String c EmptyString) part = false)
         (Py.split (String c EmptyString) s).
Proof.
  induction s as [|d s IH].
  - constructor; [reflexivity|constructor].
  - rewrite split_single_cons. destruct (Ascii.eqb c d) eqn:E.
    + constructor; [reflexivity|exact IH].
    + pose proof (split_single_nonempty c s) as Hn.
      destruct (Py.split (String c EmptyString) s) as [|h t]; [congruence|].
      inversion IH as [|? ? Hh Ht]; subst. constructor; [|exact Ht].
      rewrite contains_single_cons, E, Hh. reflexivity.
Qed.

(** A string without the separator is its only part. *)
Lemma split_single_absent (c : ascii) (s : string) :
  Py.contains (String c EmptyString) s = false -> Py.split (String c EmptyString) s = [s].
Proof.
  induction s as [|d s IH]; intros H; [reflexivity|].
  rewrite contains_single_cons in H. apply orb_false_iff in H as [Hd Hs].
  rewrite split_single_cons, Hd, (IH Hs). reflexivity.
Qed.

Lemma join_snoc (sep : string) (l : list string) (n : string) :
  l <> [] -> Py.join sep (l ++ [n]) = Py.join sep l +:+ sep +:+ n.
Proof.
  induction l as [|a l IH]; intros Hne; [congruence|].
  destruct l as [|b l].
  - reflexivity.
  - change (Py.join sep ((a :: b :: l) ++ [n]))
      with (a +:+ sep +:+ Py.join sep ((b :: l) ++ [n])).
    rewrite IH by discriminate.
    change (Py.join sep (a :: b :: l)) with (a +:+ sep +:+ Py.join sep (b :: l)).
    rewrite !str_app_assoc. reflexivity.
Qed.

(** The last part of a split: the string after the last separator. *)
Lemma last_part_split_single (c : ascii) (s : string) :
  let last := Py.last_part (Py.split (String c EmptyString) s) in
  Py.contains (String c EmptyString) last = false
  /\ ((Py.contains (String c EmptyString) s = false /\ last = s)
      \/ exists before, s = before +:+ String c EmptyString +:+ last).
Proof.
  intros last. subst last. unfold Py.last_part.
  pose proof (split_single_nonempty c s) as Hne.
  pose proof (split_single_parts c s) as Hparts.
  pose proof (join_split_single c s) as Hjoin.
  destruct (@exists_last _ (Py.split (String c EmptyString) s) Hne) as (init & n & E).
  rewrite E in *. rewrite List.last_last.
  apply Forall_app in Hparts as [_ Hn]. pose proof (Forall_inv Hn) as Hn'. simpl in Hn'.
  split; [exact Hn'|].
  destruct init as [|a init].
  - left. simpl in Hjoin. subst n. split; [exact Hn'|reflexivity].
  - right. rewrite join_snoc in Hjoin by discriminate.
    eexists. symmetry. exact Hjoin.
Qed.

(** Property X4.  The stage name taken from a reference is what follows its
    last backslash: it holds no backslash, and the reference is either that
    name (when it holds no backslash at all) or a prefix, a backslash and
    the name. *)
Theorem extract_stage_name_is_last_segment (ref_id : string) :
  Py.contains backslash (_extract_stage_name ref_id) = false
  /\ ((Py.contains backslash ref_id = false /\ _extract_stage_name ref_id = ref_id)
      \/ exists before, ref_id = before +:+ backslash +:+ _extract_stage_name ref_id).
Proof. exact (last_part_split_single _ ref_id). Qed.

(** *** The sanitizer *)

Lemma replace_single_absent (c : ascii) (new s : string) :
  Py.contains (String c EmptyString) s = false ->
  Py.replace (String c EmptyString) new s = s.
Proof.
  unfold Py.replace. induction s as [|d s IH]; intros H; [reflexivity|].
  rewrite contains_single_cons in H. apply orb_false_iff in H as [Hd Hs].
  cbn [Py.replace_go]. rewrite prefix_single, Hd, (IH Hs). reflexivity.
Qed.

Lemma replace_single_len (c e : ascii) (s : string) :
  Py.len (Py.replace (String c EmptyString) (String e EmptyString) s) = Py.len s.
Proof.
  unfold Py.replace, Py.len. induction s as [|d s IH]; [reflexivity|].
  cbn [Py.replace_go]. rewrite prefix_single.
  destruct (Ascii.eqb c d); rewrite ?str_app_cons, ?str_app_nil; simpl; rewrite IH;
    reflexivity.
Qed.

Lemma filter_len (p : ascii -> bool) (s : string) : Py.len (Py.filter p s) <= Py.len s.
Proof.
  unfold Py.len. induction s as [|d s IH]; simpl; [lia|].
  destruct (p d); simpl; lia.
Qed.

Lemma filter_fixed (p : ascii -> bool) (s : string) :
  Py.filter p s = s <-> Py.forallb p s = true.
Proof.
  split.
  - intros H. rewrite <- H. apply forallb_filter_weaken. auto.
  - induction s as [|d s IH]; simpl; [reflexivity|].
    intros H. apply andb_true_iff in H as [Hd Hs]. rewrite Hd, (IH Hs). reflexivity.
Qed.

Lemma forallb_excludes (p : ascii -> bool) (c : ascii) (s : string) :
  p c = false -> Py.forallb p s = true -> Py.contains (String c EmptyString) s = false.
Proof.
  intros Hc. induction s as [|d s IH]; intros H; [reflexivity|].
  simpl in H. apply andb_true_iff in H as [Hd Hs].
  rewrite contains_single_cons, (IH Hs), orb_false_r.
  apply Ascii.eqb_neq. intros ->. congruence.
Qed.

Lemma sanitize_id_clean (name : string) :
  Py.forallb (fun c => Py.isalnum c || Ascii.eqb c "_") name = true ->
  _sanitize_id name = name.
Proof.
  intros H. unfold _sanitize_id.
  rewrite (replace_single_absent " " "_" name)
    by (exact (forallb_excludes _ " "%char name eq_refl H)).
  rewrite (replace_single_absent "-" "_" name)
    by (exact (forallb_excludes _ "-"%char name eq_refl H)).
  rewrite (replace_single_absent "." "_" name)
    by (exact (forallb_excludes _ "."%char name eq_refl H)).
  apply filter_fixed. exact H.
Qed.

(** Property X5.  The sanitizer leaves a name unchanged exactly when the
    name consists of alphanumeric characters and underscores; applying it
    twice is the same as applying it once; and its result is never longer
    than its argument. *)
Theorem sanitize_id_fixed_points (name : string) :
  (_sanitize_id name = name
   <-> Py.forallb (fun c => Py.isalnum c || Ascii.eqb c "_") name = true)
  /\ _sanitize_id (_sanitize_id name) = _sanitize_id name
  /\ Py.len (_sanitize_id name) <= Py.len name.
Proof.
  assert (Hout : forall x,
    Py.forallb (fun c => Py.isalnum c || Ascii.eqb c "_") (_sanitize_id x) = true).
  { intros x. unfold _sanitize_id. apply forallb_filter_weaken. auto. }
  split; [split|split].
  - intros H. rewrite <- H. apply Hout.
  - apply sanitize_id_clean.
  - apply sanitize_id_clean. apply Hout.
  - unfold _sanitize_id. etransitivity; [apply filter_len|].
    rewrite !replace_single_len. reflexivity.
Qed.

(** *** The generator: what the diagrams are made of *)

Lemma generate_all_diagrams_loop_spec dfts : forall self,
  generate_all_diagrams_loop dfts self
  = ((fun dft => (generate_data_flow_diagram dft self).1) <$> dfts, self).
Proof.
  induction dfts as [|dft dfts IH]; intros self; simpl; [reflexivity|].
  rewrite IH. reflexivity.
Qed.

(** Property X6.  [generate_all_diagrams] returns the control-flow diagram
    followed by the diagram of each data-flow task of the package, in the
    order of the tasks: one diagram more than there are tasks, named
    [Control Flow] and then after the tasks. *)
Theorem generate_all_diagrams_composes (self : DiagramGenerator.t) :
  let tasks := DtsxPackage.data_flow_tasks (DiagramGenerator.package self) in
  (generate_all_diagrams self).1
  = (generate_control_flow_diagram self).1
    :: ((fun dft => (generate_data_flow_diagram dft self).1) <$> tasks)
  /\ DataFlowDiagram.name <$> (generate_all_diagrams self).1
     = "Control Flow" :: (DataFlowTask.name <$> tasks)
  /\ length (generate_all_diagrams self).1 = S (length tasks).
Proof.
  intros tasks.
  assert (H : (generate_all_diagrams self).1
              = (generate_control_flow_diagram self).1
                :: ((fun dft => (generate_data_flow_diagram dft self).1) <$> tasks)).
  { unfold generate_all_diagrams. simpl. rewrite generate_all_diagrams_loop_spec.
    reflexivity. }
  split; [exact H|]. rewrite H. split.
  - rewrite fmap_cons, <- list_fmap_compose. reflexivity.
  - simpl. rewrite length_fmap. reflexivity.
Qed.

Lemma extract_component_name_known ref_id components name :
  _extract_component_name ref_id components = Some name ->
  name ∈ DataFlowComponent.name <$> components.
Proof.
  unfold _extract_component_name.
  destruct (List.find (fun comp => Py.contains (DataFlowComponent.ref_id comp) ref_id
                                   || Py.contains (DataFlowComponent.name comp) ref_id)
              components) as [comp|] eqn:E.
  - intros [= <-]. apply find_some in E as [Hin _].
    apply list_elem_of_fmap. exists comp. split; [reflexivity|].
    apply list_elem_of_In. exact Hin.
  - destruct (1 <? length (Py.split backslash ref_id))%nat; [|discriminate].
    match goal with
    | |- context [DataFlowComponent.name <$> ?found] =>
        destruct found as [comp|] eqn:E2; simpl; [|discriminate]
    end.
    intros [= <-]. apply find_some in E2 as [Hin _].
    apply list_elem_of_fmap. exists comp. split; [reflexivity|].
    apply list_elem_of_In. exact Hin.
Qed.

Lemma extract_component_name_nil ref_id : _extract_component_name ref_id [] = None.
Proof.
  unfold _extract_component_name. simpl.
  destruct (1 <? length (Py.split backslash ref_id))%nat; reflexivity.
Qed.

Lemma bind_length_le {A B} (f : A -> list B) (l : list A) :
  (forall x, length (f x) <= 1) -> length (l ≫= f) <= length l.
Proof.
  intros H. induction l as [|x l IH]; [reflexivity|].
  rewrite bind_cons, length_app. simpl. specialize (H x). lia.
Qed.

(** Property X7.  In the diagram of a data-flow task every edge joins two
    components of the task by their names, neither of them empty, and is
    labelled with the name of a path of the task; a path one of whose ends
    resolves to no component yields no edge, so there are at most as many
    edges as paths. *)
Theorem data_flow_diagram_edges_join_components
  (self : DiagramGenerator.t) (dft : DataFlowTask.t) :
  let diagram := (generate_data_flow_diagram dft self).1 in
  DataFlowDiagram.components diagram = DataFlowComponent.name <$> DataFlowTask.components dft
  /\ (forall source dest label,
        (source, dest, label) ∈ DataFlowDiagram.paths diagram ->
        source ∈ DataFlowDiagram.components diagram
        /\ dest ∈ DataFlowDiagram.components diagram
        /\ source <> EmptyString /\ dest <> EmptyString
        /\ exists path, path ∈ DataFlowTask.paths dft
             /\ label = DataFlowPath.name path
             /\ _extract_component_name (DataFlowPath.source_ref_id path)
                  (DataFlowTask.components dft) = Some source
             /\ _extract_component_name (DataFlowPath.destination_ref_id path)
                  (DataFlowTask.components dft) = Some dest)
  /\ length (DataFlowDiagram.paths diagram) <= length (DataFlowTask.paths dft).
Proof.
  intros diagram. subst diagram. simpl. split; [reflexivity|]. split.
  - intros source dest label Hin.
    apply list_elem_of_bind in Hin as (path & Hin & Hpath).
    destruct (_extract_component_name (DataFlowPath.source_ref_id path) _)
      as [s|] eqn:Es; [|inversion Hin].
    destruct (_extract_component_name (DataFlowPath.destination_ref_id path) _)
      as [d|] eqn:Ed; [|rewrite andb_false_r in Hin; inversion Hin].
    simpl in Hin.
    destruct (String.eqb_spec s EmptyString) as [Hs|Hs]; [inversion Hin|].
    destruct (String.eqb_spec d EmptyString) as [Hd|Hd]; [inversion Hin|].
    simpl in Hin. apply list_elem_of_singleton in Hin. injection Hin as -> -> ->.
    split; [exact (extract_component_name_known _ _ _ Es)|].
    split; [exact (extract_component_name_known _ _ _ Ed)|].
    split; [exact Hs|]. split; [exact Hd|].
    exists path. auto.
  - apply bind_length_le. intros path.
    destruct (truthy_str _ && truthy_str _); simpl; lia.
Qed.

Lemma get_component_types_snoc name ref_id dtsid description components paths comp :
  _get_component_types
    (DataFlowTask.mk name ref_id dtsid description (components ++ [comp]) paths)
  = <[DataFlowComponent.name comp := DataFlowComponent.component_type comp]>
      (_get_component_types
         (DataFlowTask.mk name ref_id dtsid description components paths)).
Proof. unfold _get_component_types. simpl. rewrite foldl_app. reflexivity. Qed.

Lemma last_named_snoc name components comp :
  last_named name (components ++ [comp])
  = if String.eqb (DataFlowComponent.name comp) name then Some comp
    else last_named name components.
Proof.
  unfold last_named. rewrite List.filter_app. simpl.
  destruct (String.eqb (DataFlowComponent.name comp) name).
  - apply last_snoc.
  - rewrite app_nil_r. reflexivity.
Qed.

(** Property X8.  The table of component types that styles the flowchart of
    a data-flow task maps a name to the type of the last component of the
    task that bears it, and holds nothing for a name that no component
    bears; so every component of the task has an entry. *)
Theorem get_component_types_of_last_named (dft : DataFlowTask.t) :
  (forall name,
     _get_component_types dft !! name
     = DataFlowComponent.component_type
         <$> last_named name (DataFlowTask.components dft))
  /\ (forall comp, comp ∈ DataFlowTask.components dft ->
        is_Some (_get_component_types dft !! DataFlowComponent.name comp)).
Proof.
  assert (Hlookup : forall name,
            _get_component_types dft !! name
            = DataFlowComponent.component_type
                <$> last_named name (DataFlowTask.components dft)).
  { intros name. destruct dft as [n r d desc components paths]. simpl.
    induction components as [|comp components IH] using rev_ind; [reflexivity|].
    rewrite get_component_types_snoc, last_named_snoc.
    destruct (String.eqb_spec (DataFlowComponent.name comp) name) as [->|Hne].
    - rewrite lookup_insert_eq. reflexivity.
    - rewrite lookup_insert_ne by exact Hne. exact IH. }
  split; [exact Hlookup|].
  intros comp Hin. rewrite Hlookup. apply fmap_is_Some. unfold last_named.
  apply last_is_Some. intros Hnil.
  assert (Hf : In comp (List.filter
                          (fun c => String.eqb (DataFlowComponent.name c)
                                      (DataFlowComponent.name comp))
                          (DataFlowTask.components dft))).
  { apply List.filter_In. split; [apply list_elem_of_In; exact Hin|apply String.eqb_refl]. }
  rewrite Hnil in Hf. exact Hf.
Qed.

(** *** The execution order of a parsed package *)

Lemma parse_root_control_flow re_search re_findall package0 root package :
  parse_root re_search re_findall package0 root = Ok package ->
  _parse_control_flow root
  = Ok (DtsxPackage.control_flow_stages package,
        DtsxPackage.raw_precedence_constraints package).
Proof.
  unfold parse_root. intros H.
  repeat inv_bind H. destruct a1 as [stages constraints]. repeat inv_bind H.
  injection H as <-. simpl. exact Ha1.
Qed.

Lemma parsed_stage_order root stages constraints i stage :
  _parse_control_flow root = Ok (stages, constraints) ->
  stages !! i = Some stage ->
  ControlFlowStage.order stage = Z.of_nat (S i).
Proof.
  unfold _parse_control_flow. intros H Hi.
  inv_bind H. inv_bind H. injection H as <- <-.
  pose proof (link_preserves_entities _ _ _ Ha0) as Hsame.
  destruct (Forall2_lookup_r _ _ _ _ _ Hsame Hi) as (s0 & Hs0 & Horder & _).
  rewrite Horder. rewrite parse_control_flow_stages_spec in Hs0.
  rewrite list_lookup_imap in Hs0.
  destruct (stage_elements root !! i) as [e|]; [|discriminate].
  simpl in Hs0. injection Hs0 as <-. reflexivity.
Qed.

Lemma concat_imap_bind {A B} (g : A -> list B) (l : list A) : forall f : nat -> A -> list B,
  (forall i x, l !! i = Some x -> f i x = g x) ->
  concat (imap f l) = l ≫= g.
Proof.
  induction l as [|x l IH]; intros f H; [reflexivity|].
  rewrite imap_cons, bind_cons. simpl. rewrite (H 0 x eq_refl). f_equal.
  apply IH. intros i y Hy. apply (H (S i) y Hy).
Qed.

(** Property X9.  For a package that the parser returned, the
    execution-order listing numbers every stage with the value of its
    [order] field: the step counter of the generator and the stage counter
    of the parser agree. *)
Theorem execution_order_numbers_are_stage_orders
  (re_search : string -> string -> option string)
  (re_findall : string -> string -> list string)
  (package0 : option DtsxPackage.t) (root : Element) (package : DtsxPackage.t)
  (Hparsed : parse_root re_search re_findall package0 root = Ok package) :
  (generate_execution_order_diagram (DiagramGenerator.mk package)).1
  = Py.join nl
      ([ Py.repeat "=" 60; " EXECUTION ORDER"; Py.repeat "=" 60; EmptyString ]
       ++ (stage ← DtsxPackage.control_flow_stages package;
           execution_order_step (Z.to_nat (ControlFlowStage.order stage)) stage)).
Proof.
  apply parse_root_control_flow in Hparsed.
  unfold generate_execution_order_diagram, execution_order_of.
  cbn [fst DiagramGenerator.package]. do 2 f_equal.
  apply concat_imap_bind. intros i stage Hi.
  rewrite (parsed_stage_order _ _ _ _ _ Hparsed Hi). f_equal. lia.
Qed.

(** The hypothesis of property X9 holds of the document with three stages in
    sequence. *)
Lemma execution_order_numbers_are_stage_orders_witness :
  exists package,
    parse_root no_search no_findall None sequential_doc = Ok package
    /\ (generate_execution_order_diagram (DiagramGenerator.mk package)).1
       = Py.join nl
           ([ Py.repeat "=" 60; " EXECUTION ORDER"; Py.repeat "=" 60; EmptyString ]
            ++ (stage ← DtsxPackage.control_flow_stages package;
                execution_order_step (Z.to_nat (ControlFlowStage.order stage)) stage)).
Proof.
  assert (H : exists package, parse_root no_search no_findall None sequential_doc = Ok package)
    by (eexists; vm_compute; reflexivity).
  destruct H as (package & H). exists package. split; [exact H|].
  exact (execution_order_numbers_are_stage_orders no_search no_findall None sequential_doc
           package H).
Defined.

(** *** The database objects *)

Lemma foldl_invariant {A B} (P : B -> Prop) (f : B -> A -> B) (l : list A) : forall b,
  (forall b a, P b -> P (f b a)) -> P b -> P (foldl f b l).
Proof.
  induction l as [|a l IH]; intros b Hstep Hb; simpl; [exact Hb|].
  apply IH; [exact Hstep|]. apply Hstep. exact Hb.
Qed.

Lemma add_object_seen key_prefix object_type usage found raw :
  key_prefix = (if String.eqb object_type "StoredProcedure" then "proc:"
                else if String.eqb object_type "Function" then "func:"
                else EmptyString) ->
  seen_objects found -> seen_objects (add_object key_prefix object_type usage found raw).
Proof.
  intros Hprefix [Hnd Hseen]. unfold add_object.
  destruct found as [seen objects]. destruct (schema_and_name raw) as [schema name].
  simpl in *. split_decide; [split; assumption|].
  unfold seen_objects. simpl. rewrite fmap_app. simpl.
  assert (Hkey : object_key
            {| DatabaseObject.name := name; DatabaseObject.object_type := object_type;
               DatabaseObject.schema := schema; DatabaseObject.database := None;
               DatabaseObject.connection := None; DatabaseObject.usage := usage |}
          = key_prefix +:+ schema +:+ "." +:+ name).
  { unfold object_key. simpl. rewrite Hprefix. reflexivity. }
  rewrite Hkey. split.
  - apply NoDup_app. split; [exact Hnd|]. split; [|apply NoDup_singleton].
    intros key Hin Hnew. apply list_elem_of_singleton in Hnew as ->.
    apply Hseen in Hin. contradiction.
  - intros key. rewrite elem_of_union, elem_of_singleton, elem_of_app, list_elem_of_singleton,
      Hseen. tauto.
Qed.

Lemma extract_database_objects_component_seen st comp :
  seen_objects st.2 -> seen_objects (_extract_database_objects_component st comp).2.
Proof.
  destruct st as [sql_statements found]. simpl. intros H.
  destruct (truthy_str (DataFlowComponent.table_name comp)); [|exact H].
  apply add_object_seen; [reflexivity|exact H].
Qed.

Lemma extract_database_objects_statement_seen re_findall found stmt :
  seen_objects found -> seen_objects (_extract_database_objects_statement re_findall found stmt).
Proof.
  intros H. unfold _extract_database_objects_statement.
  destruct stmt as [[sql source_name] usage].
  destruct (String.eqb sql EmptyString); [exact H|].
  repeat (apply foldl_invariant;
          [intros; apply foldl_invariant;
             [intros; apply add_object_seen; [reflexivity|assumption]|assumption]|]).
  exact H.
Qed.

(** Property X10.  Whatever the regular expressions match, no database
    object is listed twice: the keys of the listed objects, made of the kind
    of the object, its schema and its name, are pairwise different. *)
Theorem database_objects_are_listed_once
  (re_findall : string -> string -> list string) (package : option DtsxPackage.t) :
  NoDup (object_key <$> _extract_database_objects re_findall package).
Proof.
  unfold _extract_database_objects.
  match goal with
  | |- context [foldl _extract_database_objects_component ?st0 ?comps] =>
      pose proof (foldl_invariant (fun st => seen_objects st.2)
                    _extract_database_objects_component comps st0) as Hcomp;
      destruct (foldl _extract_database_objects_component st0 comps)
        as [sql_statements found]
  end.
  simpl in Hcomp.
  assert (Hfound : seen_objects found).
  { apply Hcomp.
    - intros st comp. apply extract_database_objects_component_seen.
    - split; [constructor|]. intros key. simpl. rewrite elem_of_empty.
      split; [contradiction|]. intros Hin. inversion Hin. }
  apply (foldl_invariant seen_objects (_extract_database_objects_statement re_findall)
           sql_statements found).
  - intros b a. apply extract_database_objects_statement_seen.
  - exact Hfound.
Qed.

(** *** The exceptions of [parse] *)

Lemma bind_Raise {A B} (m : outcome A) (f : A -> outcome B) (e : exn) :
  m ≫= f = Raise e -> m = Raise e \/ exists a, m = Ok a /\ f a = Raise e.
Proof. destruct m as [a|e']; simpl; [eauto|intros [= ->]; auto]. Qed.

Lemma fmap_Raise {A B} (m : outcome A) (f : A -> B) (e : exn) :
  f <$> m = Raise e -> m = Raise e.
Proof. destruct m; simpl; [discriminate|intros [= ->]; reflexivity]. Qed.

Lemma mapM_Raise {A B} (f : A -> outcome B) (l : list A) (e : exn) :
  mapM f l = Raise e -> exists x, x ∈ l /\ f x = Raise e.
Proof.
  induction l as [|x l IH]; simpl; [discriminate|]. intros H.
  apply bind_Raise in H as [H|(y & _ & H)].
  - exists x. split; [apply elem_of_cons; left; reflexivity|exact H].
  - apply bind_Raise in H as [H|(k & _ & H)]; [|discriminate].
    destruct (IH H) as (x' & Hx' & Hf). exists x'.
    split; [apply elem_of_cons; right; exact Hx'|exact Hf].
Qed.

Lemma foldlM_Raise {A B} (f : B -> A -> outcome B) (l : list A) (e : exn) : forall b,
  foldlM f b l = Raise e -> exists b' x, x ∈ l /\ f b' x = Raise e.
Proof.
  induction l as [|x l IH]; intros b; simpl; [discriminate|]. intros H.
  apply bind_Raise in H as [H|(b1 & _ & H)].
  - exists b, x. split; [apply elem_of_cons; left; reflexivity|exact H].
  - destruct (IH _ H) as (b' & x' & Hx' & Hf). exists b', x'.
    split; [apply elem_of_cons; right; exact Hx'|exact Hf].
Qed.

Lemma py_int_str_raises s e : py_int (PStr s) = Raise e -> e = ValueError.
Proof. simpl. destruct (Py.int_of_string s); [discriminate|intros [= <-]; reflexivity]. Qed.

Lemma py_int_get_attr_raises elem attr dflt e :
  py_int (_get_attr elem attr (PInt dflt)) = Raise e -> e = ValueError.
Proof.
  rewrite get_attr_default. destruct (get_attr_opt elem attr); [apply py_int_str_raises|].
  discriminate.
Qed.

Lemma optional_int_raises elem key e : optional_int elem key = Raise e -> e = ValueError.
Proof.
  rewrite optional_int_spec. unfold optional_numeric_field.
  destruct (get elem key) as [s|]; [|discriminate].
  destruct (String.eqb s EmptyString); [discriminate|].
  destruct (Py.int_of_string s); [discriminate|intros [= <-]; reflexivity].
Qed.

Lemma parse_variables_raises root e : _parse_variables root = Raise e -> e = ValueError.
Proof.
  unfold _parse_variables. intros H. apply mapM_Raise in H as (var & _ & H).
  unfold _parse_variables_body in H.
  apply bind_Raise in H as [H|([data_type value] & _ & H)]; [|discriminate].
  destruct (List.find _ (children var)) as [child|]; [|discriminate].
  apply bind_Raise in H as [H|(data_type & _ & H)]; [|discriminate].
  exact (py_int_get_attr_raises _ _ _ _ H).
Qed.

Lemma parse_parameters_raises root e : _parse_parameters root = Raise e -> e = ValueError.
Proof.
  unfold _parse_parameters. intros H. apply mapM_Raise in H as (param & _ & H).
  unfold _parse_parameters_body in H.
  apply bind_Raise in H as [H|(data_type & _ & H)]; [|discriminate].
  exact (py_int_get_attr_raises _ _ _ _ H).
Qed.

Lemma parse_precedence_constraint_raises elem e :
  _parse_precedence_constraint elem = Raise e -> e = ValueError.
Proof.
  unfold _parse_precedence_constraint. intros H.
  apply bind_Raise in H as [H|(value & _ & H)];
    [exact (py_int_get_attr_raises _ _ _ _ H)|].
  apply bind_Raise in H as [H|(eval_op & _ & H)]; [|discriminate].
  destruct (truthy (_get_attr elem "EvalOp" PNone)); [|discriminate].
  apply fmap_Raise in H. exact (py_int_get_attr_raises _ _ _ _ H).
Qed.

Lemma parse_control_flow_raises root e :
  _parse_control_flow root = Raise e -> e = ValueError \/ e = AttributeError.
Proof.
  unfold _parse_control_flow. intros H.
  apply bind_Raise in H as [H|(all_constraints & _ & H)].
  - left. apply mapM_Raise in H as (elem & _ & H).
    exact (parse_precedence_constraint_raises _ _ H).
  - right. apply bind_Raise in H as [H|(stages & _ & H)]; [|discriminate].
    unfold _link_stages_with_precedence in H.
    match type of H with
    | foldlM (link_body ?m) ?stages ?cs = _ =>
        destruct (foldlM_link_returns_or_fails m cs stages) as [[stages' H']|[H' _]]
    end.
    + intros r i. apply resolves_in_range.
    + congruence.
    + congruence.
Qed.

Lemma output_props_body_raises st p e : output_props_body st p = Raise e -> e = ValueError.
Proof.
  unfold output_props_body. intros H.
  repeat match type of H with
         | (if ?b then _ else _) = _ => destruct b
         end; try discriminate.
  apply bind_Raise in H as [H|(eval_order & _ & H)]; [|discriminate].
  destruct (text p) as [s|]; simpl in H; [|discriminate].
  destruct (negb (String.eqb s EmptyString)); [|discriminate].
  apply fmap_Raise in H. exact (py_int_str_raises _ _ H).
Qed.

Lemma conditional_output_of_raises output_name out_props e :
  conditional_output_of output_name out_props = Raise e -> e = ValueError.
Proof.
  unfold conditional_output_of. intros H.
  apply bind_Raise in H as [H|(st & _ & H)].
  - apply foldlM_Raise in H as (st & p & _ & H). exact (output_props_body_raises _ _ _ H).
  - destruct (truthy_str (op_expr st) || truthy (op_is_default st)); discriminate.
Qed.

Lemma output_body_raises output e : output_body output = Raise e -> e = ValueError.
Proof.
  unfold output_body. intros H.
  apply bind_Raise in H as [H|(conds & _ & H)].
  - apply mapM_Raise in H as (out_props & _ & H).
    exact (conditional_output_of_raises _ _ _ H).
  - apply bind_Raise in H as [H|(cols & _ & H)]; [|discriminate].
    apply mapM_Raise in H as (col & _ & H). unfold output_column_of in H.
    apply bind_Raise in H as [H|(length & _ & H)]; [|discriminate].
    exact (optional_int_raises _ _ _ H).
Qed.

Lemma parse_data_flow_component_raises elem e :
  _parse_data_flow_component elem = Raise e -> e = ValueError.
Proof.
  unfold _parse_data_flow_component. intros H.
  destruct (foldl _ (∅, None, None) _) as [[props sql_command] table_name].
  apply bind_Raise in H as [H|(outputs & _ & H)].
  - apply mapM_Raise in H as (output & _ & H). exact (output_body_raises _ _ H).
  - apply bind_Raise in H as [H|(input_columns & _ & H)]; [|discriminate].
    apply mapM_Raise in H as (col & _ & H). unfold input_column_of in H.
    apply bind_Raise in H as [H|(length & _ & H)]; [|discriminate].
    exact (optional_int_raises _ _ _ H).
Qed.

Lemma parse_data_flow_tasks_raises root e :
  _parse_data_flow_tasks root = Raise e -> e = ValueError.
Proof.
  unfold _parse_data_flow_tasks. intros H. apply mapM_Raise in H as (elem & _ & H).
  unfold _parse_data_flow_task in H.
  apply bind_Raise in H as [H|([components paths] & _ & H)]; [|discriminate].
  apply foldlM_Raise in H as ([components paths] & comp_container & _ & H).
  unfold _parse_data_flow_task_body in H.
  destruct (String.eqb (tag comp_container) "components").
  - apply bind_Raise in H as [H|(parsed & _ & H)]; [|discriminate].
    apply mapM_Raise in H as (comp & _ & H).
    exact (parse_data_flow_component_raises _ _ H).
  - destruct (String.eqb (tag comp_container) "paths"); discriminate.
Qed.

Lemma parse_error_handling_raises root e :
  _parse_error_handling root = Raise e -> e = ValueError.
Proof.
  unfold _parse_error_handling. intros H.
  apply bind_Raise in H as [H|(event_handlers & _ & H)].
  - apply mapM_Raise in H as (elem & _ & H). unfold _parse_event_handler in H.
    apply bind_Raise in H as [H|([executables constraints] & _ & H)]; [|discriminate].
    apply foldlM_Raise in H as ([executables constraints] & child & _ & H).
    unfold _parse_event_handler_body in H.
    destruct (Py.contains "Executables" (tag child)); [discriminate|].
    destruct (Py.contains "PrecedenceConstraints" (tag child)); [|discriminate].
    apply bind_Raise in H as [H|(parsed & _ & H)]; [|discriminate].
    apply mapM_Raise in H as (pc & _ & H).
    exact (parse_precedence_constraint_raises _ _ H).
  - destruct (foldl logging_body _ _). discriminate.
Qed.

Lemma parse_root_raises re_search re_findall package root e :
  parse_root re_search re_findall package root = Raise e ->
  e = ValueError \/ e = AttributeError.
Proof.
  unfold parse_root. intros H.
  apply bind_Raise in H as [H|(variables & _ & H)];
    [left; exact (parse_variables_raises _ _ H)|].
  apply bind_Raise in H as [H|(parameters & _ & H)];
    [left; exact (parse_parameters_raises _ _ H)|].
  apply bind_Raise in H as [H|([stages constraints] & _ & H)];
    [exact (parse_control_flow_raises _ _ H)|].
  apply bind_Raise in H as [H|(data_flow_tasks & _ & H)];
    [left; exact (parse_data_flow_tasks_raises _ _ H)|].
  apply bind_Raise in H as [H|(error_handling & _ & H)];
    [left; exact (parse_error_handling_raises _ _ H)|].
  discriminate.
Qed.

(** Property X11.  When [parse] raises, either reading the file raised that
    exception, or the file was read and the exception is [ValueError] (a
    numeric attribute that is no number) or [AttributeError] (the linker, on
    a guarded constraint), never [TypeError].  The package that the parser
    object held before the call is still there. *)
Theorem parse_raises_only_reader_value_or_attribute_error
  (ET_parse : string -> outcome Element)
  (re_search : string -> string -> option string)
  (re_findall : string -> string -> list string)
  (self : DtsxParser.t) (e : exn)
  (Hraised : (parse ET_parse re_search re_findall self).1 = Raise e) :
  (ET_parse (DtsxParser.file_path self) = Raise e
   \/ (returns (ET_parse (DtsxParser.file_path self)) = true
       /\ (e = ValueError \/ e = AttributeError)))
  /\ DtsxParser.package (parse ET_parse re_search re_findall self).2
     = DtsxParser.package self.
Proof.
  unfold parse in *.
  destruct (ET_parse (DtsxParser.file_path self)) as [root|e0].
  - simpl in *.
    destruct (parse_root re_search re_findall (DtsxParser.package self) root)
      as [package|e1] eqn:Hroot; [discriminate|].
    simpl in *. injection Hraised as ->. split; [|reflexivity].
    right. split; [reflexivity|]. exact (parse_root_raises _ _ _ _ _ Hroot).
  - simpl in *. injection Hraised as ->. split; [left|]; reflexivity.
Qed.

(** The hypothesis of property X11 holds of the document with a variable whose
    type code is no number. *)
Lemma parse_raises_only_reader_value_or_attribute_error_witness :
  (parse (fun _ => Ok malformed_variable_doc) no_search no_findall
     (__init__ "package.dtsx")).1 = Raise ValueError
  /\ DtsxParser.package
       (parse (fun _ => Ok malformed_variable_doc) no_search no_findall
          (__init__ "package.dtsx")).2 = None.
Proof.
  split; [vm_compute; reflexivity|].
  apply (parse_raises_only_reader_value_or_attribute_error
           (fun _ => Ok malformed_variable_doc) no_search no_findall
           (__init__ "package.dtsx") ValueError).
  vm_compute. reflexivity.
Defined.

(** *** A pipeline inside an [ObjectData] element *)

Lemma iter_unfold (e : Element) : iter e = e :: (children e ≫= iter).
Proof.
  destruct e as [t a x cs]. cbn [iter children]. f_equal.
Qed.

Lemma where_cons {A} (test : A -> bool) (x : A) (l : list A) :
  where_ test (x :: l) = if test x then x :: where_ test l else where_ test l.
Proof. reflexivity. Qed.

Lemma bind_nil {A B} (f : A -> list B) : [] ≫= f = [].
Proof. reflexivity. Qed.

(** The loop body of [_parse_data_flow_task] appends to what it is given. *)
Lemma parse_data_flow_task_body_shift containers : forall components0 paths0 components paths,
  foldlM _parse_data_flow_task_body ([], []) containers = Ok (components, paths) ->
  foldlM _parse_data_flow_task_body (components0, paths0) containers
  = Ok (components0 ++ components, paths0 ++ paths).
Proof.
  induction containers as [|c containers IH] using rev_ind;
    intros components0 paths0 components paths H.
  - simpl in *. injection H as <- <-. rewrite !app_nil_r. reflexivity.
  - apply foldlM_app in H as ([cs1 ps1] & H1 & H2).
    apply foldlM_app. exists (components0 ++ cs1, paths0 ++ ps1).
    split; [apply IH; exact H1|].
    simpl in *. unfold _parse_data_flow_task_body in *.
    destruct (String.eqb (tag c) "components").
    + destruct (mapM _parse_data_flow_component _) as [parsed|e]; simpl in *; [|discriminate].
      injection H2 as <- <-. rewrite app_assoc. reflexivity.
    + destruct (String.eqb (tag c) "paths"); simpl in *; injection H2 as <- <-.
      * rewrite app_assoc. reflexivity.
      * reflexivity.
Qed.

(** Property X12.  When the pipeline of a data-flow task is the child of an
    [ObjectData] element of the task, as the designer writes it, and holds
    no further pipeline or [ObjectData] element, the parser reads it twice
    (once on reaching the [ObjectData] element and once on reaching the
    pipeline itself), so that the task holds every component and every path
    of the pipeline two times. *)
Theorem pipeline_in_object_data_is_read_twice
  (elem_tag : string) (elem_attrib : list (string * string)) (elem_text : option string)
  (data_tag : string) (data_attrib : list (string * string)) (data_text : option string)
  (pipeline : Element)
  (components : list DataFlowComponent.t) (paths : list DataFlowPath.t)
  (Hpipeline : tag pipeline = "pipeline")
  (Hdata : Py.contains "ObjectData" data_tag = true)
  (Helem : String.eqb elem_tag "pipeline" || Py.contains "ObjectData" elem_tag = false)
  (Hinside : Forall (fun e => String.eqb (tag e) "pipeline"
                              || Py.contains "ObjectData" (tag e) = false)
                    (children pipeline ≫= iter))
  (Hread : foldlM _parse_data_flow_task_body ([], []) (children pipeline)
           = Ok (components, paths)) :
  let elem := mkElement elem_tag elem_attrib elem_text
                [ mkElement data_tag data_attrib data_text [ pipeline ] ] in
  DataFlowTask.components <$> _parse_data_flow_task elem = Ok (components ++ components)
  /\ DataFlowTask.paths <$> _parse_data_flow_task elem = Ok (paths ++ paths).
Proof.
  intros elem.
  assert (Hdata_tag : String.eqb data_tag "pipeline" = false).
  { destruct (String.eqb_spec data_tag "pipeline") as [->|]; [discriminate Hdata|reflexivity]. }
  apply orb_false_iff in Helem as [Helem1 Helem2].
  assert (Hnone : forall test : Element -> bool,
            (forall e, String.eqb (tag e) "pipeline"
                       || Py.contains "ObjectData" (tag e) = false ->
                       test e = false) ->
            where_ test (children pipeline ≫= iter) = []).
  { intros test Htest. unfold where_.
    induction Hinside as [|e l He _ IH]; [reflexivity|].
    simpl. rewrite (Htest e He). exact IH. }
  assert (Hinner : where_ (fun p => String.eqb (tag p) "pipeline") (iter pipeline) = [pipeline]).
  { rewrite iter_unfold, where_cons, Hpipeline.
    change (String.eqb "pipeline" "pipeline") with true. cbn iota.
    f_equal. apply Hnone. intros e He. apply orb_false_iff in He as [He _]. exact He. }
  assert (Hlist :
    (obj_data ← where_ (fun obj_data => String.eqb (tag obj_data) "pipeline"
                                         || Py.contains "ObjectData" (tag obj_data))
                       (iter elem);
     pipeline ← where_ (fun pipeline => String.eqb (tag pipeline) "pipeline") (iter obj_data);
     children pipeline)
    = children pipeline ++ children pipeline).
  { assert (Houter : where_ (fun obj_data => String.eqb (tag obj_data) "pipeline"
                                               || Py.contains "ObjectData" (tag obj_data))
                             (iter elem)
                      = [ mkElement data_tag data_attrib data_text [ pipeline ]; pipeline ]).
    { subst elem. rewrite iter_unfold. cbn [children].
      rewrite bind_cons, bind_nil, app_nil_r, where_cons. cbn [tag].
      rewrite Helem1, Helem2. cbn [orb].
      rewrite iter_unfold. cbn [children].
      rewrite bind_cons, bind_nil, app_nil_r, where_cons. cbn [tag].
      rewrite Hdata_tag, Hdata. cbn [orb]. f_equal.
      rewrite iter_unfold, where_cons, Hpipeline.
      change (String.eqb "pipeline" "pipeline") with true. cbn [orb]. f_equal.
      apply Hnone. auto. }
    assert (Hdata_inner : where_ (fun p => String.eqb (tag p) "pipeline")
                                 (iter (mkElement data_tag data_attrib data_text [ pipeline ]))
                          = [ pipeline ]).
    { rewrite iter_unfold. cbn [children].
      rewrite bind_cons, bind_nil, app_nil_r, where_cons. cbn [tag].
      rewrite Hdata_tag. exact Hinner. }
    rewrite Houter, !bind_cons, bind_nil, Hdata_inner, Hinner.
    rewrite !bind_cons, !bind_nil, !app_nil_r. reflexivity. }
  unfold _parse_data_flow_task. rewrite Hlist.
  assert (Hboth : foldlM _parse_data_flow_task_body ([], [])
                    (children pipeline ++ children pipeline)
                  = Ok (components ++ components, paths ++ paths)).
  { apply foldlM_app. exists (components, paths). split; [exact Hread|].
    apply parse_data_flow_task_body_shift. exact Hread. }
  rewrite Hboth. split; reflexivity.
Qed.

(** The hypotheses of property X12 hold of a task with a source and a
    destination: the parser returns four components. *)
Lemma pipeline_in_object_data_is_read_twice_witness :
  (fun task => DataFlowComponent.name <$> DataFlowTask.components task)
    <$> _parse_data_flow_task data_flow_elem
  = Ok [ "Read Orders"; "Write Orders"; "Read Orders"; "Write Orders" ].
Proof.
  assert (Hread : exists components paths,
            foldlM _parse_data_flow_task_body ([], []) (children pipeline_elem)
            = Ok (components, paths)
            /\ DataFlowComponent.name <$> components = [ "Read Orders"; "Write Orders" ]).
  { eexists _, _. split; vm_compute; reflexivity. }
  destruct Hread as (components & paths & Hread & Hnames).
  destruct (pipeline_in_object_data_is_read_twice
              (dts "Executable")
              [ (dts "refId", ref ["Package"; "Load"]);
                (dts "ExecutableType", "Microsoft.Pipeline"); (dts "ObjectName", "Load") ]
              None (dts "ObjectData") [] None pipeline_elem components paths
              eq_refl eq_refl eq_refl)
    as [Hcomponents _].
  - vm_compute. repeat constructor.
  - exact Hread.
  - change (mkElement (dts "Executable") _ None
              [ mkElement (dts "ObjectData") [] None [ pipeline_elem ] ])
      with data_flow_elem in Hcomponents.
    destruct (_parse_data_flow_task data_flow_elem) as [task|e]; [|discriminate].
    simpl in *. injection Hcomponents as ->. rewrite fmap_app, Hnames. reflexivity.
Defined.

(** *** Parsing again *)

Lemma parse_root_again re_search re_findall package0 package1 root package :
  parse_root re_search re_findall package0 root = Ok package ->
  parse_root re_search re_findall package1 root
  = Ok (DtsxPackage.mk (DtsxPackage.metadata package) (DtsxPackage.annotations package)
          (DtsxPackage.connection_managers package) (DtsxPackage.variables package)
          (DtsxPackage.parameters package) (DtsxPackage.control_flow_stages package)
          (DtsxPackage.data_flow_tasks package) (DtsxPackage.error_handling package)
          (_extract_database_objects re_findall package1)
          (DtsxPackage.thresholds package)
          (_extract_alerts package1)
          (DtsxPackage.data_flow_diagrams package)
          (DtsxPackage.raw_precedence_constraints package)).
Proof.
  unfold parse_root. intros H.
  repeat inv_bind H. destruct a1 as [stages constraints]. repeat inv_bind H.
  injection H as <-. rewrite Ha, Ha0, Ha1. simpl. rewrite Ha2, Ha3. reflexivity.
Qed.

(** Property X13.  When [parse] is called twice on one parser object and the
    file has not changed, the second package is the first one except for its
    database objects and its alerts, which are mined from the first package. *)
Theorem second_parse_mines_the_first_package
  (ET_parse : string -> outcome Element)
  (re_search : string -> string -> option string)
  (re_findall : string -> string -> list string)
  (self : DtsxParser.t) (first second : DtsxPackage.t)
  (Hfirst : (parse ET_parse re_search re_findall self).1 = Ok first)
  (Hsecond : (parse ET_parse re_search re_findall
                (parse ET_parse re_search re_findall self).2).1 = Ok second) :
  second
  = DtsxPackage.mk (DtsxPackage.metadata first) (DtsxPackage.annotations first)
      (DtsxPackage.connection_managers first) (DtsxPackage.variables first)
      (DtsxPackage.parameters first) (DtsxPackage.control_flow_stages first)
      (DtsxPackage.data_flow_tasks first) (DtsxPackage.error_handling first)
      (_extract_database_objects re_findall (Some first))
      (DtsxPackage.thresholds first)
      (_extract_alerts (Some first))
      (DtsxPackage.data_flow_diagrams first)
      (DtsxPackage.raw_precedence_constraints first).
Proof.
  unfold parse in *.
  destruct (ET_parse (DtsxParser.file_path self)) as [root|e] eqn:Hroot; [|discriminate].
  simpl in *.
  destruct (parse_root re_search re_findall (DtsxParser.package self) root)
    as [package|e] eqn:Hparsed; [|discriminate].
  simpl in *. injection Hfirst as ->. rewrite Hroot in Hsecond. simpl in Hsecond.
  rewrite (parse_root_again _ _ _ (Some first) _ _ Hparsed) in Hsecond.
  simpl in Hsecond. injection Hsecond as <-. reflexivity.
Qed.

(** The hypotheses of property X13 hold of the document with a mail task in a
    container. *)
Lemma second_parse_mines_the_first_package_witness :
  let parse_doc := parse (fun _ => Ok mail_doc) no_search no_findall in
  exists first second,
    (parse_doc (__init__ "package.dtsx")).1 = Ok first
    /\ (parse_doc (parse_doc (__init__ "package.dtsx")).2).1 = Ok second
    /\ DtsxPackage.alerts first = []
    /\ DtsxPackage.alerts second = _extract_alerts (Some first).
Proof.
  intros parse_doc.
  assert (H1 : exists first, (parse_doc (__init__ "package.dtsx")).1 = Ok first
                             /\ DtsxPackage.alerts first = [])
    by (eexists; split; vm_compute; reflexivity).
  destruct H1 as (first & H1 & Halerts).
  assert (H2 : exists second,
            (parse_doc (parse_doc (__init__ "package.dtsx")).2).1 = Ok second)
    by (eexists; vm_compute; reflexivity).
  destruct H2 as (second & H2).
  exists first, second. split; [exact H1|]. split; [exact H2|]. split; [exact Halerts|].
  rewrite (second_parse_mines_the_first_package (fun _ => Ok mail_doc) no_search no_findall
             (__init__ "package.dtsx") first second H1 H2).
  reflexivity.
Defined.

(** *** The routes of a parsed component *)

Lemma mapM_Ok {A B} (f : A -> outcome B) (l : list A) : forall ys,
  mapM f l = Ok ys -> Forall2 (fun x y => f x = Ok y) l ys.
Proof.
  induction l as [|x l IH]; simpl; intros ys H.
  - injection H as <-. constructor.
  - inv_bind H. inv_bind H. injection H as <-. constructor; [exact Ha|]. apply IH. exact Ha0.
Qed.

Lemma conditional_output_of_flagged output_name out_props conds :
  conditional_output_of output_name out_props = Ok conds ->
  Forall (fun cond => truthy_str (ConditionalOutput.expression cond)
                      || truthy (ConditionalOutput.is_default cond) = true
                      /\ ConditionalOutput.name cond = output_name) conds.
Proof.
  unfold conditional_output_of. intros H. inv_bind H.
  destruct (truthy_str (op_expr a) || truthy (op_is_default a)) eqn:E;
    injection H as <-; repeat constructor. exact E.
Qed.

Lemma concat_Forall {A} (P : A -> Prop) (ls : list (list A)) :
  Forall (Forall P) ls -> Forall P (concat ls).
Proof.
  induction 1 as [|l ls Hl _ IH]; simpl; [constructor|]. apply Forall_app. auto.
Qed.

Lemma output_body_flagged output is_error conds cols :
  output_body output = Ok (is_error, conds, cols) ->
  Forall (fun cond => truthy_str (ConditionalOutput.expression cond)
                      || truthy (ConditionalOutput.is_default cond) = true) conds.
Proof.
  unfold output_body. intros H. inv_bind H. inv_bind H. injection H as _ <- _.
  apply concat_Forall. apply mapM_Ok in Ha.
  induction Ha as [|x y l ys Hxy _ IH]; constructor; [|exact IH].
  apply conditional_output_of_flagged in Hxy.
  eapply Forall_impl; [exact Hxy|]. intros cond [Hc _]. exact Hc.
Qed.

Lemma parse_data_flow_component_fields elem comp :
  _parse_data_flow_component elem = Ok comp ->
  DataFlowComponent.component_type comp ∈ [ "Source"; "Destination"; "Transform" ]
  /\ Forall (fun cond => truthy_str (ConditionalOutput.expression cond)
                         || truthy (ConditionalOutput.is_default cond) = true)
            (DataFlowComponent.conditional_outputs comp).
Proof.
  unfold _parse_data_flow_component. intros H.
  destruct (foldl _ (∅, None, None) _) as [[props sql_command] table_name].
  inv_bind H. inv_bind H. injection H as <-. simpl. split.
  - destruct (Py.contains "Source" _); [set_solver|].
    destruct (Py.contains "Destination" _); set_solver.
  - apply concat_Forall. apply mapM_Ok in Ha. apply Forall_fmap.
    induction Ha as [|x [[is_error conds] cols] l ys Hxy _ IH]; constructor; [|exact IH].
    simpl. exact (output_body_flagged _ _ _ _ Hxy).
Qed.

(** Property X14.  A component that the parser returns is typed [Source],
    [Destination] or [Transform]; each of its conditional outputs carries an
    expression that is not empty or is flagged as the default; and the
    routing listing therefore shows a condition for every one of them. *)
Theorem parsed_routes_carry_a_condition
  (elem : Element) (comp : DataFlowComponent.t) (cond : ConditionalOutput.t)
  (dft : DataFlowTask.t) (i : nat)
  (Hparsed : _parse_data_flow_component elem = Ok comp)
  (Hcond : cond ∈ DataFlowComponent.conditional_outputs comp) :
  DataFlowComponent.component_type comp ∈ [ "Source"; "Destination"; "Transform" ]
  /\ truthy_str (ConditionalOutput.expression cond)
     || truthy (ConditionalOutput.is_default cond) = true
  /\ exists condition rest,
       route_lines dft i cond
       = [ "    Route " +:+ Py.str_of_nat i +:+ ": " +:+ ConditionalOutput.name cond;
           "      Condition: " +:+ condition ] ++ rest.
Proof.
  destruct (parse_data_flow_component_fields _ _ Hparsed) as [Htype Hflag].
  rewrite Forall_forall in Hflag. specialize (Hflag cond Hcond).
  split; [exact Htype|]. split; [exact Hflag|].
  unfold route_lines.
  destruct (truthy (ConditionalOutput.is_default cond)) eqn:Hd.
  - eexists _, _. reflexivity.
  - rewrite orb_false_r in Hflag. rewrite Hflag.
    destruct (truthy_str (ConditionalOutput.friendly_expression cond));
      eexists _, _; reflexivity.
Qed.

(** The hypotheses of property X14 hold of a conditional split and its default
    output. *)
Lemma parsed_routes_carry_a_condition_witness :
  exists comp cond,
    _parse_data_flow_component split_elem = Ok comp
    /\ DataFlowComponent.conditional_outputs comp !! 1 = Some cond
    /\ ConditionalOutput.name cond = "Default"
    /\ truthy_str (ConditionalOutput.expression cond)
       || truthy (ConditionalOutput.is_default cond) = true.
Proof.
  assert (H : exists comp cond,
            _parse_data_flow_component split_elem = Ok comp
            /\ DataFlowComponent.conditional_outputs comp !! 1 = Some cond
            /\ ConditionalOutput.name cond = "Default")
    by (eexists _, _; repeat split; vm_compute; reflexivity).
  destruct H as (comp & cond & H & Hlookup & Hname). exists comp, cond.
  split; [exact H|]. split; [exact Hlookup|]. split; [exact Hname|].
  apply (parsed_routes_carry_a_condition split_elem comp cond split_task 2 H).
  exact (list_elem_of_lookup_2 _ _ _ Hlookup).
Defined.

(** *** The drawing of the control flow *)

Lemma repeat_len (c : ascii) (n : nat) : Py.len (Py.repeat (String c EmptyString) n) = n.
Proof.
  induction n as [|n IH]; [reflexivity|].
  cbn [Py.repeat]. rewrite str_app_len, IH. reflexivity.
Qed.

Lemma center_len (width : nat) (s : string) :
  Py.len (Py.center width s) = Nat.max width (Py.len s).
Proof.
  unfold Py.center. rewrite !str_app_len, !repeat_len.
  pose proof (Nat.div_mod_eq (width - Py.len s) 2) as Hdiv.
  pose proof (Nat.mod_upper_bound (width - Py.len s) 2) as Hmod.
  destruct (Nat.odd (width - Py.len s) && Nat.odd width) eqn:E.
  - apply andb_true_iff in E as [E _]. apply Nat.odd_spec in E as [k Hk]. lia.
  - lia.
Qed.

Lemma name_fits_box (stages : list ControlFlowStage.t) (stage : ControlFlowStage.t) :
  stage ∈ stages -> Py.len (ControlFlowStage.name stage) <= box_width stages.
Proof.
  unfold box_width. intros Hin.
  assert (Hmax : Py.len (ControlFlowStage.name stage)
                 <= foldr Nat.max 0 ((fun stage => Py.len (ControlFlowStage.name stage))
                                       <$> stages)).
  { induction stages as [|s stages IH]; [inversion Hin|].
    rewrite fmap_cons. simpl. apply elem_of_cons in Hin as [->|Hin]; [lia|].
    specialize (IH Hin). lia. }
  destruct stages; [inversion Hin|]. lia.
Qed.

Lemma box_occurs (w : nat) (stages : list ControlFlowStage.t) (stage : ControlFlowStage.t) :
  stage ∈ stages ->
  occurs_in
    [ "    " +:+ "+" +:+ Py.repeat "-" w +:+ "+";
      "    " +:+ "|" +:+ Py.center w (ControlFlowStage.name stage) +:+ "|";
      "    " +:+ "|" +:+ Py.center w ("(" +:+ ControlFlowStage.stage_type stage +:+ ")")
        +:+ "|";
      "    " +:+ "+" +:+ Py.repeat "-" w +:+ "+" ]
    (ascii_control_flow_boxes w stages).
Proof.
  induction stages as [|s stages IH]; intros Hin; [inversion Hin|].
  cbn [ascii_control_flow_boxes].
  apply elem_of_cons in Hin as [->|Hin].
  - apply occurs_in_app_l. apply occurs_in_refl.
  - apply occurs_in_app_r. apply occurs_in_app_r. apply IH. exact Hin.
Qed.

(** Property X15.  In the drawing of the control flow every stage has its
    box of four lines; the line with the name of the stage is exactly as
    long as the border of the box, and so is the line with its type unless
    the type and its parentheses are wider than the box, in which case that
    line sticks out. *)
Theorem control_flow_boxes_are_aligned
  (package : DtsxPackage.t) (stage : ControlFlowStage.t)
  (Hstage : stage ∈ DtsxPackage.control_flow_stages package) :
  let stages := DtsxPackage.control_flow_stages package in
  let w := box_width stages in
  let border := "    " +:+ "+" +:+ Py.repeat "-" w +:+ "+" in
  let name_line := "    " +:+ "|" +:+ Py.center w (ControlFlowStage.name stage) +:+ "|" in
  let type_line :=
    "    " +:+ "|" +:+ Py.center w ("(" +:+ ControlFlowStage.stage_type stage +:+ ")")
      +:+ "|" in
  _generate_ascii_control_flow package
  = Py.join nl ([ Py.repeat "=" 60; " CONTROL FLOW DIAGRAM"; Py.repeat "=" 60; EmptyString ]
                ++ ascii_control_flow_boxes w stages)
  /\ occurs_in [ border; name_line; type_line; border ] (ascii_control_flow_boxes w stages)
  /\ Py.len name_line = Py.len border
  /\ (Py.len (ControlFlowStage.stage_type stage) + 2 <= w ->
      Py.len type_line = Py.len border)
  /\ (w < Py.len (ControlFlowStage.stage_type stage) + 2 ->
      Py.len border < Py.len type_line).
Proof.
  intros stages w border name_line type_line.
  split; [reflexivity|]. split; [exact (box_occurs w stages stage Hstage)|].
  pose proof (name_fits_box stages stage Hstage) as Hfit. fold w in Hfit.
  subst border name_line type_line.
  rewrite !str_app_len, !center_len, !repeat_len, !str_app_len.
  unfold Py.len in *. cbn [String.length].
  split; [|split]; intros; lia.
Qed.

(** The hypothesis of property X15 holds of the second of the two linked
    stages. *)
Lemma control_flow_boxes_are_aligned_witness :
  Py.len ("    " +:+ "|" +:+ Py.center (box_width linked_result) "Load" +:+ "|")
  = Py.len ("    " +:+ "+" +:+ Py.repeat "-" (box_width linked_result) +:+ "+").
Proof.
  assert (Hstage : ControlFlowStage.mk 2 "Load" "SqlTask" None []
                     [ ref ["Package"; "Extract"] ] [] (Some "@[User::Rows] > 0")
                   ∈ linked_result)
    by (apply list_elem_of_In; right; left; reflexivity).
  exact (proj1 (proj2 (proj2
    (control_flow_boxes_are_aligned
       (DtsxPackage.mk
          (PackageMetadata.mk "Package" EmptyString None None None None None None None None
             None)
          [] [] [] [] linked_result [] None [] [] [] [] [])
       _ Hstage)))).
Defined.

(** *** Connection managers *)

Lemma clean_attr_bare (attr : string) : Py.contains "}" (clean_attr attr) = false.
Proof.
  unfold clean_attr. destruct (Py.contains "}" attr) eqn:E; [|exact E].
  exact (proj1 (last_part_split_single "}" attr)).
Qed.

Lemma connection_managers_object_data_bare st child :
  bare_keys st.2 -> bare_keys (_parse_connection_managers_object_data st child).2.
Proof.
  destruct st as [conn_string props]. unfold _parse_connection_managers_object_data.
  cbn [snd]. intros H.
  destruct (Py.contains "ConnectionManager" (tag child)).
  - cbn [snd]. apply foldl_invariant; [|exact H].
    intros props' [attr v] Hprops'.
    destruct (String.eqb_spec (clean_attr attr) "ConnectionString") as [He|Hne];
      [exact Hprops'|].
    intros key Hkey. apply lookup_insert_is_Some in Hkey as [<-|[_ Hkey]].
    + split; [apply clean_attr_bare|exact Hne].
    + apply Hprops'. exact Hkey.
  - destruct (Py.contains "SmtpConnectionManager" (tag child)); exact H.
Qed.

(** The branch for an SMTP connection manager is never taken: a tag that
    holds [SmtpConnectionManager] holds [ConnectionManager]. *)
Lemma smtp_connection_manager_is_connection_manager (t : string) :
  Py.contains "SmtpConnectionManager" t = true -> Py.contains "ConnectionManager" t = true.
Proof. exact (contains_suffix_of_needle "Smtp" "ConnectionManager" t). Qed.

(** Property X16.  Of every connection manager that the parser returns: the
    keys of its properties are attribute names without namespace, none of
    them [ConnectionString]; and without a connection string (none, or an
    empty one) it has no server, no database and no provider, whatever the
    regular expressions would match. An SMTP connection manager is read as
    any other: its attributes are collected as properties. *)
Theorem connection_manager_properties_are_bare
  (re_search : string -> string -> option string) (root : Element)
  (manager : ConnectionManager.t)
  (Hparsed : manager ∈ _parse_connection_managers re_search root) :
  (forall key, is_Some (ConnectionManager.properties manager !! key) ->
     Py.contains "}" key = false /\ key <> "ConnectionString")
  /\ (truthy_str (ConnectionManager.connection_string manager) = false ->
      ConnectionManager.server manager = None
      /\ ConnectionManager.database manager = None
      /\ ConnectionManager.provider manager = None)
  /\ (forall st child,
        Py.contains "SmtpConnectionManager" (tag child) = true ->
        _parse_connection_managers_object_data st child
        = (get_attr_opt child "ConnectionString",
           foldl (fun props '(attr, v) =>
                    if String.eqb (clean_attr attr) "ConnectionString" then props
                    else <[clean_attr attr := v]> props)
                 st.2 (attrib child))).
Proof.
  unfold _parse_connection_managers in Hparsed.
  apply list_elem_of_bind in Hparsed as (elem & Hparsed & _).
  apply list_elem_of_bind in Hparsed as (conn & Hparsed & _).
  match type of Hparsed with
  | context [foldl _parse_connection_managers_object_data ?st0 ?l] =>
      pose proof (foldl_invariant (fun st => bare_keys st.2)
                    _parse_connection_managers_object_data l st0) as Hbare;
      destruct (foldl _parse_connection_managers_object_data st0 l) as [conn_string props]
  end.
  assert (Hprops : bare_keys props).
  { apply Hbare.
    - intros st child. apply connection_managers_object_data_bare.
    - intros key [v Hv]. simpl in Hv. rewrite lookup_empty in Hv. discriminate. }
  assert (Hsmtp : forall st child,
            Py.contains "SmtpConnectionManager" (tag child) = true ->
            _parse_connection_managers_object_data st child
            = (get_attr_opt child "ConnectionString",
               foldl (fun props '(attr, v) =>
                        if String.eqb (clean_attr attr) "ConnectionString" then props
                        else <[clean_attr attr := v]> props)
                     st.2 (attrib child))).
  { intros [c p] child Hsmtp. unfold _parse_connection_managers_object_data.
    rewrite (smtp_connection_manager_is_connection_manager _ Hsmtp). reflexivity. }
  unfold _parse_connection_string in Hparsed.
  destruct (truthy_str conn_string) eqn:Hstring; simpl in Hparsed;
    apply list_elem_of_singleton in Hparsed as ->; simpl.
  - split; [exact Hprops|]. split; [congruence|exact Hsmtp].
  - split; [exact Hprops|]. split; [auto|exact Hsmtp].
Qed.

(** The hypothesis of property X16 holds of a document with one connection
    manager. *)
Lemma connection_manager_properties_are_bare_witness :
  exists manager,
    _parse_connection_managers no_search connections_doc = [ manager ]
    /\ ConnectionManager.properties manager !! "Retain" = Some "True"
    /\ Py.contains "}" "Retain" = false.
Proof.
  assert (H : exists manager,
            _parse_connection_managers no_search connections_doc = [ manager ]
            /\ ConnectionManager.properties manager !! "Retain" = Some "True")
    by (eexists; split; vm_compute; reflexivity).
  destruct H as (manager & Hparsed & Hretain). exists manager.
  split; [exact Hparsed|]. split; [exact Hretain|].
  assert (Hin : manager ∈ _parse_connection_managers no_search connections_doc)
    by (rewrite Hparsed; apply list_elem_of_singleton; reflexivity).
  destruct (connection_manager_properties_are_bare no_search connections_doc manager Hin)
    as (Hbare & _).
  apply (Hbare "Retain"). rewrite Hretain. eauto.
Defined.

(** *** The neighbours of a parsed stage *)

Lemma parsed_stage_starts_unlinked executables i stage :
  (_parse_control_flow_stages executables).2 !! i = Some stage ->
  ControlFlowStage.precedence_to stage = []
  /\ ControlFlowStage.precedence_from stage = []
  /\ ControlFlowStage.condition stage = None.
Proof.
  rewrite parse_control_flow_stages_spec, list_lookup_imap.
  destruct (executables !! i) as [e|]; [|discriminate].
  simpl. intros [= <-]. auto.
Qed.

(** Property X17.  In the control flow that the parser returns, no stage
    lists a successor or a predecessor twice; every successor listed is the
    target of a constraint of the document whose source resolves to the
    stage, and every predecessor the source of a constraint whose target
    resolves to it; and the condition of a stage, if it has one, is the
    guard of such a constraint. *)
Theorem parsed_stages_list_each_neighbour_once
  (root : Element) (stages : list ControlFlowStage.t)
  (constraints : list PrecedenceConstraint.t) (k : nat) (stage : ControlFlowStage.t)
  (Hparsed : _parse_control_flow root = Ok (stages, constraints))
  (Hstage : stages !! k = Some stage) :
  let resolves ref :=
    build_stage_by_ref (_parse_control_flow_stages (stage_elements root)).2 constraints
      !! ref = Some k in
  NoDup (ControlFlowStage.precedence_to stage)
  /\ NoDup (ControlFlowStage.precedence_from stage)
  /\ (forall r, r ∈ ControlFlowStage.precedence_to stage <->
        exists c, c ∈ constraints /\ resolves (PrecedenceConstraint.from_ref c)
                  /\ PrecedenceConstraint.to_ref c = r)
  /\ (forall r, r ∈ ControlFlowStage.precedence_from stage <->
        exists c, c ∈ constraints /\ resolves (PrecedenceConstraint.to_ref c)
                  /\ PrecedenceConstraint.from_ref c = r)
  /\ (ControlFlowStage.condition stage = None
      \/ exists c, c ∈ constraints
           /\ truthy_str (PrecedenceConstraint.expression c) = true
           /\ resolves (PrecedenceConstraint.to_ref c)
           /\ ControlFlowStage.condition stage = PrecedenceConstraint.expression c).
Proof.
  intros resolves. unfold _parse_control_flow in Hparsed.
  inv_bind Hparsed. inv_bind Hparsed. injection Hparsed as <- <-.
  unfold _link_stages_with_precedence in Ha0.
  set (stages0 := (_parse_control_flow_stages (stage_elements root)).2) in *.
  set (m := build_stage_by_ref stages0 a) in *.
  assert (Hlt : k < length stages0).
  { rewrite <- (foldlM_link_length m _ _ _ Ha0). eapply lookup_lt_Some. exact Hstage. }
  apply lookup_lt_is_Some_2 in Hlt. destruct Hlt as [s0 Hs0].
  destruct (parsed_stage_starts_unlinked _ _ _ Hs0) as (Hto0 & Hfrom0 & Hcond0).
  destruct (foldlM_link_lookup m _ _ _ _ _ Ha0 Hs0) as (s' & Hs' & _ & Hto & Hfrom).
  rewrite Hstage in Hs'. injection Hs' as <-.
  destruct (collect_spec (from_hits m k) PrecedenceConstraint.to_ref a
              (ControlFlowStage.precedence_to s0)) as (succs & Hsucc & Hnd1 & Hin1).
  destruct (collect_spec (to_hits m k) PrecedenceConstraint.from_ref a
              (ControlFlowStage.precedence_from s0)) as (preds & Hpred & Hnd2 & Hin2).
  rewrite Hto0 in *. rewrite Hfrom0 in *. simpl in Hsucc, Hpred.
  rewrite Hto, Hsucc, Hfrom, Hpred.
  split; [exact Hnd1|]. split; [exact Hnd2|]. split; [|split].
  - intros r. rewrite Hin1. unfold from_hits, resolves. split.
    + intros (_ & c & Hc & Hh & Hp). exists c. apply bool_decide_eq_true in Hh. auto.
    + intros (c & Hc & Hh & Hp). split; [intros Hn; inversion Hn|]. exists c.
      split; [exact Hc|]. split; [apply bool_decide_eq_true; exact Hh|exact Hp].
  - intros r. rewrite Hin2. unfold to_hits, resolves. split.
    + intros (_ & c & Hc & Hh & Hp). exists c. apply bool_decide_eq_true in Hh. auto.
    + intros (c & Hc & Hh & Hp). split; [intros Hn; inversion Hn|]. exists c.
      split; [exact Hc|]. split; [apply bool_decide_eq_true; exact Hh|exact Hp].
  - destruct (foldlM_link_condition m _ _ _ _ _ _ Ha0 Hs0 Hstage)
      as [Hc|(c & Hc & Hg & Hres & _ & Hcond)].
    + left. rewrite Hc. exact Hcond0.
    + right. exists c. auto.
Qed.

(** The hypotheses of property X17 hold of the second stage of the document
    with three stages in sequence. *)
Lemma parsed_stages_list_each_neighbour_once_witness :
  exists stages constraints stage,
    _parse_control_flow sequential_doc = Ok (stages, constraints)
    /\ stages !! 1 = Some stage
    /\ ControlFlowStage.name stage = "Transform"
    /\ NoDup (ControlFlowStage.precedence_to stage)
    /\ NoDup (ControlFlowStage.precedence_from stage).
Proof.
  assert (H : exists stages constraints stage,
            _parse_control_flow sequential_doc = Ok (stages, constraints)
            /\ stages !! 1 = Some stage
            /\ ControlFlowStage.name stage = "Transform")
    by (eexists _, _, _; repeat split; vm_compute; reflexivity).
  destruct H as (stages & constraints & stage & Hparsed & Hstage & Hname).
  exists stages, constraints, stage.
  split; [exact Hparsed|]. split; [exact Hstage|]. split; [exact Hname|].
  destruct (parsed_stages_list_each_neighbour_once sequential_doc stages constraints 1 stage
              Hparsed Hstage) as (Hto & Hfrom & _).
  split; assumption.
Defined.
